(** * runbuncalc: trainer-preset resolution and matchup orchestration

    A shallow embedding of [graphql_server.js] and [cli_calc.js]:
    the option merger [getPokemonOptions], the per-move formatter
    [getFormattedResult], the two resolvers [calculateDamage] and
    [getTrainerPokemonSets], and the CLI entry point [calculateDamageCLI].

    Conventions.
    - A JavaScript string is a [string]: each [ascii] stands for the code
      unit of the same number (0..255).
    - A JavaScript object used as a map from property names to values is a
      [gmap string _]; object spread [{...a, ...b}] is [b ∪ a].
    - An object whose enumeration order matters (the per-species table of
      sets walked by [for (const setName in speciesSets)]) is an association
      list in enumeration order.
    - [undefined] and [null] are both [None]; the code only ever tests them
      for truthiness.
    - [throw] is the [Throw] outcome; calls into [@smogon/calc] are recorded
      in a call log threaded through the computation.
    - An [Error] names the [throw] statement that raised it; the wording of
      its message, which differs between the two files in one place, is
      given by [Graphql.thrownText], [Graphql.listingText] and
      [Cli.thrownText].
    - The repository's third source file, an earlier one-direction version of
      [calculateDamageCLI], carries the same formatter as a closure: its
      embedding, [Legacy], uses [getFormattedResult] and [moveCalculations]
      as they stand.
    - [loadSetdex] runs against a [Host] that stands for what it uses of
      Node's [fs], [path] and [vm]. *)

From Stdlib Require Import ZArith Lia Bool Ascii String.
From stdpp Require Import gmap strings list fin_maps pretty.

Local Open Scope string_scope.
Local Open Scope Z_scope.

(** ** JavaScript values and operators *)

Module Js.

(** [a || b] on an optional number: [undefined], [null] and [0] are falsy. *)
Definition truthy_num (v : option Z) : bool :=
  match v with
  | Some n => negb (n =? 0)
  | None => false
  end.

(** [a || b] on an optional string: [undefined], [null] and [""] are falsy. *)
Definition truthy_str (v : option string) : bool :=
  match v with
  | Some s => negb (String.eqb s "")
  | None => false
  end.

(** [v || d] with a number default. *)
Definition num_or (v : option Z) (d : Z) : Z :=
  match v with
  | Some n => if n =? 0 then d else n
  | None => d
  end.

(** [v || d] with a string default. *)
Definition str_or (v : option string) (d : string) : string :=
  match v with
  | Some s => if String.eqb s "" then d else s
  | None => d
  end.

(** [a || b] where [b] may itself be [undefined]. *)
Definition opt_str_or (a b : option string) : option string :=
  if truthy_str a then a else b.

(** [v || false]. *)
Definition bool_or_false (v : option bool) : bool :=
  match v with
  | Some b => b
  | None => false
  end.

(** [v || d] for a value that is truthy whenever it is present (an object
    or an array). *)
Definition obj_or {A} (v : option A) (d : A) : A :=
  match v with
  | Some a => a
  | None => d
  end.

(** [s.split(" ")[0]]: the code units before the first space. *)
Fixpoint firstWord (s : string) : string :=
  match s with
  | EmptyString => EmptyString
  | String c rest =>
      if Ascii.eqb c " "%char then EmptyString else String c (firstWord rest)
  end.

(** A number as [Math.floor(x) / 10] leaves it: a count of tenths, or one of
    the three non-finite values a division by zero produces. *)
Inductive Number :=
| Tenths (n : Z)
| PosInfinity
| NegInfinity
| NaN.

(** The integers a double holds exactly. *)
Definition safe (n : Z) : Prop := Z.abs n < 2 ^ 53.

(** [Math.floor((damage * 1000) / maxHP) / 10] on integers.  [Z.div] rounds
    toward minus infinity for either sign of the divisor, as [Math.floor] of
    the exact quotient does.  The code computes on doubles: this is its
    value when [safe (damage * 1000)] and [safe maxHP], for then the product
    is exact and the double nearest the quotient lies between the same two
    integers as the quotient.  Beyond that range the doubles round and the
    definition does not follow them; every property of a percentage below
    assumes both bounds.  The final division by ten is kept exact: the
    result is a count of tenths. *)
Definition percentage (damage maxHP : Z) : Number :=
  if maxHP =? 0 then
    (if damage =? 0 then NaN
     else if 0 <? damage then PosInfinity else NegInfinity)
  else Tenths ((damage * 1000) / maxHP).

(** The property names every object inherits from [Object.prototype]:
    [obj[key]] finds a built-in function there (the prototype itself for
    [__proto__]) when [obj] has no property of that name of its own. *)
Definition inherited (key : string) : bool :=
  existsb (String.eqb key)
    ["constructor"; "hasOwnProperty"; "isPrototypeOf";
     "propertyIsEnumerable"; "toLocaleString"; "toString"; "valueOf";
     "__proto__"; "__defineGetter__"; "__defineSetter__";
     "__lookupGetter__"; "__lookupSetter__"].

End Js.

(** ** The regular expressions the resolvers build

    Both resolvers call [new RegExp(pattern, "i")] and then [test].  This is
    a model of that constructor and of [test] for the patterns whose meaning
    is settled by a left-to-right scan: literal code units, [.], the
    assertions [^ $ \b \B], identity escapes of punctuation, groups,
    alternation and the greedy quantifiers [* + ?].  A pattern that uses
    anything else (a character class, a braced quantifier, a lazy quantifier,
    [(?...)], an escape of a letter or digit other than [\b] and [\B]) is
    [Unsupported]: the model says nothing about it. *)

Module RegExp.

Definition code (c : ascii) : Z := Z.of_N (N_of_ascii c).

Definition between (lo hi : Z) (c : ascii) : bool :=
  (lo <=? code c) && (code c <=? hi).

(** [\w] without the [u] flag: [A-Za-z0-9_]. *)
Definition isWordChar (c : ascii) : bool :=
  between 65 90 c || between 97 122 c || between 48 57 c || (code c =? 95).

(** Canonicalize of the [i] flag on code units 0..255: the upper-case form
    when it is a single code unit of the same range. *)
Definition canonicalize (c : ascii) : ascii :=
  if between 97 122 c || (between 224 254 c && negb (code c =? 247))
  then ascii_of_N (N_of_ascii c - 32)
  else c.

Definition isLineTerminator (c : ascii) : bool :=
  (code c =? 10) || (code c =? 13).

Fixpoint inString (c : ascii) (s : string) : bool :=
  match s with
  | EmptyString => false
  | String d rest => Ascii.eqb c d || inString c rest
  end.

Inductive regex :=
| Empty
| Char (c : ascii)
| AnyChar
| WordBoundary
| NotWordBoundary
| InputStart
| InputEnd
| Seq (r1 r2 : regex)
| Alt (r1 r2 : regex)
| Star (r : regex).

Inductive compiled :=
| Compiled (r : regex)
| SyntaxError
| Unsupported.

(** *** The constructor *)

(** What the term just read allows next: a quantifier needs an atom. *)
Inductive last_term := NoAtom | Atom | Quantified.

(** One open group (or the pattern itself): the alternatives already closed
    by [|], the terms of the current alternative, both most recent first. *)
Record frame := {
  closed : list regex;
  terms : list regex;
  last : last_term
}.

Definition new_frame : frame :=
  {| closed := []; terms := []; last := NoAtom |}.

Definition seq_of (ts : list regex) : regex :=
  fold_left (fun acc t => Seq t acc) ts Empty.

Definition close (f : frame) : regex :=
  fold_left (fun acc a => Alt a acc) (closed f) (seq_of (terms f)).

Definition push_atom (r : regex) (f : frame) : frame :=
  {| closed := closed f; terms := r :: terms f; last := Atom |}.

Definition push_assertion (r : regex) (f : frame) : frame :=
  {| closed := closed f; terms := r :: terms f; last := NoAtom |}.

Definition next_alternative (f : frame) : frame :=
  {| closed := seq_of (terms f) :: closed f; terms := []; last := NoAtom |}.

Definition quantified (q : ascii) (r : regex) : regex :=
  if Ascii.eqb q "*" then Star r
  else if Ascii.eqb q "+" then Seq r (Star r)
  else Alt r Empty.

Definition quantify (q : ascii) (f : frame) : frame :=
  match terms f with
  | r :: ts =>
      {| closed := closed f; terms := quantified q r :: ts; last := Quantified |}
  | [] => f
  end.

Fixpoint parse (p : string) (stack : list frame) (top : frame) : compiled :=
  match p with
  | EmptyString =>
      match stack with
      | [] => Compiled (close top)
      | _ :: _ => SyntaxError (* unterminated group *)
      end
  | String c rest =>
      if Ascii.eqb c "(" then
        match rest with
        | String d _ =>
            if Ascii.eqb d "?" then Unsupported
            else parse rest (top :: stack) new_frame
        | EmptyString => parse rest (top :: stack) new_frame
        end
      else if Ascii.eqb c ")" then
        match stack with
        | [] => SyntaxError (* unmatched ')' *)
        | parent :: stack' => parse rest stack' (push_atom (close top) parent)
        end
      else if Ascii.eqb c "|" then parse rest stack (next_alternative top)
      else if inString c "*+?" then
        match last top with
        | Atom => parse rest stack (quantify c top)
        | NoAtom => SyntaxError (* nothing to repeat *)
        | Quantified => if Ascii.eqb c "?" then Unsupported else SyntaxError
        end
      else if Ascii.eqb c "\" then
        match rest with
        | EmptyString => SyntaxError (* \ at end of pattern *)
        | String e rest' =>
            if Ascii.eqb e "b" then
              parse rest' stack (push_assertion WordBoundary top)
            else if Ascii.eqb e "B" then
              parse rest' stack (push_assertion NotWordBoundary top)
            else if isWordChar e then Unsupported
            else parse rest' stack (push_atom (Char e) top)
        end
      else if inString c "[]{}" then Unsupported
      else if Ascii.eqb c "^" then
        parse rest stack (push_assertion InputStart top)
      else if Ascii.eqb c "$" then
        parse rest stack (push_assertion InputEnd top)
      else if Ascii.eqb c "." then parse rest stack (push_atom AnyChar top)
      else parse rest stack (push_atom (Char c) top)
  end.

(** [new RegExp(pattern, "i")]. *)
Definition create (pattern : string) : compiled :=
  parse pattern [] new_frame.

(** *** [test] *)

(** A position in the input: the code unit before it, and what follows. *)
Definition position : Type := option ascii * string.

Definition wordBefore (p : position) : bool :=
  match fst p with
  | Some c => isWordChar c
  | None => false
  end.

Definition wordAfter (p : position) : bool :=
  match snd p with
  | String c _ => isWordChar c
  | EmptyString => false
  end.

Definition atBoundary (p : position) : bool :=
  xorb (wordBefore p) (wordAfter p).

(** Iterations of a starred term; an iteration that consumes nothing is
    dropped, as the specification's empty check does. *)
Fixpoint star (fuel : nat) (step : position -> list position) (p : position)
  : list position :=
  p :: match fuel with
       | O => []
       | S fuel' =>
           flat_map
             (fun q =>
                if (String.length (snd q) <? String.length (snd p))%nat
                then star fuel' step q else [])
             (step p)
       end.

(** The positions at which a match of [r] starting at [p] can end. *)
Fixpoint matchAt (r : regex) (p : position) : list position :=
  match r with
  | Empty => [p]
  | Char c =>
      match snd p with
      | String d rest =>
          if Ascii.eqb (canonicalize c) (canonicalize d)
          then [(Some d, rest)] else []
      | EmptyString => []
      end
  | AnyChar =>
      match snd p with
      | String d rest => if isLineTerminator d then [] else [(Some d, rest)]
      | EmptyString => []
      end
  | WordBoundary => if atBoundary p then [p] else []
  | NotWordBoundary => if atBoundary p then [] else [p]
  | InputStart => match fst p with None => [p] | Some _ => [] end
  | InputEnd => match snd p with EmptyString => [p] | String _ _ => [] end
  | Seq r1 r2 => flat_map (matchAt r2) (matchAt r1 p)
  | Alt r1 r2 => matchAt r1 p ++ matchAt r2 p
  | Star r1 => star (String.length (snd p)) (matchAt r1) p
  end.

Definition matchesAt (r : regex) (p : position) : bool :=
  match matchAt r p with
  | [] => false
  | _ :: _ => true
  end.

(** The search [test] runs without the [g] and [y] flags: every start
    position from the left. *)
Fixpoint searchFrom (r : regex) (prev : option ascii) (s : string) : bool :=
  matchesAt r (prev, s)
  || match s with
     | EmptyString => false
     | String c rest => searchFrom r (Some c) rest
     end.

Definition test (r : regex) (s : string) : bool := searchFrom r None s.

(** [s.replace(/[-\/\\^$*+?.()|[\]{}]/g, "\\$&")]. *)
Fixpoint escape (s : string) : string :=
  match s with
  | EmptyString => EmptyString
  | String c rest =>
      if inString c "-/\^$*+?.()|[]{}"
      then String "\" (String c (escape rest))
      else String c (escape rest)
  end.

(** *** Patterns that are one literal word *)

(** SyntaxCharacter of the pattern grammar. *)
Definition isSyntaxCharacter (c : ascii) : bool :=
  inString c "^$\.*+?()[]{}|".

(** No code unit of [s] is a syntax character. *)
Fixpoint literal (s : string) : bool :=
  match s with
  | EmptyString => true
  | String c rest => negb (isSyntaxCharacter c) && literal rest
  end.

(** The code units of [word], one after the other, then [r]. *)
Fixpoint chars (word : string) (r : regex) : regex :=
  match word with
  | EmptyString => r
  | String c rest => Seq (Char c) (chars rest r)
  end.

(** What [\bword\b] compiles to when [word] is read literally. *)
Definition wholeWordRegex (word : string) : regex :=
  Seq WordBoundary (chars word (Seq WordBoundary Empty)).

(** The frame after reading the code units of [word] as atoms. *)
Fixpoint pushWord (word : string) (f : frame) : frame :=
  match word with
  | EmptyString => f
  | String c rest => pushWord rest (push_atom (Char c) f)
  end.

(** [seq_of] with a tail: the terms, most recent first, in front of [r]. *)
Definition wrap (ts : list regex) (r : regex) : regex :=
  fold_left (fun acc t => Seq t acc) ts r.

End RegExp.

(** ** Whole-word containment, from the specification's words

    "Matches [word] as a whole word, case-insensitively (word-boundary
    containment, not full-string equality)": somewhere in the text stands a
    run of code units equal to [word] up to case, with a word boundary on
    either side of the run. *)

Module Words.

(** The position after [word], read up to case from position [p]. *)
Fixpoint readWord (word : string) (p : RegExp.position)
  : option RegExp.position :=
  match word with
  | EmptyString => Some p
  | String c word' =>
      match snd p with
      | String d rest =>
          if Ascii.eqb (RegExp.canonicalize c) (RegExp.canonicalize d)
          then readWord word' (Some d, rest) else None
      | EmptyString => None
      end
  end.

Definition wholeWordAt (word : string) (p : RegExp.position) : bool :=
  RegExp.atBoundary p
  && match readWord word p with
     | Some q => RegExp.atBoundary q
     | None => false
     end.

Fixpoint occursFrom (word : string) (prev : option ascii) (s : string)
  : bool :=
  wholeWordAt word (prev, s)
  || match s with
     | EmptyString => false
     | String c rest => occursFrom word (Some c) rest
     end.

Definition containsWholeWord (word s : string) : bool :=
  occursFrom word None s.

(** The last code unit of [s], or [prev] when [s] is empty. *)
Fixpoint lastOf (prev : option ascii) (s : string) : option ascii :=
  match s with
  | EmptyString => prev
  | String c rest => lastOf (Some c) rest
  end.

Fixpoint sameUpToCase (a b : string) : bool :=
  match a, b with
  | EmptyString, EmptyString => true
  | String c a', String d b' =>
      Ascii.eqb (RegExp.canonicalize c) (RegExp.canonicalize d)
      && sameUpToCase a' b'
  | _, _ => false
  end.

(** The same containment, said without a scan: [s] splits into three parts,
    the middle one equal to [word] up to case, with a word boundary where
    the middle part starts and where it ends. *)
Definition WholeWord (word s : string) : Prop :=
  exists pre mid post : string,
    s = pre +:+ mid +:+ post
    /\ sameUpToCase word mid = true
    /\ RegExp.atBoundary (lastOf None pre, mid +:+ post) = true
    /\ RegExp.atBoundary (lastOf None (pre +:+ mid), post) = true.

End Words.

(** ** Outcomes of a call *)

Inductive outcome (E A : Type) :=
| Return (a : A)
| Throw (e : E).

Arguments Return {E A} a.
Arguments Throw {E A} e.

Definition obind {E A B} (m : outcome E A) (k : A -> outcome E B)
  : outcome E B :=
  match m with
  | Return a => k a
  | Throw e => Throw e
  end.

Notation "'let?' x ':=' m 'in' k" := (obind m (fun x => k))
  (at level 10, x name, m at level 100, k at level 200).

(** An error object thrown by the calculation library: the code reads only
    its [message]. *)
Record JsError := { message : string }.

(** What the resolvers throw: one constructor per condition the code checks
    before a [throw], and the [SyntaxError] of the [RegExp] constructor.
    The text of an [Error]'s message depends on the file and the resolver
    that throws it, see [Text].  [PatternNotModelled] is not an error of the
    program: it marks a run that built a pattern the model of [RegExp] does
    not cover, which the program compiles and goes on with; the properties
    that would meet it assume the pattern is covered. *)
Inductive Error :=
| DatasetNotFound (genNum : Z)
| SpeciesNotFound (speciesName : string) (genNum : Z)
| TrainerSetNotFound (trainerName speciesName : string) (genNum : Z)
| MissingPokemonName
| RegExpSyntaxError (pattern : string)
| PatternNotModelled (pattern : string)
| Engine (e : JsError).

(** A template literal: its fixed text and the values it interpolates. *)
Inductive Piece :=
| Fixed (text : string)
| StringValue (value : string)
| NumberValue (value : Z).

Abbreviation Text := (list Piece).

(** ["Pok" + U+00E9 + "mon"], the word the messages open with. *)
Definition pokemonWord : string := "Pok" +:+ String "233" "mon".

(** The messages the two files share. *)
Definition speciesNotFoundText (speciesName : string) (genNum : Z) : Text :=
  [Fixed (pokemonWord +:+ " species '"); StringValue speciesName;
   Fixed "' not found in sets for Generation "; NumberValue genNum;
   Fixed "."].

Definition trainerNotFoundText (trainerName speciesName : string)
    (genNum : Z) : Text :=
  [Fixed "Trainer '"; StringValue trainerName;
   Fixed ("' with " +:+ pokemonWord +:+ " '"); StringValue speciesName;
   Fixed "' not found in sets for Generation "; NumberValue genNum;
   Fixed "."].

Definition nameRequiredText : Text :=
  [Fixed (pokemonWord +:+ " name is required. Please specify 'name' or "
          +:+ "'trainerPokemon.speciesName'.")].

(** ** Data *)

(** An IV, EV or boost value: GraphQL's nullable [Int]. *)
Inductive StatValue :=
| Num (n : Z)
| Null.

(** [{hp, atk, def, spa, spd, spe}] as the code handles it: an object with
    whatever keys were given. *)
Abbreviation StatTable := (gmap string StatValue).

Definition defaultIVs : StatTable :=
  list_to_map
    [("hp", Num 31); ("atk", Num 31); ("def", Num 31);
     ("spa", Num 31); ("spd", Num 31); ("spe", Num 31)].

Definition defaultEVs : StatTable :=
  list_to_map
    [("hp", Num 0); ("atk", Num 0); ("def", Num 0);
     ("spa", Num 0); ("spd", Num 0); ("spe", Num 0)].

(** [{...a, ...b}]: the keys of [b] win. *)
Definition spread (a b : StatTable) : StatTable := b ∪ a.

(** [...o] of a table that may be [undefined]: nothing is copied. *)
Definition spreadable (o : option StatTable) : StatTable :=
  match o with
  | Some t => t
  | None => ∅
  end.

(** One entry of a setdex file. *)
Module Preset.
Record t := {
  level : option Z;
  ability : option string;
  item : option string;
  nature : option string;
  ivs : option StatTable;
  evs : option StatTable;
  moves : option (list string);
  trainer : option string
}.
End Preset.

(** [speciesSets]: set name to preset, in [for ... in] order. *)
Abbreviation SpeciesSets := (list (string * Preset.t)).

(** A setdex: species name to its sets, in [for ... in] order. *)
Abbreviation Setdex := (list (string * SpeciesSets)).

(** [obj[key]] on an object given by its own properties in enumeration
    order, for a [key] that is not [Js.inherited].  For the twelve
    inherited names the code finds a built-in value where this finds
    nothing; the properties that rest on a key being absent assume the name
    is not one of them. *)
Fixpoint property {A} (obj : list (string * A)) (key : string) : option A :=
  match obj with
  | [] => None
  | (k, v) :: rest => if String.eqb k key then Some v else property rest key
  end.

(** [TrainerPokemonInput]. *)
Module TrainerPokemon.
Record t := {
  speciesName : string;
  trainerName : string
}.
End TrainerPokemon.

(** [PokemonConfigInput] (GraphQL) and [options.pokemon1] (CLI). *)
Module Raw.
Record t := {
  name : option string;
  level : option Z;
  ability : option string;
  item : option string;
  nature : option string;
  ivs : option StatTable;
  evs : option StatTable;
  boosts : option StatTable;
  curHP : option Z;
  status : option string;
  isDynamaxed : option bool;
  moves : option (list string);
  trainerPokemon : option TrainerPokemon.t
}.
End Raw.

(** The object [getPokemonOptions] returns. *)
Module Options.
Record t := {
  name : option string;
  level : Z;
  ability : option string;
  item : option string;
  nature : string;
  ivs : StatTable;
  evs : StatTable;
  boosts : StatTable;
  curHP : option Z;
  status : string;
  isDynamaxed : bool;
  moves : list string
}.
End Options.

Record SideInput := {
  isSR : option bool;
  spikes : option Z;
  isReflect : option bool;
  isLightScreen : option bool
}.

(** [{}] as a side. *)
Definition emptySide : SideInput :=
  {| isSR := None; spikes := None; isReflect := None; isLightScreen := None |}.

Record FieldFlags := {
  weather : option string;
  terrain : option string;
  isGravity : option bool;
  isMagicRoom : option bool;
  isWonderRoom : option bool;
  isBeadsOfRuin : option bool;
  isTabletsOfRuin : option bool;
  isSwordOfRuin : option bool;
  isVesselOfRuin : option bool
}.

Definition noFlags : FieldFlags :=
  {| weather := None; terrain := None; isGravity := None;
     isMagicRoom := None; isWonderRoom := None; isBeadsOfRuin := None;
     isTabletsOfRuin := None; isSwordOfRuin := None; isVesselOfRuin := None |}.

(** [FieldInput]. *)
Record FieldInput := {
  flags : FieldFlags;
  pokemon1Side : option SideInput;
  pokemon2Side : option SideInput
}.

(** The argument of [new Field(...)]. *)
Record FieldOptions := {
  fieldFlags : FieldFlags;
  attackerSide : SideInput;
  defenderSide : SideInput
}.

(** [CalculateDamageInput] and the CLI's [options]. *)
Module Input.
Record t := {
  generation : option Z;
  pokemon1 : Raw.t;
  pokemon2 : Raw.t;
  field : option FieldInput
}.
End Input.

Record HitResult := {
  damageRange : Z * Z;
  percentageRange : Js.Number * Js.Number;
  koChance : string;
  description : string
}.

Record MoveCalculationResult := {
  moveName : string;
  normalHit : HitResult;
  criticalHit : HitResult
}.

Module Summary.
Record t := {
  name : string;
  level : Z;
  ability : string;
  item : string
}.
End Summary.

(** [moves] and [message] are keys an object literal may leave out. *)
Module Direction.
Record t := {
  message : option string;
  attacker : Summary.t;
  defender : Summary.t;
  moves : option (list MoveCalculationResult)
}.
End Direction.

(** ** The calculation library *)

(** What the code uses of [@smogon/calc].  The constructors of a Pokemon
    and of a move may throw, and so may [calculate] and the three readers of
    its result, which run inside the formatter's [try]; [Generations.get],
    [new Field] and the readers of a Pokemon and of a move are taken to
    return.  Damage and hit points are integers. *)
Class Calc := {
  Generation : Type;
  Pokemon : Type;
  Move : Type;
  Field : Type;
  Result : Type;
  Generations_get : Z -> Generation;
  num : Generation -> Z;
  Pokemon_new : Generation -> option string -> Options.t -> outcome JsError Pokemon;
  Pokemon_name : Pokemon -> string;
  Pokemon_level : Pokemon -> Z;
  Pokemon_ability : Pokemon -> option string;
  Pokemon_item : Pokemon -> option string;
  maxHP : Pokemon -> Z;
  Move_new : Generation -> string -> bool -> outcome JsError Move;
  Move_name : Move -> string;
  bp : Move -> option Z;
  Field_new : FieldOptions -> Field;
  calculate : Generation -> Pokemon -> Pokemon -> Move -> Field -> outcome JsError Result;
  range : Result -> outcome JsError (Z * Z);
  kochance_text : Result -> outcome JsError string;
  desc : Result -> outcome JsError string
}.

(** A call into the library, as the log records it. *)
Inductive Event {library : Calc} :=
| NewPokemon (gen : Generation) (name : option string) (options : Options.t)
| NewMove (gen : Generation) (moveName : string) (isCrit : bool)
| NewField (options : FieldOptions)
| Calculate (gen : Generation) (attacker defender : Pokemon) (move : Move)
    (field : Field).

(** A computation that may throw an [E] and appends to the call log. *)
Definition M {library : Calc} (E A : Type) : Type :=
  list Event -> outcome E A * list Event.

Section Monad.
Context {library : Calc}.

Definition ret {E A} (a : A) : M E A := fun log => (Return a, log).

Definition bind {E A B} (m : M E A) (k : A -> M E B) : M E B :=
  fun log =>
    match m log with
    | (Return a, log') => k a log'
    | (Throw e, log') => (Throw e, log')
    end.

(** A step that cannot touch the library. *)
Definition pure {E A} (r : outcome E A) : M E A := fun log => (r, log).

(** A library call: logged, then its outcome. *)
Definition call {E A} (ev : Event) (r : outcome E A) : M E A :=
  fun log => (r, (log ++ [ev])%list).

(** [try { m } catch (e) { handler e }]. *)
Definition try_catch {E A} (m : M E A) (handler : E -> M E A) : M E A :=
  fun log =>
    match m log with
    | (Return a, log') => (Return a, log')
    | (Throw e, log') => handler e log'
    end.

(** A thrown [E] seen as an [E'] further up. *)
Definition raise {E E' A} (f : E -> E') (m : M E A) : M E' A :=
  fun log =>
    match m log with
    | (Return a, log') => (Return a, log')
    | (Throw e, log') => (Throw (f e), log')
    end.

End Monad.

Notation "'let*' x ':=' m 'in' k" := (bind m (fun x => k))
  (at level 10, x name, m at level 100, k at level 200).

(** ** Code shared by the server and the CLI

    [graphql_server.js] and [cli_calc.js] carry the same code for the lookup
    of a trainer's set inside [getPokemonOptions], up to the wording of the
    "set data not found" message, and the same text for the whole of
    [getFormattedResult]; each is embedded once. *)

(** [SETDEX_BY_GEN], loaded once when the module is loaded. *)
Class Data := { SETDEX_BY_GEN : Z -> option Setdex }.

Section Shared.
Context {dataset : Data} {library : Calc}.

(** The object literal that opens [getPokemonOptions]. *)
Definition initialOptions (defaultIVs defaultEVs : StatTable) (raw : Raw.t)
  : Options.t :=
  {| Options.name := Raw.name raw;
     Options.level := Js.num_or (Raw.level raw) 100;
     Options.ability := Raw.ability raw;
     Options.item := Raw.item raw;
     Options.nature := Js.str_or (Raw.nature raw) "Serious";
     Options.ivs := spread defaultIVs (spreadable (Raw.ivs raw));
     Options.evs := spread defaultEVs (spreadable (Raw.evs raw));
     Options.boosts := Js.obj_or (Raw.boosts raw) ∅;
     Options.curHP := Raw.curHP raw;
     Options.status := Js.str_or (Raw.status raw) "";
     Options.isDynamaxed := Js.bool_or_false (Raw.isDynamaxed raw);
     Options.moves := Js.obj_or (Raw.moves raw) [] |}.

(** The pattern of [new RegExp(`\\b${trainerName}\\b`, "i")]. *)
Definition trainerPattern (trainerName : string) : string :=
  "\b" +:+ trainerName +:+ "\b".

(** [trainerNameRegex.test(setName) ||
     (currentSet.trainer && trainerNameRegex.test(currentSet.trainer))]. *)
Definition strongMatch (re : RegExp.regex) (setName : string)
    (currentSet : Preset.t) : bool :=
  RegExp.test re setName
  || (Js.truthy_str (Preset.trainer currentSet)
      && RegExp.test re (Js.str_or (Preset.trainer currentSet) "")).

(** [setNameFirstWord === trainerNameFirstWord]. *)
Definition weakMatch (trainerName setName : string) : bool :=
  String.eqb (Js.firstWord setName) (Js.firstWord trainerName).

(** The [for (const setName in speciesSets)] loop; [trainerSet] is the
    variable it assigns.  The regular expression is built anew in every
    iteration, so an empty table builds none.  For a pattern the model of
    [RegExp] does not cover the run ends in [PatternNotModelled], where the
    program compiles the pattern and goes on. *)
Fixpoint trainerSetLoop (trainerName : string) (speciesSets : SpeciesSets)
    (trainerSet : option Preset.t) : outcome Error (option Preset.t) :=
  match speciesSets with
  | [] => Return trainerSet
  | (setName, currentSet) :: rest =>
      match RegExp.create (trainerPattern trainerName) with
      | RegExp.SyntaxError =>
          Throw (RegExpSyntaxError (trainerPattern trainerName))
      | RegExp.Unsupported =>
          Throw (PatternNotModelled (trainerPattern trainerName))
      | RegExp.Compiled trainerNameRegex =>
          if strongMatch trainerNameRegex setName currentSet
          then Return (Some currentSet) (* break *)
          else
            trainerSetLoop trainerName rest
              (match trainerSet with
               | None =>
                   if weakMatch trainerName setName
                   then Some currentSet else None
               | Some _ => trainerSet
               end)
      end
  end.

(** From [let trainerSet = null] to the [throw] that follows the loop. *)
Definition findTrainerSet (genNum : Z) (speciesName trainerName : string)
    (speciesSets : SpeciesSets) : outcome Error Preset.t :=
  let? trainerSet := trainerSetLoop trainerName speciesSets None in
  let trainerSet :=
    match trainerSet with
    | None => property speciesSets trainerName
    | Some _ => trainerSet
    end in
  match trainerSet with
  | None => Throw (TrainerSetNotFound trainerName speciesName genNum)
  | Some set => Return set
  end.

(** The trainer branch of [getPokemonOptions] up to the resolved set: the
    spec's [resolveOne].  The two files word the first message differently:
    [DatasetNotFound] stands for either, and [Graphql.thrownText] and
    [Cli.thrownText] give the words. *)
Definition resolveOne (genNum : Z) (speciesName trainerName : string)
  : outcome Error Preset.t :=
  match SETDEX_BY_GEN genNum with
  | None => Throw (DatasetNotFound genNum)
  | Some setdex =>
      match property setdex speciesName with
      | None => Throw (SpeciesNotFound speciesName genNum)
      | Some speciesSets =>
          findTrainerSet genNum speciesName trainerName speciesSets
      end
  end.

(** The closing check of [getPokemonOptions]. *)
Definition requireName (pokemonOptions : Options.t)
  : outcome Error Options.t :=
  if Js.truthy_str (Options.name pokemonOptions)
  then Return pokemonOptions
  else Throw MissingPokemonName.

Definition zeroHit (koChanceText descriptionText : string) : HitResult :=
  {| damageRange := (0, 0);
     percentageRange := (Js.Tenths 0, Js.Tenths 0);
     koChance := koChanceText;
     description := descriptionText |}.

(** [move.bp === 0]. *)
Definition isStatusMove (move : Move) : bool :=
  match bp move with
  | Some n => n =? 0
  | None => false
  end.

(** The body of the [try] block. *)
Definition formatCalculation (gen : Generation) (attacker defender : Pokemon)
    (move : Move) (field : Field) : M JsError HitResult :=
  let* currentResult :=
    call (Calculate gen attacker defender move field)
         (calculate gen attacker defender move field) in
  let* dmg := pure (range currentResult) in
  if snd dmg =? 0 then
    ret (zeroHit "Immune / No damaging effect"
           (Move_name move +:+ " had no damaging effect on "
            +:+ Pokemon_name defender +:+ "."))
  else
    let minPercentage := Js.percentage (fst dmg) (maxHP defender) in
    let maxPercentage := Js.percentage (snd dmg) (maxHP defender) in
    let* koChanceText := pure (kochance_text currentResult) in
    let* descriptionText := pure (desc currentResult) in
    ret {| damageRange := (fst dmg, snd dmg);
           percentageRange := (minPercentage, maxPercentage);
           koChance := koChanceText;
           description := descriptionText |}.

Definition getFormattedResult (gen : Generation) (attacker defender : Pokemon)
    (moveName : string) (field : Field) (isCrit : bool)
  : M JsError HitResult :=
  let* move := call (NewMove gen moveName isCrit) (Move_new gen moveName isCrit) in
  if isStatusMove move then
    ret (zeroHit "No damaging effect"
           (if isCrit
            then Move_name move
                 +:+ " is a non-damaging move, so it cannot critically hit."
            else Move_name move +:+ " is a non-damaging move."))
  else
    try_catch (formatCalculation gen attacker defender move field)
      (fun calcError =>
         ret (zeroHit "Calculation Error / No effect"
                (Move_name move +:+ " could not be calculated: "
                 +:+ message calcError))).

(** The [for (const moveName of ...)] loop of either direction. *)
Fixpoint moveCalculations (gen : Generation) (attacker defender : Pokemon)
    (field : Field) (moves : list string)
  : M JsError (list MoveCalculationResult) :=
  match moves with
  | [] => ret []
  | name :: rest =>
      let* normal := getFormattedResult gen attacker defender name field false in
      let* critical := getFormattedResult gen attacker defender name field true in
      let* others := moveCalculations gen attacker defender field rest in
      ret ({| moveName := name; normalHit := normal; criticalHit := critical |}
           :: others)
  end.

(** [{name, level, ability || "N/A", item || "N/A"}]. *)
Definition summary (pokemon : Pokemon) : Summary.t :=
  {| Summary.name := Pokemon_name pokemon;
     Summary.level := Pokemon_level pokemon;
     Summary.ability := Js.str_or (Pokemon_ability pokemon) "N/A";
     Summary.item := Js.str_or (Pokemon_item pokemon) "N/A" |}.

Definition noMovesMessage (pokemon : Pokemon) : string :=
  Pokemon_name pokemon +:+ " has no moves to calculate.".

(** [options.field?.pokemon1Side || {}]. *)
Definition sideOf (pick : FieldInput -> option SideInput)
    (field : option FieldInput) : SideInput :=
  match field with
  | Some f => Js.obj_or (pick f) emptySide
  | None => emptySide
  end.

End Shared.

(** ** [graphql_server.js] *)

Module Graphql.

Record CalculationResult := {
  generation : Z;
  pokemon1 : Summary.t;
  pokemon2 : Summary.t;
  pokemon1AttackingPokemon2 : Direction.t;
  pokemon2AttackingPokemon1 : Direction.t
}.

Module TrainerPokemonSet.
Record t := {
  speciesName : string;
  setName : string;
  level : option Z;
  ability : string;
  item : string;
  nature : string;
  ivs : StatTable;
  evs : StatTable;
  moves : list string
}.
End TrainerPokemonSet.

(** The message of each [throw new Error(...)] of [getPokemonOptions] in
    [graphql_server.js]; the other errors carry a message that is not the
    file's own. *)
Definition thrownText (e : Error) : option Text :=
  match e with
  | DatasetNotFound genNum =>
      Some [Fixed (pokemonWord +:+ " set data not found for Generation ");
            NumberValue genNum;
            Fixed (". Please ensure the data files (e.g., gen8.js) are "
                   +:+ "correctly loaded.")]
  | SpeciesNotFound speciesName genNum =>
      Some (speciesNotFoundText speciesName genNum)
  | TrainerSetNotFound trainerName speciesName genNum =>
      Some (trainerNotFoundText trainerName speciesName genNum)
  | MissingPokemonName => Some nameRequiredText
  | RegExpSyntaxError _ | PatternNotModelled _ | Engine _ => None
  end.

(** The message of the one [throw new Error(...)] of
    [getTrainerPokemonSets]. *)
Definition listingText (e : Error) : option Text :=
  match e with
  | DatasetNotFound generation =>
      Some [Fixed (pokemonWord +:+ " set data not found for Generation ");
            NumberValue generation; Fixed "."]
  | _ => None
  end.

Section Server.
Context {dataset : Data} {library : Calc}.

(** The assignments made once the trainer's set is found. *)
Definition applyTrainerSet (raw : Raw.t) (speciesName : string)
    (trainerSet : Preset.t) (pokemonOptions : Options.t) : Options.t :=
  {| Options.name := Some speciesName;
     Options.level :=
       Js.num_or (Preset.level trainerSet) (Options.level pokemonOptions);
     Options.ability :=
       Js.opt_str_or (Preset.ability trainerSet) (Options.ability pokemonOptions);
     Options.item :=
       Js.opt_str_or (Preset.item trainerSet) (Options.item pokemonOptions);
     Options.nature :=
       Js.str_or (Preset.nature trainerSet) (Options.nature pokemonOptions);
     Options.ivs :=
       spread (spread defaultIVs (spreadable (Preset.ivs trainerSet)))
         (spreadable (Raw.ivs raw));
     Options.evs :=
       spread (spread defaultEVs (spreadable (Preset.evs trainerSet)))
         (spreadable (Raw.evs raw));
     Options.boosts := Options.boosts pokemonOptions;
     Options.curHP := Options.curHP pokemonOptions;
     Options.status := Js.str_or (Some (Options.status pokemonOptions)) "";
     Options.isDynamaxed :=
       Js.bool_or_false (Some (Options.isDynamaxed pokemonOptions));
     Options.moves :=
       Js.obj_or (Preset.moves trainerSet) (Options.moves pokemonOptions) |}.

Definition getPokemonOptions (genNum : Z) (rawPokemonConfig : Raw.t)
  : outcome Error Options.t :=
  let pokemonOptions := initialOptions defaultIVs defaultEVs rawPokemonConfig in
  let? pokemonOptions :=
    match Raw.trainerPokemon rawPokemonConfig with
    | Some tp =>
        let? trainerSet :=
          resolveOne genNum (TrainerPokemon.speciesName tp) (TrainerPokemon.trainerName tp) in
        Return (applyTrainerSet rawPokemonConfig (TrainerPokemon.speciesName tp)
                  trainerSet pokemonOptions)
    | None => Return pokemonOptions
    end in
  requireName pokemonOptions.

(** [new Field({...options.field, attackerSide, defenderSide})]. *)
Definition fieldOptions (field : option FieldInput)
    (attacker defender : FieldInput -> option SideInput) : FieldOptions :=
  {| fieldFlags := match field with Some f => flags f | None => noFlags end;
     attackerSide := sideOf attacker field;
     defenderSide := sideOf defender field |}.

(** One of the two [if (...moves.length > 0) ... else ...] blocks. *)
Definition attack (gen : Generation) (attackerOptions : Options.t)
    (attacker defender : Pokemon) (options : FieldOptions)
  : M JsError Direction.t :=
  match Options.moves attackerOptions with
  | _ :: _ =>
      let* field := call (NewField options) (Return (Field_new options)) in
      let* moveCalculations :=
        moveCalculations gen attacker defender field
          (Options.moves attackerOptions) in
      ret {| Direction.message := None;
             Direction.attacker := summary attacker;
             Direction.defender := summary defender;
             Direction.moves := Some moveCalculations |}
  | [] =>
      ret {| Direction.message := Some (noMovesMessage attacker);
             Direction.attacker := summary attacker;
             Direction.defender := summary defender;
             Direction.moves := Some [] |}
  end.

(** The resolver from [new Pokemon] on, the spec's [computeMatchup]: both
    Pokemon, then one direction after the other. *)
Definition computeMatchup (gen : Generation)
    (pokemon1Options pokemon2Options : Options.t) (field : option FieldInput)
  : M Error CalculationResult :=
  let* pokemon1 :=
    raise Engine
      (call (NewPokemon gen (Options.name pokemon1Options) pokemon1Options)
         (Pokemon_new gen (Options.name pokemon1Options) pokemon1Options)) in
  let* pokemon2 :=
    raise Engine
      (call (NewPokemon gen (Options.name pokemon2Options) pokemon2Options)
         (Pokemon_new gen (Options.name pokemon2Options) pokemon2Options)) in
  let* first :=
    raise Engine
      (attack gen pokemon1Options pokemon1 pokemon2
         (fieldOptions field pokemon1Side pokemon2Side)) in
  let* second :=
    raise Engine
      (attack gen pokemon2Options pokemon2 pokemon1
         (fieldOptions field pokemon2Side pokemon1Side)) in
  ret {| generation := num gen;
         pokemon1 := summary pokemon1;
         pokemon2 := summary pokemon2;
         pokemon1AttackingPokemon2 := first;
         pokemon2AttackingPokemon1 := second |}.

(** The [calculateDamage] resolver. *)
Definition calculateDamage (options : Input.t)
  : M Error CalculationResult :=
  let gen := Generations_get (Js.num_or (Input.generation options) 9) in
  let* pokemon1Options :=
    pure (getPokemonOptions (num gen) (Input.pokemon1 options)) in
  let* pokemon2Options :=
    pure (getPokemonOptions (num gen) (Input.pokemon2 options)) in
  computeMatchup gen pokemon1Options pokemon2Options (Input.field options).

(** The test and the [push] inside the two loops of [getTrainerPokemonSets]. *)
Definition matchingSets (trainerNameRegex : RegExp.regex) (speciesName : string)
    (speciesSets : SpeciesSets) : list TrainerPokemonSet.t :=
  flat_map
    (fun entry =>
       let currentSet := snd entry in
       if strongMatch trainerNameRegex (fst entry) currentSet then
         [ {| TrainerPokemonSet.speciesName := speciesName;
              TrainerPokemonSet.setName := fst entry;
              TrainerPokemonSet.level := Preset.level currentSet;
              TrainerPokemonSet.ability :=
                Js.str_or (Preset.ability currentSet) "N/A";
              TrainerPokemonSet.item := Js.str_or (Preset.item currentSet) "N/A";
              TrainerPokemonSet.nature :=
                Js.str_or (Preset.nature currentSet) "Serious";
              TrainerPokemonSet.ivs := Js.obj_or (Preset.ivs currentSet) defaultIVs;
              TrainerPokemonSet.evs := Js.obj_or (Preset.evs currentSet) defaultEVs;
              TrainerPokemonSet.moves := Js.obj_or (Preset.moves currentSet) [] |} ]
       else [])
    speciesSets.

(** The pattern of [getTrainerPokemonSets]: the name is escaped first. *)
Definition escapedTrainerPattern (trainerName : string) : string :=
  "\b" +:+ RegExp.escape trainerName +:+ "\b".

(** The [getTrainerPokemonSets] resolver: the spec's [resolveAll]. *)
Definition getTrainerPokemonSets (generation : Z) (trainerName : string)
  : outcome Error (list TrainerPokemonSet.t) :=
  match SETDEX_BY_GEN generation with
  | None => Throw (DatasetNotFound generation)
  | Some setdex =>
      match RegExp.create (escapedTrainerPattern trainerName) with
      | RegExp.SyntaxError =>
          Throw (RegExpSyntaxError (escapedTrainerPattern trainerName))
      | RegExp.Unsupported =>
          Throw (PatternNotModelled (escapedTrainerPattern trainerName))
      | RegExp.Compiled trainerNameRegex =>
          Return
            (flat_map
               (fun species =>
                  matchingSets trainerNameRegex (fst species) (snd species))
               setdex)
      end
  end.

End Server.
End Graphql.

(** ** [cli_calc.js] *)

Module Cli.

Record Results := {
  pokemon1AttackingPokemon2 : Direction.t;
  pokemon2AttackingPokemon1 : Direction.t
}.

(** What [calculateDamageCLI] writes: the results through [console.log], or
    the caught error through [console.error]. *)
Inductive Output :=
| Printed (results : Results)
| ErrorLogged (error : Error).

(** The message of each [throw new Error(...)] of [getPokemonOptions] in
    [cli_calc.js]. *)
Definition thrownText (e : Error) : option Text :=
  match e with
  | DatasetNotFound genNum =>
      Some [Fixed (pokemonWord +:+ " set data not found for Generation ");
            NumberValue genNum;
            Fixed (". Please ensure the data files (e.g., gen8.js) "
                   +:+ "correctly export their SETDEX_GENX variable.")]
  | SpeciesNotFound speciesName genNum =>
      Some (speciesNotFoundText speciesName genNum)
  | TrainerSetNotFound trainerName speciesName genNum =>
      Some (trainerNotFoundText trainerName speciesName genNum)
  | MissingPokemonName => Some nameRequiredText
  | RegExpSyntaxError _ | PatternNotModelled _ | Engine _ => None
  end.

Section Script.
Context {dataset : Data} {library : Calc}.

(** The assignments made once the trainer's set is found. *)
Definition applyTrainerSet (defaultIVs defaultEVs : StatTable)
    (speciesName : string) (trainerSet : Preset.t)
    (pokemonOptions : Options.t) : Options.t :=
  {| Options.name := Some speciesName;
     Options.level := Js.num_or (Preset.level trainerSet) 100;
     Options.ability := Preset.ability trainerSet;
     Options.item := Preset.item trainerSet;
     Options.nature := Js.str_or (Preset.nature trainerSet) "Serious";
     Options.ivs := spread defaultIVs (spreadable (Preset.ivs trainerSet));
     Options.evs := spread defaultEVs (spreadable (Preset.evs trainerSet));
     Options.boosts := Options.boosts pokemonOptions;
     Options.curHP := Options.curHP pokemonOptions;
     Options.status := Js.str_or (Some (Options.status pokemonOptions)) "";
     Options.isDynamaxed :=
       Js.bool_or_false (Some (Options.isDynamaxed pokemonOptions));
     Options.moves :=
       Js.obj_or (Preset.moves trainerSet) (Options.moves pokemonOptions) |}.

Definition getPokemonOptions (genNum : Z) (rawPokemonOptions : Raw.t)
    (defaultIVs defaultEVs : StatTable) : outcome Error Options.t :=
  let pokemonOptions := initialOptions defaultIVs defaultEVs rawPokemonOptions in
  let? pokemonOptions :=
    match Raw.trainerPokemon rawPokemonOptions with
    | Some tp =>
        let? trainerSet :=
          resolveOne genNum (TrainerPokemon.speciesName tp) (TrainerPokemon.trainerName tp) in
        Return (applyTrainerSet defaultIVs defaultEVs (TrainerPokemon.speciesName tp)
                  trainerSet pokemonOptions)
    | None => Return pokemonOptions
    end in
  requireName pokemonOptions.

(** [fieldOptions] with the two sides of one direction added. *)
Definition fieldOptions (field : option FieldInput)
    (attacker defender : FieldInput -> option SideInput) : FieldOptions :=
  let given := match field with Some f => flags f | None => noFlags end in
  {| fieldFlags :=
       {| weather := weather given;
          terrain := terrain given;
          isGravity := Some (Js.bool_or_false (isGravity given));
          isMagicRoom := Some (Js.bool_or_false (isMagicRoom given));
          isWonderRoom := Some (Js.bool_or_false (isWonderRoom given));
          isBeadsOfRuin := Some (Js.bool_or_false (isBeadsOfRuin given));
          isTabletsOfRuin := Some (Js.bool_or_false (isTabletsOfRuin given));
          isSwordOfRuin := Some (Js.bool_or_false (isSwordOfRuin given));
          isVesselOfRuin := Some (Js.bool_or_false (isVesselOfRuin given)) |};
     attackerSide := sideOf attacker field;
     defenderSide := sideOf defender field |}.

(** One of the two [if (...moves.length > 0) ... else ...] blocks; the
    [else] object has no [moves] key. *)
Definition attack (gen : Generation) (attackerOptions : Options.t)
    (attacker defender : Pokemon) (options : FieldOptions)
  : M JsError Direction.t :=
  match Options.moves attackerOptions with
  | _ :: _ =>
      let* currentField := call (NewField options) (Return (Field_new options)) in
      let* moveCalculations :=
        moveCalculations gen attacker defender currentField
          (Options.moves attackerOptions) in
      ret {| Direction.message := None;
             Direction.attacker := summary attacker;
             Direction.defender := summary defender;
             Direction.moves := Some moveCalculations |}
  | [] =>
      ret {| Direction.message := Some (noMovesMessage attacker);
             Direction.attacker := summary attacker;
             Direction.defender := summary defender;
             Direction.moves := None |}
  end.

(** The [try] block from [new Pokemon] on, the spec's [computeMatchup]. *)
Definition computeMatchup (gen : Generation)
    (pokemon1Options pokemon2Options : Options.t) (field : option FieldInput)
  : M Error Results :=
  let* pokemon1 :=
    raise Engine
      (call (NewPokemon gen (Options.name pokemon1Options) pokemon1Options)
         (Pokemon_new gen (Options.name pokemon1Options) pokemon1Options)) in
  let* pokemon2 :=
    raise Engine
      (call (NewPokemon gen (Options.name pokemon2Options) pokemon2Options)
         (Pokemon_new gen (Options.name pokemon2Options) pokemon2Options)) in
  let* first :=
    raise Engine
      (attack gen pokemon1Options pokemon1 pokemon2
         (fieldOptions field pokemon1Side pokemon2Side)) in
  let* second :=
    raise Engine
      (attack gen pokemon2Options pokemon2 pokemon1
         (fieldOptions field pokemon2Side pokemon1Side)) in
  ret {| pokemon1AttackingPokemon2 := first;
         pokemon2AttackingPokemon1 := second |}.

(** The body of the [try] block of [calculateDamageCLI]. *)
Definition results (gen : Generation) (options : Input.t)
  : M Error Results :=
  let* pokemon1Options :=
    pure (getPokemonOptions (num gen) (Input.pokemon1 options)
            defaultIVs defaultEVs) in
  let* pokemon2Options :=
    pure (getPokemonOptions (num gen) (Input.pokemon2 options)
            defaultIVs defaultEVs) in
  computeMatchup gen pokemon1Options pokemon2Options (Input.field options).

Definition calculateDamageCLI (options : Input.t)
  : list Event -> Output * list Event :=
  fun log =>
    let gen := Generations_get (Js.num_or (Input.generation options) 9) in
    match results gen options log with
    | (Return r, log') => (Printed r, log')
    | (Throw e, log') => (ErrorLogged e, log')
    end.

End Script.
End Cli.

(** ** Loading the setdex files

    [loadSetdex] and the [SETDEX_BY_GEN] literal, the same in
    [graphql_server.js] and in [cli_calc.js] up to the wording of the
    messages. *)

(** What [loadSetdex] throws: its three [throw] statements, and whatever
    [fs.readFileSync] or [new vm.Script] throw, which it does not catch. *)
Inductive LoadError :=
| SetdexFileNotFound (genNum : Z) (filePath : string)
| SetdexEvaluationError (filePath message : string)
| SetdexVariableNotFound (varName filePath : string)
| HostError (e : JsError).

(** What the loader uses of Node: [__dirname], [path.join], [fs] and [vm].
    The sandbox a run leaves behind is read through its variables: a
    variable that is missing or falsy is [None], and a truthy one is taken
    to be a setdex. *)
Class Host := {
  dirname : string;
  path_join : string -> string -> string;
  existsSync : string -> bool;
  readFileSync : string -> outcome JsError string;
  Script : Type;
  Script_new : string -> outcome JsError Script;
  runInNewContext : Script -> outcome JsError (string -> option Setdex)
}.

Section Loader.
Context {host : Host}.

(** [path.join(__dirname, `src/js/data/sets/gen${genNum}.js`)]. *)
Definition setdexPath (genNum : Z) : string :=
  path_join dirname ("src/js/data/sets/gen" +:+ pretty genNum +:+ ".js").

Definition loadSetdex (genNum : Z) (varName : string)
  : outcome LoadError Setdex :=
  let filePath := setdexPath genNum in
  if negb (existsSync filePath)
  then Throw (SetdexFileNotFound genNum filePath)
  else
    match readFileSync filePath with
    | Throw e => Throw (HostError e)
    | Return fileContent =>
        match Script_new fileContent with
        | Throw e => Throw (HostError e)
        | Return script =>
            match runInNewContext script with
            | Throw evalError =>
                Throw (SetdexEvaluationError filePath (message evalError))
            | Return sandbox =>
                match sandbox varName with
                | None => Throw (SetdexVariableNotFound varName filePath)
                | Some setdex => Return setdex
                end
            end
        end
    end.

(** The keys of the [SETDEX_BY_GEN] literal and the variable each one
    loads, in the order the literal evaluates them. *)
Definition generationVariables : list (Z * string) :=
  [(1, "SETDEX_RBY"); (2, "SETDEX_GSC"); (3, "SETDEX_ADV");
   (4, "SETDEX_DPP"); (5, "SETDEX_BW"); (6, "SETDEX_XY");
   (7, "SETDEX_SM"); (8, "SETDEX_SS"); (9, "SETDEX_SV")].

(** The properties of the literal, evaluated one after the other. *)
Fixpoint loadEach (entries : list (Z * string))
  : outcome LoadError (list (Z * Setdex)) :=
  match entries with
  | [] => Return []
  | (genNum, varName) :: rest =>
      match loadSetdex genNum varName with
      | Throw e => Throw e
      | Return setdex =>
          match loadEach rest with
          | Throw e => Throw e
          | Return table => Return ((genNum, setdex) :: table)
          end
      end
  end.

(** [const SETDEX_BY_GEN = { 1: loadSetdex(1, "SETDEX_RBY"), ... }]. *)
Definition loadAll : outcome LoadError (list (Z * Setdex)) :=
  loadEach generationVariables.

End Loader.

(** [SETDEX_BY_GEN[genNum]] on the loaded table, for an integer [genNum]. *)
Fixpoint entry (table : list (Z * Setdex)) (genNum : Z) : option Setdex :=
  match table with
  | [] => None
  | (key, setdex) :: rest =>
      if key =? genNum then Some setdex else entry rest genNum
  end.

(** The module once its literal is evaluated. *)
Definition loaded (table : list (Z * Setdex)) : Data :=
  {| SETDEX_BY_GEN := entry table |}.

(** ** The one-direction script ([unnamed/part_000])

    An earlier [calculateDamageCLI]: one attacker with the move list of the
    request, one defender, no trainer sets.  Its formatter is the text of
    [getFormattedResult] as a closure over [gen], the two Pokemon and the
    field, and its loop is the loop of [moveCalculations]. *)

Module Legacy.

(** [options.field]. *)
Module FieldInput.
Record t := {
  flags : FieldFlags;
  attackerSide : option SideInput;
  defenderSide : option SideInput
}.
End FieldInput.

(** [options]; [attacker] and [defender] carry the keys of a [Raw.t], of
    which the script reads neither [moves] nor [trainerPokemon]. *)
Module Input.
Record t := {
  generation : option Z;
  attacker : option Raw.t;
  defender : option Raw.t;
  moves : option (list string);
  field : option FieldInput.t
}.
End Input.

Record Output := {
  generation : Z;
  attacker : Summary.t;
  defender : Summary.t;
  moves : list MoveCalculationResult
}.

(** What the [catch] block receives: an error of the library, or the
    [TypeError] of iterating a missing move list. *)
Inductive Error :=
| TypeError
| Library (e : JsError).

(** What a call does: print the output, log a caught error, or throw the
    [TypeError] of reading a property of [undefined] before the [try]. *)
Inductive Effect :=
| Printed (output : Output)
| ErrorLogged (error : Error)
| Thrown.

Section Script.
Context {library : Calc}.

(** The [attackerOptions] and [defenderOptions] literals.  They have
    neither a [name] nor a [moves] key; [Options.t] reads the missing list
    as the empty one. *)
Definition pokemonOptions (raw : Raw.t) : Options.t :=
  {| Options.name := None;
     Options.level := Js.num_or (Raw.level raw) 100;
     Options.ability := Raw.ability raw;
     Options.item := Raw.item raw;
     Options.nature := Js.str_or (Raw.nature raw) "Serious";
     Options.ivs := spread defaultIVs (spreadable (Raw.ivs raw));
     Options.evs := spread defaultEVs (spreadable (Raw.evs raw));
     Options.boosts := Js.obj_or (Raw.boosts raw) ∅;
     Options.curHP := Raw.curHP raw;
     Options.status := Js.str_or (Raw.status raw) "";
     Options.isDynamaxed := Js.bool_or_false (Raw.isDynamaxed raw);
     Options.moves := [] |}.

(** One of the two side literals. *)
Definition sideOptions (side : SideInput) : SideInput :=
  {| isSR := Some (Js.bool_or_false (isSR side));
     spikes := Some (Js.num_or (spikes side) 0);
     isReflect := Some (Js.bool_or_false (isReflect side));
     isLightScreen := Some (Js.bool_or_false (isLightScreen side)) |}.

(** The [fieldOptions] literal, given the three objects it reads. *)
Definition fieldOptions (given : FieldFlags) (attacker defender : SideInput)
  : FieldOptions :=
  {| fieldFlags :=
       {| weather := weather given;
          terrain := terrain given;
          isGravity := Some (Js.bool_or_false (isGravity given));
          isMagicRoom := Some (Js.bool_or_false (isMagicRoom given));
          isWonderRoom := Some (Js.bool_or_false (isWonderRoom given));
          isBeadsOfRuin := Some (Js.bool_or_false (isBeadsOfRuin given));
          isTabletsOfRuin := Some (Js.bool_or_false (isTabletsOfRuin given));
          isSwordOfRuin := Some (Js.bool_or_false (isSwordOfRuin given));
          isVesselOfRuin := Some (Js.bool_or_false (isVesselOfRuin given)) |};
     attackerSide := sideOptions attacker;
     defenderSide := sideOptions defender |}.

(** [{name, level, ability || "No Ability", item || "No Item"}]. *)
Definition summary (pokemon : Pokemon) : Summary.t :=
  {| Summary.name := Pokemon_name pokemon;
     Summary.level := Pokemon_level pokemon;
     Summary.ability := Js.str_or (Pokemon_ability pokemon) "No Ability";
     Summary.item := Js.str_or (Pokemon_item pokemon) "No Item" |}.

(** The three literals before the [try], with the two objects the [try]
    reads the names from: [options.x.y] throws a [TypeError] when
    [options.x] is missing. *)
Definition literals (options : Input.t)
  : option (Raw.t * Raw.t * Options.t * Options.t * FieldOptions) :=
  match Input.attacker options with
  | None => None
  | Some attacker =>
      match Input.defender options with
      | None => None
      | Some defender =>
          match Input.field options with
          | None => None
          | Some field =>
              match FieldInput.attackerSide field with
              | None => None
              | Some attackerSide =>
                  match FieldInput.defenderSide field with
                  | None => None
                  | Some defenderSide =>
                      Some (attacker, defender, pokemonOptions attacker,
                            pokemonOptions defender,
                            fieldOptions (FieldInput.flags field)
                              attackerSide defenderSide)
                  end
              end
          end
      end
  end.

(** The body of the [try] block. *)
Definition tryBlock (gen : Generation) (options : Input.t)
    (attackerName defenderName : option string)
    (attackerOptions defenderOptions : Options.t) (fieldOptions : FieldOptions)
  : M Error Output :=
  let* attacker :=
    raise Library
      (call (NewPokemon gen attackerName attackerOptions)
         (Pokemon_new gen attackerName attackerOptions)) in
  let* defender :=
    raise Library
      (call (NewPokemon gen defenderName defenderOptions)
         (Pokemon_new gen defenderName defenderOptions)) in
  let* field := call (NewField fieldOptions) (Return (Field_new fieldOptions)) in
  let* allMoveResults :=
    match Input.moves options with
    | None => pure (Throw TypeError)
    | Some moves =>
        raise Library (moveCalculations gen attacker defender field moves)
    end in
  ret {| generation := num gen;
         attacker := summary attacker;
         defender := summary defender;
         moves := allMoveResults |}.

Definition calculateDamageCLI (options : Input.t)
  : list Event -> Effect * list Event :=
  fun log =>
    let gen := Generations_get (Js.num_or (Input.generation options) 9) in
    match literals options with
    | None => (Thrown, log)
    | Some (attacker, defender, attackerOptions, defenderOptions, fieldOptions) =>
        match tryBlock gen options (Raw.name attacker) (Raw.name defender)
                attackerOptions defenderOptions fieldOptions log with
        | (Return output, log') => (Printed output, log')
        | (Throw error, log') => (ErrorLogged error, log')
        end
    end.

End Script.
End Legacy.

(** ** Vocabulary of the properties *)

(** The precedence the specification states for one stat: the explicit value
    when there is one, else the preset's, else the default. *)
Definition layered (default preset explicit : option StatValue)
  : option StatValue :=
  match explicit with
  | Some v => Some v
  | None =>
      match preset with
      | Some v => Some v
      | None => default
      end
  end.

Definition statNames : list string :=
  ["hp"; "atk"; "def"; "spa"; "spd"; "spe"].

(** The move names of a direction's results, none when it has no list. *)
Definition moveNames (direction : Direction.t) : list string :=
  match Direction.moves direction with
  | Some results => map moveName results
  | None => []
  end.

(** The library can construct every move of the list, with either flag. *)
Definition constructible {library : Calc} (gen : Generation)
    (moves : list string) : Prop :=
  forall name isCrit, In name moves ->
    exists move, Move_new gen name isCrit = Return move.

(** The direction of an attacker without moves; [moves] is the list the
    object carries, if any. *)
Definition noMoves {library : Calc} (attacker defender : Pokemon)
    (moves : option (list MoveCalculationResult)) : Direction.t :=
  {| Direction.message := Some (noMovesMessage attacker);
     Direction.attacker := summary attacker;
     Direction.defender := summary defender;
     Direction.moves := moves |}.

(** The specification's strong match: the set's name, or its trainer label
    when it has one, contains the trainer name as a whole word. *)
Definition strongly (trainerName setName : string) (set : Preset.t) : bool :=
  Words.containsWholeWord trainerName setName
  || match Preset.trainer set with
     | Some label => Words.containsWholeWord trainerName label
     | None => false
     end.

(** The (species, set name) pairs of a setdex that match strongly, in the
    order of the setdex. *)
Definition strongEntries (trainerName : string) (setdex : Setdex)
  : list (string * string) :=
  flat_map
    (fun species =>
       map (fun entry => (fst species, fst entry))
         (filter (fun entry => strongly trainerName (fst entry) (snd entry))
            (snd species)))
    setdex.

(** A configuration that gives no field: [{}]. *)
Definition emptyConfig : Raw.t :=
  {| Raw.name := None; Raw.level := None; Raw.ability := None;
     Raw.item := None; Raw.nature := None; Raw.ivs := None; Raw.evs := None;
     Raw.boosts := None; Raw.curHP := None; Raw.status := None;
     Raw.isDynamaxed := None; Raw.moves := None; Raw.trainerPokemon := None |}.

(** The specification's weak match, on an entry of the table. *)
Definition weakCandidate (trainerName : string) (entry : string * Preset.t)
  : bool :=
  weakMatch trainerName (fst entry).

(** The generation object a request runs under. *)
Definition generationOf {library : Calc} (options : Input.t) : Generation :=
  Generations_get (Js.num_or (Input.generation options) 9).

(** The library calls one run of the formatter makes: the move, and
    [calculate] unless the move has base power 0 or cannot be built. *)
Definition hitCalls {library : Calc} (gen : Generation)
    (attacker defender : Pokemon) (field : Field) (name : string)
    (isCrit : bool) : list Event :=
  match Move_new gen name isCrit with
  | Return move =>
      NewMove gen name isCrit
      :: (if isStatusMove move then []
          else [Calculate gen attacker defender move field])
  | Throw _ => [NewMove gen name isCrit]
  end.

(** The calls of a move list: for each move the normal hit, then the
    critical hit. *)
Definition moveCalls {library : Calc} (gen : Generation)
    (attacker defender : Pokemon) (field : Field) (moves : list string)
  : list Event :=
  flat_map
    (fun name =>
       hitCalls gen attacker defender field name false
       ++ hitCalls gen attacker defender field name true)%list
    moves.

(** The calls of one direction: none without moves, else the field and the
    calls of the list. *)
Definition directionCalls {library : Calc} (gen : Generation)
    (attackerOptions : Options.t) (attacker defender : Pokemon)
    (options : FieldOptions) : list Event :=
  match Options.moves attackerOptions with
  | [] => []
  | _ :: _ =>
      NewField options
      :: moveCalls gen attacker defender (Field_new options)
           (Options.moves attackerOptions)
  end.

(** The [message] of a direction: present exactly when there are no
    moves. *)
Definition messageFor {library : Calc} (attacker : Pokemon)
    (moves : list string) : option string :=
  match moves with
  | [] => Some (noMovesMessage attacker)
  | _ :: _ => None
  end.

(** How the lookup justifies a set: a weak match of the first words, or a
    strong match of the pattern the code compiles. *)
Definition justified (trainerName : string) (entry : string * Preset.t)
  : Prop :=
  weakMatch trainerName (fst entry) = true
  \/ exists re : RegExp.regex,
       RegExp.create (trainerPattern trainerName) = RegExp.Compiled re
       /\ strongMatch re (fst entry) (snd entry) = true.

(** The request gives each of the seven flags the CLI normalises. *)
Definition flagsGiven (field : option FieldInput) : bool :=
  match field with
  | None => false
  | Some f =>
      forallb (fun flag : option bool =>
                 match flag with Some _ => true | None => false end)
        [isGravity (flags f); isMagicRoom (flags f); isWonderRoom (flags f);
         isBeadsOfRuin (flags f); isTabletsOfRuin (flags f);
         isSwordOfRuin (flags f); isVesselOfRuin (flags f)]
  end.

(** A direction of the server as the CLI prints it: the same object,
    without the [moves] key when the list is empty. *)
Definition printedDirection (direction : Direction.t) : Direction.t :=
  match Direction.moves direction with
  | Some [] =>
      {| Direction.message := Direction.message direction;
         Direction.attacker := Direction.attacker direction;
         Direction.defender := Direction.defender direction;
         Direction.moves := None |}
  | _ => direction
  end.

Definition printedResult (r : Graphql.CalculationResult) : Cli.Results :=
  {| Cli.pokemon1AttackingPokemon2 :=
       printedDirection (Graphql.pokemon1AttackingPokemon2 r);
     Cli.pokemon2AttackingPokemon1 :=
       printedDirection (Graphql.pokemon2AttackingPokemon1 r) |}.

(** What the CLI does with what the server does: print the result, or log
    the error. *)
Definition printedOutcome {library : Calc}
    (run : outcome Error Graphql.CalculationResult * list Event)
  : Cli.Output * list Event :=
  match run with
  | (Return r, log) => (Cli.Printed (printedResult r), log)
  | (Throw e, log) => (Cli.ErrorLogged e, log)
  end.

(** The five objects the one-direction script reads without a guard are
    all there. *)
Definition legacyObjects (options : Legacy.Input.t) : bool :=
  match Legacy.Input.attacker options, Legacy.Input.defender options,
        Legacy.Input.field options with
  | Some _, Some _, Some field =>
      match Legacy.FieldInput.attackerSide field,
            Legacy.FieldInput.defenderSide field with
      | Some _, Some _ => true
      | _, _ => false
      end
  | _, _, _ => false
  end.

(** ** A small library and dataset to run the code on *)

Module Sample.

(** A stand-in for [@smogon/calc], given its Move constructor.  A Pokemon is
    its options, a move its name and critical-hit flag.  ["Curse"] makes
    [calculate] throw, ["Earthquake"] does no damage, status moves have base
    power 0, and every other move does 69 to 81 (104 to 123 on a critical
    hit) against 402 hit points. *)
Definition standIn
    (construct : string -> bool -> outcome JsError (string * bool)) : Calc :=
  {| Generation := Z;
     Pokemon := Options.t;
     Move := string * bool;
     Field := FieldOptions;
     Result := Z * Z;
     Generations_get := fun n => n;
     num := fun g => g;
     Pokemon_new := fun _ _ options => Return options;
     Pokemon_name := fun p => Js.str_or (Options.name p) "";
     Pokemon_level := Options.level;
     Pokemon_ability := Options.ability;
     Pokemon_item := Options.item;
     maxHP := fun _ => 402;
     Move_new := fun _ name isCrit => construct name isCrit;
     Move_name := fst;
     bp := fun m =>
       if String.eqb (fst m) "Swords Dance" || String.eqb (fst m) "Roost"
       then Some 0 else Some 80;
     Field_new := fun options => options;
     calculate := fun _ _ _ m _ =>
       if String.eqb (fst m) "Curse"
       then Throw {| message := "unsupported move" |}
       else if String.eqb (fst m) "Earthquake" then Return (0, 0)
       else if snd m then Return (104, 123) else Return (69, 81);
     range := fun r => Return r;
     kochance_text := fun _ => Return "guaranteed 5HKO";
     desc := fun _ => Return "Garchomp Dragon Claw vs. Corviknight" |}.

(** The stand-in whose Move constructor builds a move of any name, as the
    one of [@smogon/calc] does. *)
Definition calc : Calc := standIn (fun name isCrit => Return (name, isCrit)).

(** A library whose Move constructor throws for ["Glitch"].  It does not
    stand for [@smogon/calc]: it shows what the code does with a constructor
    that can throw. *)
Definition rejecting : Calc :=
  standIn
    (fun name isCrit =>
       if String.eqb name "Glitch"
       then Throw {| message := "Cannot read properties of undefined" |}
       else Return (name, isCrit)).

Definition elliot : Preset.t :=
  {| Preset.level := Some 13;
     Preset.ability := None;
     Preset.item := Some "";
     Preset.nature := Some "Modest";
     Preset.ivs := Some {[ "atk" := Num 0 ]};
     Preset.evs := Some {[ "spe" := Num 252 ]};
     Preset.moves := Some ["Water Pulse"; "Rapid Spin"];
     Preset.trainer := None |}.

(** A set that gives a level and nothing else. *)
Definition atLevel (n : Z) : Preset.t :=
  {| Preset.level := Some n;
     Preset.ability := None;
     Preset.item := None;
     Preset.nature := None;
     Preset.ivs := None;
     Preset.evs := None;
     Preset.moves := None;
     Preset.trainer := None |}.

Definition gen8 : Setdex :=
  [ ("Staryu", [("Fisherman Elliot", elliot)]);
    ("Poochyena",
     [("Grunt Aqua 1", atLevel 9); ("Grunt (Aqua) 1", atLevel 11)]);
    ("Magneton",
     [("Leader Roxanne", atLevel 14); ("Gym Leader Wattson", atLevel 22)]) ].

Definition data : Data :=
  {| SETDEX_BY_GEN := fun genNum => if genNum =? 8 then Some gen8 else None |}.

(** Elliot's Staryu with a speed EV, an ability, an item and a move list of
    the caller's own. *)
Definition staryu : Raw.t :=
  {| Raw.name := None; Raw.level := None; Raw.ability := Some "Natural Cure";
     Raw.item := Some "Leftovers"; Raw.nature := None; Raw.ivs := None;
     Raw.evs := Some {[ "spe" := Num 4 ]};
     Raw.boosts := None; Raw.curHP := None; Raw.status := None;
     Raw.isDynamaxed := None; Raw.moves := Some ["Surf"];
     Raw.trainerPokemon :=
       Some {| TrainerPokemon.speciesName := "Staryu";
               TrainerPokemon.trainerName := "Fisherman Elliot" |} |}.

(** A bare trainer reference. *)
Definition trainer (speciesName trainerName : string) : Raw.t :=
  {| Raw.name := None; Raw.level := None; Raw.ability := None;
     Raw.item := None; Raw.nature := None; Raw.ivs := None; Raw.evs := None;
     Raw.boosts := None; Raw.curHP := None; Raw.status := None;
     Raw.isDynamaxed := None; Raw.moves := None;
     Raw.trainerPokemon :=
       Some {| TrainerPokemon.speciesName := speciesName;
               TrainerPokemon.trainerName := trainerName |} |}.

Definition named (name : string) (moves : list string) : Raw.t :=
  {| Raw.name := Some name; Raw.level := None; Raw.ability := None;
     Raw.item := None; Raw.nature := None; Raw.ivs := None; Raw.evs := None;
     Raw.boosts := None; Raw.curHP := None; Raw.status := None;
     Raw.isDynamaxed := None; Raw.moves := Some moves;
     Raw.trainerPokemon := None |}.

(** The options of a Pokemon given by name and moves alone. *)
Definition options (name : string) (moves : list string) : Options.t :=
  initialOptions defaultIVs defaultEVs (named name moves).

Definition plainField : FieldOptions :=
  {| fieldFlags := noFlags; attackerSide := emptySide;
     defenderSide := emptySide |}.

Definition matchup (moves1 moves2 : list string) : Input.t :=
  {| Input.generation := Some 9;
     Input.pokemon1 := named "Garchomp" moves1;
     Input.pokemon2 := named "Corviknight" moves2;
     Input.field := None |}.

End Sample.

(** ** A small host and requests for the one-direction script *)

Module Examples.

(** A host on which every file exists: the text of a file is its path, and
    running it defines every variable as the sample setdex. *)
Definition host : Host :=
  {| dirname := "/app";
     path_join := fun a b => a +:+ "/" +:+ b;
     existsSync := fun _ => true;
     readFileSync := fun filePath => Return filePath;
     Script := string;
     Script_new := fun fileContent => Return fileContent;
     runInNewContext := fun _ => Return (fun _ => Some Sample.gen8) |}.

(** The same host without the file of generation 3. *)
Definition hostWithoutGen3 : Host :=
  {| dirname := "/app";
     path_join := fun a b => a +:+ "/" +:+ b;
     existsSync := fun filePath =>
       negb (String.eqb filePath "/app/src/js/data/sets/gen3.js");
     readFileSync := fun filePath => Return filePath;
     Script := string;
     Script_new := fun fileContent => Return fileContent;
     runInNewContext := fun _ => Return (fun _ => Some Sample.gen8) |}.

(** The table [host] loads. *)
Definition table : list (Z * Setdex) :=
  map (fun entry => (fst entry, Sample.gen8)) generationVariables.

(** A field with both sides given and nothing set. *)
Definition field : Legacy.FieldInput.t :=
  {| Legacy.FieldInput.flags := noFlags;
     Legacy.FieldInput.attackerSide := Some emptySide;
     Legacy.FieldInput.defenderSide := Some emptySide |}.

(** Garchomp against Corviknight in the one-direction script. *)
Definition legacy (moves : option (list string))
    (field : option Legacy.FieldInput.t) : Legacy.Input.t :=
  {| Legacy.Input.generation := Some 9;
     Legacy.Input.attacker := Some (Sample.named "Garchomp" []);
     Legacy.Input.defender := Some (Sample.named "Corviknight" []);
     Legacy.Input.moves := moves;
     Legacy.Input.field := field |}.

(** A request with every flag given, and Garchomp's moves. *)
Definition flagged (moves : list string) : Input.t :=
  {| Input.generation := Some 9;
     Input.pokemon1 := Sample.named "Garchomp" moves;
     Input.pokemon2 := Sample.named "Corviknight" [];
     Input.field :=
       Some {| flags :=
                 {| weather := Some "Rain"; terrain := None;
                    isGravity := Some false; isMagicRoom := Some false;
                    isWonderRoom := Some false; isBeadsOfRuin := Some false;
                    isTabletsOfRuin := Some false;
                    isSwordOfRuin := Some true;
                    isVesselOfRuin := Some false |};
               pokemon1Side := None;
               pokemon2Side := Some emptySide |} |}.

(** A request at generation 8 for a trainer the sample dataset lacks. *)
Definition unknownTrainer : Input.t :=
  {| Input.generation := Some 8;
     Input.pokemon1 := Sample.trainer "Staryu" "Nobody";
     Input.pokemon2 := Sample.named "Corviknight" ["Roost"];
     Input.field := None |}.

(** Elliot's Staryu as [getTrainerPokemonSets] lists it. *)
Definition elliotListed : Graphql.TrainerPokemonSet.t :=
  {| Graphql.TrainerPokemonSet.speciesName := "Staryu";
     Graphql.TrainerPokemonSet.setName := "Fisherman Elliot";
     Graphql.TrainerPokemonSet.level := Some 13;
     Graphql.TrainerPokemonSet.ability := "N/A";
     Graphql.TrainerPokemonSet.item := "N/A";
     Graphql.TrainerPokemonSet.nature := "Modest";
     Graphql.TrainerPokemonSet.ivs := {[ "atk" := Num 0 ]};
     Graphql.TrainerPokemonSet.evs := {[ "spe" := Num 252 ]};
     Graphql.TrainerPokemonSet.moves := ["Water Pulse"; "Rapid Spin"] |}.

End Examples.

(** * Properties *)

(** ** Merging the layers of a configuration *)

Lemma lookup_spread (a b : StatTable) (stat : string) :
  spread a b !! stat = layered (a !! stat) None (b !! stat).
Proof.
  unfold spread, layered. rewrite lookup_union.
  destruct (b !! stat), (a !! stat); reflexivity.
Qed.

Lemma lookup_spread3 (a b c : StatTable) (stat : string) :
  spread (spread a b) c !! stat = layered (a !! stat) (b !! stat) (c !! stat).
Proof.
  rewrite lookup_spread, lookup_spread. unfold layered.
  destruct (c !! stat), (b !! stat), (a !! stat); reflexivity.
Qed.

Lemma default_stats :
  Forall
    (fun stat =>
       defaultIVs !! stat = Some (Num 31) /\ defaultEVs !! stat = Some (Num 0))
    statNames.
Proof. repeat constructor. Qed.

Lemma truthy_nonempty (s : string) : s <> "" -> Js.truthy_str (Some s) = true.
Proof.
  intros Hs. unfold Js.truthy_str.
  destruct (String.eqb_spec s ""); [contradiction | reflexivity].
Qed.

Section Merging.
Context {dataset : Data}.

(** With a trainer reference that resolves, the server returns the options
    [applyTrainerSet] builds. *)
Lemma graphql_options_of_trainer (genNum : Z) (raw : Raw.t)
    (tp : TrainerPokemon.t) (set : Preset.t) :
  Raw.trainerPokemon raw = Some tp ->
  TrainerPokemon.speciesName tp <> "" ->
  resolveOne genNum (TrainerPokemon.speciesName tp)
    (TrainerPokemon.trainerName tp) = Return set ->
  Graphql.getPokemonOptions genNum raw =
    Return (Graphql.applyTrainerSet raw (TrainerPokemon.speciesName tp) set
              (initialOptions defaultIVs defaultEVs raw)).
Proof.
  intros Htp Hname Hset. unfold Graphql.getPokemonOptions.
  rewrite Htp, Hset. cbn [obind]. unfold requireName.
  cbn [Graphql.applyTrainerSet Options.name].
  rewrite truthy_nonempty by assumption. reflexivity.
Qed.

(** The same for the CLI. *)
Lemma cli_options_of_trainer (genNum : Z) (raw : Raw.t)
    (tp : TrainerPokemon.t) (set : Preset.t) (ivs evs : StatTable) :
  Raw.trainerPokemon raw = Some tp ->
  TrainerPokemon.speciesName tp <> "" ->
  resolveOne genNum (TrainerPokemon.speciesName tp)
    (TrainerPokemon.trainerName tp) = Return set ->
  Cli.getPokemonOptions genNum raw ivs evs =
    Return (Cli.applyTrainerSet ivs evs (TrainerPokemon.speciesName tp) set
              (initialOptions ivs evs raw)).
Proof.
  intros Htp Hname Hset. unfold Cli.getPokemonOptions.
  rewrite Htp, Hset. cbn [obind]. unfold requireName.
  cbn [Cli.applyTrainerSet Options.name].
  rewrite truthy_nonempty by assumption. reflexivity.
Qed.

(** C1, as the code has it.  With a trainer reference that resolves to [set],
    the server layers every IV and EV as default, then preset, then explicit
    value; the CLI layers default, then preset, and never reads the explicit
    table.  The defaults are 31 for the six IVs and 0 for the six EVs. *)
Theorem trainer_stat_precedence (genNum : Z) (raw : Raw.t)
    (tp : TrainerPokemon.t) (set : Preset.t) :
  Raw.trainerPokemon raw = Some tp ->
  TrainerPokemon.speciesName tp <> "" ->
  resolveOne genNum (TrainerPokemon.speciesName tp)
    (TrainerPokemon.trainerName tp) = Return set ->
  exists server cli : Options.t,
    Graphql.getPokemonOptions genNum raw = Return server
    /\ Cli.getPokemonOptions genNum raw defaultIVs defaultEVs = Return cli
    /\ (forall stat : string,
          Options.ivs server !! stat
          = layered (defaultIVs !! stat)
              (spreadable (Preset.ivs set) !! stat)
              (spreadable (Raw.ivs raw) !! stat)
          /\ Options.evs server !! stat
             = layered (defaultEVs !! stat)
                 (spreadable (Preset.evs set) !! stat)
                 (spreadable (Raw.evs raw) !! stat)
          /\ Options.ivs cli !! stat
             = layered (defaultIVs !! stat)
                 (spreadable (Preset.ivs set) !! stat) None
          /\ Options.evs cli !! stat
             = layered (defaultEVs !! stat)
                 (spreadable (Preset.evs set) !! stat) None)
    /\ Forall
         (fun stat =>
            defaultIVs !! stat = Some (Num 31)
            /\ defaultEVs !! stat = Some (Num 0))
         statNames.
Proof.
  intros Htp Hname Hset.
  eexists. eexists.
  split; [exact (graphql_options_of_trainer _ _ _ _ Htp Hname Hset) |].
  split; [exact (cli_options_of_trainer _ _ _ _ _ _ Htp Hname Hset) |].
  split; [| exact default_stats].
  intros stat. cbn [Graphql.applyTrainerSet Cli.applyTrainerSet
                     Options.ivs Options.evs].
  rewrite !lookup_spread3.
  repeat split.
  - rewrite lookup_spread. unfold layered.
    destruct (spreadable (Preset.ivs set) !! stat); reflexivity.
  - rewrite lookup_spread. unfold layered.
    destruct (spreadable (Preset.evs set) !! stat); reflexivity.
Qed.

End Merging.

(** C1 run on Elliot's Staryu: the caller's speed EV of 4 wins on the
    server. *)
Lemma trainer_stat_precedence_witness :
  exists server cli : Options.t,
    Graphql.getPokemonOptions (dataset := Sample.data) 8 Sample.staryu = Return server
    /\ Cli.getPokemonOptions (dataset := Sample.data) 8 Sample.staryu
         defaultIVs defaultEVs = Return cli
    /\ (forall stat : string,
          Options.ivs server !! stat
          = layered (defaultIVs !! stat)
              (spreadable (Preset.ivs Sample.elliot) !! stat)
              (spreadable (Raw.ivs Sample.staryu) !! stat)
          /\ Options.evs server !! stat
             = layered (defaultEVs !! stat)
                 (spreadable (Preset.evs Sample.elliot) !! stat)
                 (spreadable (Raw.evs Sample.staryu) !! stat)
          /\ Options.ivs cli !! stat
             = layered (defaultIVs !! stat)
                 (spreadable (Preset.ivs Sample.elliot) !! stat) None
          /\ Options.evs cli !! stat
             = layered (defaultEVs !! stat)
                 (spreadable (Preset.evs Sample.elliot) !! stat) None)
    /\ Forall
         (fun stat =>
            defaultIVs !! stat = Some (Num 31)
            /\ defaultEVs !! stat = Some (Num 0))
         statNames.
Proof.
  apply (trainer_stat_precedence (dataset := Sample.data) 8 Sample.staryu
           {| TrainerPokemon.speciesName := "Staryu";
              TrainerPokemon.trainerName := "Fisherman Elliot" |}
           Sample.elliot).
  - reflexivity.
  - discriminate.
  - vm_compute. reflexivity.
Defined.

(** C1 as stated fails on the CLI: the caller's speed EV of 4 is dropped for
    the preset's 252. *)
Lemma cli_drops_explicit_stats :
  exists cli : Options.t,
    Cli.getPokemonOptions (dataset := Sample.data) 8 Sample.staryu
      defaultIVs defaultEVs = Return cli
    /\ spreadable (Raw.evs Sample.staryu) !! "spe" = Some (Num 4)
    /\ Options.evs cli !! "spe" = Some (Num 252).
Proof.
  eexists. split; [vm_compute; reflexivity |].
  split; vm_compute; reflexivity.
Qed.

Lemma num_or_truthy (v : option Z) (d : Z) :
  Some (Js.num_or v d) = if Js.truthy_num v then v else Some d.
Proof.
  destruct v as [n |]; cbn; [| reflexivity].
  destruct (n =? 0); reflexivity.
Qed.

Lemma str_or_truthy (v : option string) (d : string) :
  Some (Js.str_or v d) = if Js.truthy_str v then v else Some d.
Proof.
  destruct v as [s |]; cbn; [| reflexivity].
  destruct (String.eqb s ""); reflexivity.
Qed.

Section Scalars.
Context {dataset : Data}.

(** C4, as the code has it.  With a trainer reference that resolves to
    [set], the server takes the preset's level, ability, item and nature
    when that value is truthy (a level other than 0, a string other than the
    empty one) and otherwise keeps what the explicit field or its default
    established (level 100, nature "Serious", ability and item as given).
    The CLI takes the same truthy preset values but falls back to 100 and
    "Serious" without reading the explicit level and nature, and its ability
    and item are the preset's, present or not. *)
Theorem trainer_scalar_precedence (genNum : Z) (raw : Raw.t)
    (tp : TrainerPokemon.t) (set : Preset.t) :
  Raw.trainerPokemon raw = Some tp ->
  TrainerPokemon.speciesName tp <> "" ->
  resolveOne genNum (TrainerPokemon.speciesName tp)
    (TrainerPokemon.trainerName tp) = Return set ->
  exists server cli : Options.t,
    Graphql.getPokemonOptions genNum raw = Return server
    /\ Cli.getPokemonOptions genNum raw defaultIVs defaultEVs = Return cli
    /\ (Some (Options.level server)
        = if Js.truthy_num (Preset.level set) then Preset.level set
          else if Js.truthy_num (Raw.level raw) then Raw.level raw
          else Some 100)
    /\ (Options.ability server
        = if Js.truthy_str (Preset.ability set) then Preset.ability set
          else Raw.ability raw)
    /\ (Options.item server
        = if Js.truthy_str (Preset.item set) then Preset.item set
          else Raw.item raw)
    /\ (Some (Options.nature server)
        = if Js.truthy_str (Preset.nature set) then Preset.nature set
          else if Js.truthy_str (Raw.nature raw) then Raw.nature raw
          else Some "Serious")
    /\ (Some (Options.level cli)
        = if Js.truthy_num (Preset.level set) then Preset.level set
          else Some 100)
    /\ Options.ability cli = Preset.ability set
    /\ Options.item cli = Preset.item set
    /\ (Some (Options.nature cli)
        = if Js.truthy_str (Preset.nature set) then Preset.nature set
          else Some "Serious").
Proof.
  intros Htp Hname Hset.
  eexists. eexists.
  split; [exact (graphql_options_of_trainer _ _ _ _ Htp Hname Hset) |].
  split; [exact (cli_options_of_trainer _ _ _ _ _ _ Htp Hname Hset) |].
  cbn [Graphql.applyTrainerSet Cli.applyTrainerSet initialOptions
       Options.level Options.ability Options.item Options.nature].
  rewrite !num_or_truthy, !str_or_truthy.
  unfold Js.opt_str_or.
  repeat split;
    repeat match goal with
           | |- context [if ?b then _ else _] => destruct b
           end; reflexivity.
Qed.

(** C6.  With a trainer reference that resolves to [set] and a move list
    given beside it, both programs return the preset's move list whenever
    the preset has one, and the given list only when it has none. *)
Theorem trainer_moves_replace_explicit (genNum : Z) (raw : Raw.t)
    (tp : TrainerPokemon.t) (set : Preset.t) (explicit : list string) :
  Raw.trainerPokemon raw = Some tp ->
  TrainerPokemon.speciesName tp <> "" ->
  resolveOne genNum (TrainerPokemon.speciesName tp)
    (TrainerPokemon.trainerName tp) = Return set ->
  Raw.moves raw = Some explicit ->
  exists server cli : Options.t,
    Graphql.getPokemonOptions genNum raw = Return server
    /\ Cli.getPokemonOptions genNum raw defaultIVs defaultEVs = Return cli
    /\ Options.moves server
       = match Preset.moves set with
         | Some presetMoves => presetMoves
         | None => explicit
         end
    /\ Options.moves cli = Options.moves server.
Proof.
  intros Htp Hname Hset Hmoves.
  eexists. eexists.
  split; [exact (graphql_options_of_trainer _ _ _ _ Htp Hname Hset) |].
  split; [exact (cli_options_of_trainer _ _ _ _ _ _ Htp Hname Hset) |].
  cbn [Graphql.applyTrainerSet Cli.applyTrainerSet initialOptions
       Options.moves].
  rewrite Hmoves. split; reflexivity.
Qed.

End Scalars.

(** C4 run on Elliot's Staryu. *)
Lemma trainer_scalar_precedence_witness :
  exists server cli : Options.t,
    Graphql.getPokemonOptions (dataset := Sample.data) 8 Sample.staryu = Return server
    /\ Cli.getPokemonOptions (dataset := Sample.data) 8 Sample.staryu
         defaultIVs defaultEVs = Return cli
    /\ Some (Options.level server) = Some 13
    /\ Options.ability server = Some "Natural Cure"
    /\ Options.item server = Some "Leftovers"
    /\ Some (Options.nature server) = Some "Modest"
    /\ Some (Options.level cli) = Some 13
    /\ Options.ability cli = None
    /\ Options.item cli = Some ""
    /\ Some (Options.nature cli) = Some "Modest".
Proof.
  apply (trainer_scalar_precedence (dataset := Sample.data) 8 Sample.staryu
           {| TrainerPokemon.speciesName := "Staryu";
              TrainerPokemon.trainerName := "Fisherman Elliot" |}
           Sample.elliot).
  - reflexivity.
  - discriminate.
  - vm_compute. reflexivity.
Defined.

(** C4 as stated fails twice on Elliot's Staryu.  The preset has no ability
    and the caller gives one: the CLI returns none.  The preset's item is
    the empty string and the caller gives one: the server returns the
    caller's, not the preset's. *)
Lemma scalar_fallbacks_differ :
  exists server cli : Options.t,
    Graphql.getPokemonOptions (dataset := Sample.data) 8 Sample.staryu = Return server
    /\ Cli.getPokemonOptions (dataset := Sample.data) 8 Sample.staryu
         defaultIVs defaultEVs = Return cli
    /\ Preset.ability Sample.elliot = None
    /\ Raw.ability Sample.staryu = Some "Natural Cure"
    /\ Options.ability cli = None
    /\ Preset.item Sample.elliot = Some ""
    /\ Options.item server = Some "Leftovers".
Proof.
  eexists. eexists.
  split; [vm_compute; reflexivity |].
  split; [vm_compute; reflexivity |].
  repeat split.
Qed.

(** C6 run on Elliot's Staryu: the caller's ["Surf"] is gone. *)
Lemma trainer_moves_replace_explicit_witness :
  exists server cli : Options.t,
    Graphql.getPokemonOptions (dataset := Sample.data) 8 Sample.staryu = Return server
    /\ Cli.getPokemonOptions (dataset := Sample.data) 8 Sample.staryu
         defaultIVs defaultEVs = Return cli
    /\ Options.moves server = ["Water Pulse"; "Rapid Spin"]
    /\ Options.moves cli = Options.moves server.
Proof.
  apply (trainer_moves_replace_explicit (dataset := Sample.data) 8 Sample.staryu
           {| TrainerPokemon.speciesName := "Staryu";
              TrainerPokemon.trainerName := "Fisherman Elliot" |}
           Sample.elliot ["Surf"]).
  - reflexivity.
  - discriminate.
  - vm_compute. reflexivity.
  - reflexivity.
Defined.

(** ** The formatter *)

Lemma append_inv_head (s a b : string) : s +:+ a = s +:+ b -> a = b.
Proof.
  induction s as [| c s IH]; cbn; intros Heq; [assumption |].
  injection Heq as Heq. apply IH, Heq.
Qed.

Lemma append_nonempty (s t : string) : t <> "" -> s +:+ t <> "".
Proof.
  intros Ht. destruct s; cbn; [assumption | discriminate].
Qed.

Section Formatter.
Context {library : Calc}.

Variable gen : Generation.
Variables attacker defender : Pokemon.
Variable field : Field.

(** C7.  A move of base power 0 is answered without [calculate]: the only
    call the formatter makes is the construction of the move, the ranges are
    [0, 0], the KO text is "No damaging effect", and the description says the
    move is non-damaging, in a wording of its own for a critical hit. *)
Theorem status_move_skips_calculate (moveName : string) (isCrit : bool)
    (move : Move) (log : list Event) :
  Move_new gen moveName isCrit = Return move ->
  bp move = Some 0 ->
  getFormattedResult gen attacker defender moveName field isCrit log
  = (Return
       {| damageRange := (0, 0);
          percentageRange := (Js.Tenths 0, Js.Tenths 0);
          koChance := "No damaging effect";
          description :=
            if isCrit
            then Move_name move
                 +:+ " is a non-damaging move, so it cannot critically hit."
            else Move_name move +:+ " is a non-damaging move." |},
     (log ++ [NewMove gen moveName isCrit])%list)
  /\ Move_name move +:+ " is a non-damaging move, so it cannot critically hit."
     <> Move_name move +:+ " is a non-damaging move.".
Proof.
  intros Hmove Hbp. split.
  - unfold getFormattedResult, bind, call. rewrite Hmove.
    unfold isStatusMove. rewrite Hbp. reflexivity.
  - intros Heq. apply append_inv_head in Heq. discriminate Heq.
Qed.

(** C8.  When [calculate] throws, the formatter returns: ranges [0, 0], the
    KO text "Calculation Error / No effect", and a description that carries
    the error's message. *)
Theorem calculate_error_is_caught (moveName : string) (isCrit : bool)
    (move : Move) (calcError : JsError) (log : list Event) :
  Move_new gen moveName isCrit = Return move ->
  isStatusMove move = false ->
  calculate gen attacker defender move field = Throw calcError ->
  getFormattedResult gen attacker defender moveName field isCrit log
  = (Return
       {| damageRange := (0, 0);
          percentageRange := (Js.Tenths 0, Js.Tenths 0);
          koChance := "Calculation Error / No effect";
          description :=
            Move_name move +:+ " could not be calculated: "
            +:+ message calcError |},
     ((log ++ [NewMove gen moveName isCrit])
      ++ [Calculate gen attacker defender move field])%list).
Proof.
  intros Hmove Hbp Hcalc.
  unfold getFormattedResult, bind, call. rewrite Hmove, Hbp.
  unfold try_catch, formatCalculation, bind, call. rewrite Hcalc.
  reflexivity.
Qed.

(** What [Math.floor(x * 1000 / hp)] is for a positive [hp]. *)
Lemma percentage_floor (damage hp : Z) :
  0 < hp ->
  Js.percentage damage hp = Js.Tenths (damage * 1000 / hp)
  /\ (damage * 1000 / hp) * hp <= damage * 1000
     < (damage * 1000 / hp + 1) * hp
  /\ (0 <= damage -> damage * 1000 / hp = Z.quot (damage * 1000) hp).
Proof.
  intros Hhp. split; [| split].
  - unfold Js.percentage. destruct (Z.eqb_spec hp 0); [lia | reflexivity].
  - pose proof (Z.div_mod (damage * 1000) hp ltac:(lia)) as Hdm.
    pose proof (Z.mod_pos_bound (damage * 1000) hp Hhp) as Hb.
    nia.
  - intros Hd. symmetry. apply Z.quot_div_nonneg; lia.
Qed.

(** C9.  For a result whose maximum is above zero, with hit points and
    thousandfold damages that a double holds exactly, each percentage is the
    whole number of tenths [n = floor (damage * 1000 / hp)], that is
    [n * hp <= damage * 1000 < (n + 1) * hp]; for a damage that is not
    negative it is the quotient truncated toward zero.  81 against 402 hit
    points is 20.1, not 20.2, and 2 against 3 is 66.6 where rounding would
    give 66.7. *)
Theorem percentage_is_truncated_tenths (moveName : string) (isCrit : bool)
    (move : Move) (result : Result) (dmgMin dmgMax : Z) (ko ds : string)
    (log : list Event) :
  Move_new gen moveName isCrit = Return move ->
  isStatusMove move = false ->
  calculate gen attacker defender move field = Return result ->
  range result = Return (dmgMin, dmgMax) ->
  kochance_text result = Return ko ->
  desc result = Return ds ->
  0 < dmgMax ->
  0 < maxHP defender ->
  Js.safe (maxHP defender) ->
  Js.safe (dmgMin * 1000) ->
  Js.safe (dmgMax * 1000) ->
  exists lo hi : Z,
    lo = dmgMin * 1000 / maxHP defender
    /\ hi = dmgMax * 1000 / maxHP defender
    /\ getFormattedResult gen attacker defender moveName field isCrit log
       = (Return
            {| damageRange := (dmgMin, dmgMax);
               percentageRange := (Js.Tenths lo, Js.Tenths hi);
               koChance := ko;
               description := ds |},
          ((log ++ [NewMove gen moveName isCrit])
           ++ [Calculate gen attacker defender move field])%list)
    /\ lo * maxHP defender <= dmgMin * 1000 < (lo + 1) * maxHP defender
    /\ hi * maxHP defender <= dmgMax * 1000 < (hi + 1) * maxHP defender
    /\ (0 <= dmgMin -> lo = Z.quot (dmgMin * 1000) (maxHP defender))
    /\ hi = Z.quot (dmgMax * 1000) (maxHP defender)
    /\ Js.percentage 81 402 = Js.Tenths 201
    /\ Js.Tenths 201 <> Js.Tenths 202
    /\ Js.percentage 2 3 = Js.Tenths 666.
Proof.
  intros Hmove Hbp Hcalc Hrange Hko Hdesc Hmax Hhp _ _ _.
  destruct (percentage_floor dmgMin _ Hhp) as (Hlo & Hlob & Hloq).
  destruct (percentage_floor dmgMax _ Hhp) as (Hhi & Hhib & Hhiq).
  exists (dmgMin * 1000 / maxHP defender), (dmgMax * 1000 / maxHP defender).
  split; [reflexivity |]. split; [reflexivity |]. split.
  - unfold getFormattedResult, bind, call. rewrite Hmove, Hbp.
    unfold try_catch, formatCalculation, bind, call, pure.
    rewrite Hcalc, Hrange. cbn [fst snd].
    destruct (Z.eqb_spec dmgMax 0); [lia |].
    rewrite Hko, Hdesc, Hlo, Hhi. reflexivity.
  - split; [exact Hlob |]. split; [exact Hhib |]. split; [exact Hloq |].
    split; [apply Hhiq; lia |]. split; [reflexivity |].
    split; [discriminate | reflexivity].
Qed.

(** Once the move is constructed the formatter returns, whatever
    [calculate] and the readers of its result do. *)
Lemma getFormattedResult_returns (moveName : string) (isCrit : bool)
    (move : Move) (log : list Event) :
  Move_new gen moveName isCrit = Return move ->
  exists (hit : HitResult) (log' : list Event),
    getFormattedResult gen attacker defender moveName field isCrit log
    = (Return hit, log').
Proof.
  intros Hmove. unfold getFormattedResult, bind, call. rewrite Hmove.
  destruct (isStatusMove move); [eexists; eexists; reflexivity |].
  unfold try_catch, formatCalculation, bind, call, pure, ret.
  destruct (calculate gen attacker defender move field) as [result | e];
    [| eexists; eexists; reflexivity].
  destruct (range result) as [dmg | e]; [| eexists; eexists; reflexivity].
  destruct (snd dmg =? 0); [eexists; eexists; reflexivity |].
  destruct (kochance_text result); [| eexists; eexists; reflexivity].
  destruct (desc result); eexists; eexists; reflexivity.
Qed.

(** The loop over a move list whose moves can all be constructed returns one
    result per move, in the order of the list. *)
Lemma moveCalculations_returns (moves : list string) (log : list Event) :
  (forall name isCrit, In name moves ->
     exists move, Move_new gen name isCrit = Return move) ->
  exists (results : list MoveCalculationResult) (log' : list Event),
    moveCalculations gen attacker defender field moves log
    = (Return results, log')
    /\ map moveName results = moves.
Proof.
  revert log. induction moves as [| name rest IH]; intros log Hmoves.
  - exists [], log. split; reflexivity.
  - destruct (Hmoves name false (or_introl eq_refl)) as [mv1 Hmv1].
    destruct (Hmoves name true (or_introl eq_refl)) as [mv2 Hmv2].
    destruct (getFormattedResult_returns name false mv1 log Hmv1)
      as (normal & log1 & Hnormal).
    destruct (getFormattedResult_returns name true mv2 log1 Hmv2)
      as (critical & log2 & Hcritical).
    destruct (IH log2) as (others & log3 & Hothers & Hnames).
    { intros n c Hin. apply Hmoves. right. exact Hin. }
    exists ({| moveName := name; normalHit := normal; criticalHit := critical |}
            :: others), log3.
    split.
    + cbn [moveCalculations]. unfold bind at 1. rewrite Hnormal.
      unfold bind at 1. rewrite Hcritical.
      unfold bind at 1. rewrite Hothers. reflexivity.
    + cbn. rewrite Hnames. reflexivity.
Qed.

End Formatter.

(** C7 run on Swords Dance as a critical hit. *)
Lemma status_move_skips_calculate_witness :
  getFormattedResult (library := Sample.calc) 9
    (Sample.options "Garchomp" ["Swords Dance"])
    (Sample.options "Corviknight" []) "Swords Dance" Sample.plainField true []
  = (Return
       {| damageRange := (0, 0);
          percentageRange := (Js.Tenths 0, Js.Tenths 0);
          koChance := "No damaging effect";
          description :=
            "Swords Dance is a non-damaging move, so it cannot critically hit." |},
     [NewMove (library := Sample.calc) 9 "Swords Dance" true])
  /\ "Swords Dance is a non-damaging move, so it cannot critically hit."
     <> "Swords Dance is a non-damaging move.".
Proof.
  exact (status_move_skips_calculate (library := Sample.calc) 9
           (Sample.options "Garchomp" ["Swords Dance"])
           (Sample.options "Corviknight" []) Sample.plainField
           "Swords Dance" true ("Swords Dance", true) []
           eq_refl eq_refl).
Defined.

(** C8 run on a move the sample library cannot calculate. *)
Lemma calculate_error_is_caught_witness :
  getFormattedResult (library := Sample.calc) 9
    (Sample.options "Garchomp" ["Curse"])
    (Sample.options "Corviknight" []) "Curse" Sample.plainField false []
  = (Return
       {| damageRange := (0, 0);
          percentageRange := (Js.Tenths 0, Js.Tenths 0);
          koChance := "Calculation Error / No effect";
          description := "Curse could not be calculated: unsupported move" |},
     [NewMove (library := Sample.calc) 9 "Curse" false;
      Calculate (library := Sample.calc) 9
        (Sample.options "Garchomp" ["Curse"])
        (Sample.options "Corviknight" []) ("Curse", false) Sample.plainField]).
Proof.
  exact (calculate_error_is_caught (library := Sample.calc) 9
           (Sample.options "Garchomp" ["Curse"])
           (Sample.options "Corviknight" []) Sample.plainField
           "Curse" false ("Curse", false)
           {| message := "unsupported move" |} []
           eq_refl eq_refl eq_refl).
Defined.

(** C9 run on 69 to 81 damage against 402 hit points. *)
Lemma percentage_is_truncated_tenths_witness :
  exists lo hi : Z,
    lo = 171
    /\ hi = 201
    /\ getFormattedResult (library := Sample.calc) 9
         (Sample.options "Garchomp" ["Dragon Claw"])
         (Sample.options "Corviknight" []) "Dragon Claw" Sample.plainField
         false []
       = (Return
            {| damageRange := (69, 81);
               percentageRange := (Js.Tenths lo, Js.Tenths hi);
               koChance := "guaranteed 5HKO";
               description := "Garchomp Dragon Claw vs. Corviknight" |},
          [NewMove (library := Sample.calc) 9 "Dragon Claw" false;
           Calculate (library := Sample.calc) 9
             (Sample.options "Garchomp" ["Dragon Claw"])
             (Sample.options "Corviknight" []) ("Dragon Claw", false)
             Sample.plainField])
    /\ lo * 402 <= 69 * 1000 < (lo + 1) * 402
    /\ hi * 402 <= 81 * 1000 < (hi + 1) * 402
    /\ (0 <= 69 -> lo = Z.quot (69 * 1000) 402)
    /\ hi = Z.quot (81 * 1000) 402
    /\ Js.percentage 81 402 = Js.Tenths 201
    /\ Js.Tenths 201 <> Js.Tenths 202
    /\ Js.percentage 2 3 = Js.Tenths 666.
Proof.
  exact (percentage_is_truncated_tenths (library := Sample.calc) 9
           (Sample.options "Garchomp" ["Dragon Claw"])
           (Sample.options "Corviknight" []) Sample.plainField
           "Dragon Claw" false ("Dragon Claw", false) (69, 81) 69 81
           "guaranteed 5HKO" "Garchomp Dragon Claw vs. Corviknight" []
           eq_refl eq_refl eq_refl eq_refl eq_refl eq_refl eq_refl eq_refl
           eq_refl eq_refl eq_refl).
Defined.

(** ** Both directions of a matchup *)


Section Matchup.
Context {library : Calc}.

Variable gen : Generation.




Lemma constructible_app (l1 l2 : list string) :
  constructible gen (l1 ++ l2) ->
  constructible gen l1 /\ constructible gen l2.
Proof.
  intros Hall. split; intros name isCrit Hin; apply Hall, in_or_app; tauto.
Qed.


End Matchup.


Section EmptyMoveList.
Context {library : Calc}.

Variable gen : Generation.

(** C5, as the code has it.  Once both Pokemon are constructed, a direction
    whose attacker has no moves is answered with the message
    "<name> has no moves to calculate." and, on the server, the list [[]];
    the CLI's object has the message and no [moves] key.  That direction
    makes no call: the log the request ends with is the one the other
    direction leaves when run right after the two constructions.  It holds
    for either direction, whatever the other one's list. *)
Theorem empty_move_list_direction (o1 o2 : Options.t)
    (field : option FieldInput) (p1 p2 : Pokemon) (log : list Event) :
  Pokemon_new gen (Options.name o1) o1 = Return p1 ->
  Pokemon_new gen (Options.name o2) o2 = Return p2 ->
  (Options.moves o1 = [] ->
   forall (other : Direction.t) (log' : list Event),
     Graphql.attack gen o2 p2 p1
       (Graphql.fieldOptions field pokemon2Side pokemon1Side)
       ((log ++ [NewPokemon gen (Options.name o1) o1])
        ++ [NewPokemon gen (Options.name o2) o2])%list
     = (Return other, log') ->
     Graphql.computeMatchup gen o1 o2 field log
     = (Return
          {| Graphql.generation := num gen;
             Graphql.pokemon1 := summary p1;
             Graphql.pokemon2 := summary p2;
             Graphql.pokemon1AttackingPokemon2 := noMoves p1 p2 (Some []);
             Graphql.pokemon2AttackingPokemon1 := other |},
        log'))
  /\ (Options.moves o2 = [] ->
      forall (other : Direction.t) (log' : list Event),
        Graphql.attack gen o1 p1 p2
          (Graphql.fieldOptions field pokemon1Side pokemon2Side)
          ((log ++ [NewPokemon gen (Options.name o1) o1])
           ++ [NewPokemon gen (Options.name o2) o2])%list
        = (Return other, log') ->
        Graphql.computeMatchup gen o1 o2 field log
        = (Return
             {| Graphql.generation := num gen;
                Graphql.pokemon1 := summary p1;
                Graphql.pokemon2 := summary p2;
                Graphql.pokemon1AttackingPokemon2 := other;
                Graphql.pokemon2AttackingPokemon1 := noMoves p2 p1 (Some []) |},
           log'))
  /\ (Options.moves o1 = [] ->
      forall (other : Direction.t) (log' : list Event),
        Cli.attack gen o2 p2 p1
          (Cli.fieldOptions field pokemon2Side pokemon1Side)
          ((log ++ [NewPokemon gen (Options.name o1) o1])
           ++ [NewPokemon gen (Options.name o2) o2])%list
        = (Return other, log') ->
        Cli.computeMatchup gen o1 o2 field log
        = (Return
             {| Cli.pokemon1AttackingPokemon2 := noMoves p1 p2 None;
                Cli.pokemon2AttackingPokemon1 := other |},
           log'))
  /\ (Options.moves o2 = [] ->
      forall (other : Direction.t) (log' : list Event),
        Cli.attack gen o1 p1 p2
          (Cli.fieldOptions field pokemon1Side pokemon2Side)
          ((log ++ [NewPokemon gen (Options.name o1) o1])
           ++ [NewPokemon gen (Options.name o2) o2])%list
        = (Return other, log') ->
        Cli.computeMatchup gen o1 o2 field log
        = (Return
             {| Cli.pokemon1AttackingPokemon2 := other;
                Cli.pokemon2AttackingPokemon1 := noMoves p2 p1 None |},
           log'))
  /\ noMovesMessage p1 <> ""
  /\ noMovesMessage p2 <> "".
Proof.
  intros Hp1 Hp2.
  repeat split; try (apply append_nonempty; discriminate).
  - intros Hnone other log' Hother. unfold Graphql.computeMatchup.
    unfold bind at 1, raise at 1, call at 1. rewrite Hp1.
    unfold bind at 1, raise at 1, call at 1. rewrite Hp2.
    unfold bind at 1, raise at 1, Graphql.attack at 1. rewrite Hnone.
    unfold ret at 1.
    unfold bind at 1, raise at 1. rewrite Hother. reflexivity.
  - intros Hnone other log' Hother. unfold Graphql.computeMatchup.
    unfold bind at 1, raise at 1, call at 1. rewrite Hp1.
    unfold bind at 1, raise at 1, call at 1. rewrite Hp2.
    unfold bind at 1, raise at 1. rewrite Hother.
    unfold bind at 1, raise at 1, Graphql.attack at 1. rewrite Hnone.
    reflexivity.
  - intros Hnone other log' Hother. unfold Cli.computeMatchup.
    unfold bind at 1, raise at 1, call at 1. rewrite Hp1.
    unfold bind at 1, raise at 1, call at 1. rewrite Hp2.
    unfold bind at 1, raise at 1, Cli.attack at 1. rewrite Hnone.
    unfold ret at 1.
    unfold bind at 1, raise at 1. rewrite Hother. reflexivity.
  - intros Hnone other log' Hother. unfold Cli.computeMatchup.
    unfold bind at 1, raise at 1, call at 1. rewrite Hp1.
    unfold bind at 1, raise at 1, call at 1. rewrite Hp2.
    unfold bind at 1, raise at 1. rewrite Hother.
    unfold bind at 1, raise at 1, Cli.attack at 1. rewrite Hnone.
    reflexivity.
Qed.

End EmptyMoveList.


(** C5 run on Garchomp with Dragon Claw against a Corviknight without
    moves: the second direction is the message and an empty list, and the
    log holds the two constructions and the first direction's calls only. *)
Lemma empty_move_list_direction_witness :
  Graphql.computeMatchup (library := Sample.calc) 9
    (Sample.options "Garchomp" ["Swords Dance"])
    (Sample.options "Corviknight" []) None []
  = (Return
       {| Graphql.generation := 9;
          Graphql.pokemon1 := summary (library := Sample.calc) (Sample.options "Garchomp" ["Swords Dance"]);
          Graphql.pokemon2 := summary (library := Sample.calc) (Sample.options "Corviknight" []);
          Graphql.pokemon1AttackingPokemon2 :=
            {| Direction.message := None;
               Direction.attacker :=
                 summary (library := Sample.calc)
                   (Sample.options "Garchomp" ["Swords Dance"]);
               Direction.defender := summary (library := Sample.calc) (Sample.options "Corviknight" []);
               Direction.moves :=
                 Some
                   [ {| moveName := "Swords Dance";
                        normalHit :=
                          zeroHit "No damaging effect"
                            "Swords Dance is a non-damaging move.";
                        criticalHit :=
                          zeroHit "No damaging effect"
                            "Swords Dance is a non-damaging move, so it cannot critically hit." |} ] |};
          Graphql.pokemon2AttackingPokemon1 :=
            {| Direction.message := Some "Corviknight has no moves to calculate.";
               Direction.attacker := summary (library := Sample.calc) (Sample.options "Corviknight" []);
               Direction.defender :=
                 summary (library := Sample.calc)
                   (Sample.options "Garchomp" ["Swords Dance"]);
               Direction.moves := Some [] |} |},
     [NewPokemon (library := Sample.calc) 9 (Some "Garchomp")
        (Sample.options "Garchomp" ["Swords Dance"]);
      NewPokemon (library := Sample.calc) 9 (Some "Corviknight")
        (Sample.options "Corviknight" []);
      NewField Sample.plainField;
      NewMove (library := Sample.calc) 9 "Swords Dance" false;
      NewMove (library := Sample.calc) 9 "Swords Dance" true]).
Proof.
  destruct (empty_move_list_direction (library := Sample.calc) 9
              (Sample.options "Garchomp" ["Swords Dance"])
              (Sample.options "Corviknight" []) None
              (Sample.options "Garchomp" ["Swords Dance"])
              (Sample.options "Corviknight" []) [] eq_refl eq_refl)
    as (_ & Hsecond & _).
  apply Hsecond; reflexivity.
Defined.

(** C5 as stated fails on the CLI: the direction without moves has a
    message and no list at all. *)
Lemma cli_direction_without_moves_has_no_list :
  exists (r : Cli.Results) (log' : list Event),
    Cli.calculateDamageCLI (dataset := Sample.data) (library := Sample.calc)
      (Sample.matchup ["Dragon Claw"] []) []
    = (Cli.Printed r, log')
    /\ Direction.message (Cli.pokemon2AttackingPokemon1 r)
       = Some "Corviknight has no moves to calculate."
    /\ Direction.moves (Cli.pokemon2AttackingPokemon1 r) = None.
Proof.
  eexists. eexists. split; [vm_compute; reflexivity |]. split; reflexivity.
Qed.

(** ** Trainer names with characters the pattern syntax reads *)

(** C10.  [getPokemonOptions] puts the trainer name into the pattern as it
    is.  For the name ["("] the pattern is [\b(\b], an unterminated group:
    whenever the species has a set, the lookup ends with the constructor's
    syntax error, in the server and in the CLI, and not with "trainer not
    found".  [getTrainerPokemonSets] escapes the name first: its pattern
    [\b\(\b] compiles, reads the parenthesis as itself, and the listing
    returns. *)
Theorem unescaped_trainer_name_throws (genNum : Z) (speciesName setName : string)
    (set : Preset.t) (rest : SpeciesSets) :
  trainerPattern "(" = "\b(\b"
  /\ findTrainerSet genNum speciesName "(" ((setName, set) :: rest)
     = Throw (RegExpSyntaxError "\b(\b")
  /\ Graphql.getPokemonOptions (dataset := Sample.data) 8
       (Sample.trainer "Poochyena" "(")
     = Throw (RegExpSyntaxError "\b(\b")
  /\ Cli.getPokemonOptions (dataset := Sample.data) 8
       (Sample.trainer "Poochyena" "(") defaultIVs defaultEVs
     = Throw (RegExpSyntaxError "\b(\b")
  /\ Graphql.escapedTrainerPattern "(" = "\b\(\b"
  /\ RegExp.create (Graphql.escapedTrainerPattern "(")
     = RegExp.Compiled
         (RegExp.Seq RegExp.WordBoundary
            (RegExp.Seq (RegExp.Char "(")
               (RegExp.Seq RegExp.WordBoundary RegExp.Empty)))
  /\ Graphql.getTrainerPokemonSets (dataset := Sample.data) 8 "(" = Return [].
Proof.
  split; [reflexivity |].
  split; [reflexivity |].
  repeat split; vm_compute; reflexivity.
Qed.

(** C2 on a trainer name with parentheses.  Poochyena has the sets
    "Grunt Aqua 1" and "Grunt (Aqua) 1", in this order.  Only the second
    contains the name "Grunt (Aqua) 1" as a whole word, yet the lookup
    returns the first: its pattern reads the parentheses as a group. *)
Theorem unescaped_trainer_name_matches_another_set :
  property Sample.gen8 "Poochyena"
  = Some [("Grunt Aqua 1", Sample.atLevel 9); ("Grunt (Aqua) 1", Sample.atLevel 11)]
  /\ Words.containsWholeWord "Grunt (Aqua) 1" "Grunt Aqua 1" = false
  /\ Words.containsWholeWord "Grunt (Aqua) 1" "Grunt (Aqua) 1" = true
  /\ resolveOne (dataset := Sample.data) 8 "Poochyena" "Grunt (Aqua) 1"
     = Return (Sample.atLevel 9)
  /\ Sample.atLevel 9 <> Sample.atLevel 11.
Proof.
  repeat split; try (vm_compute; reflexivity). discriminate.
Qed.

(** ** Patterns that are one literal word *)

Module RegExpFacts.
Import RegExp.

Lemma parse_plain_char (c : ascii) (rest : string) (stack : list frame) (top : frame) :
  isSyntaxCharacter c = false ->
  parse (String c rest) stack top = parse rest stack (push_atom (Char c) top).
Proof.
  unfold isSyntaxCharacter. cbn [inString]. intros H.
  repeat (apply orb_false_elim in H as [? H]).
  cbn [parse inString].
  repeat match goal with Heq : Ascii.eqb c _ = false |- _ => rewrite Heq; clear Heq end.
  reflexivity.
Qed.

Lemma parse_literal (word rest : string) (stack : list frame) (top : frame) :
  literal word = true ->
  parse (word +:+ rest) stack top = parse rest stack (pushWord word top).
Proof.
  revert top. induction word as [| c word IH]; intros top Hlit; [reflexivity |].
  cbn [literal] in Hlit. apply andb_prop in Hlit as [Hc Hword].
  apply negb_true_iff in Hc.
  change (String c word +:+ rest) with (String c (word +:+ rest)).
  cbn [pushWord]. rewrite parse_plain_char by exact Hc.
  apply IH, Hword.
Qed.

Lemma wrap_pushWord (word : string) (f : frame) (r : regex) :
  closed (pushWord word f) = closed f
  /\ wrap (terms (pushWord word f)) r = wrap (terms f) (chars word r).
Proof.
  revert f r. induction word as [| c word IH]; intros f r; [split; reflexivity |].
  cbn [pushWord chars]. destruct (IH (push_atom (Char c) f) r) as [Hc Hw].
  split; [exact Hc | exact Hw].
Qed.

Lemma close_wholeWord (word : string) :
  close (push_assertion WordBoundary
           (pushWord word (push_assertion WordBoundary new_frame)))
  = wholeWordRegex word.
Proof.
  unfold close, push_assertion at 1. cbn [closed terms].
  destruct (wrap_pushWord word (push_assertion WordBoundary new_frame)
              (Seq WordBoundary Empty)) as [Hc Hw].
  rewrite Hc. cbn [push_assertion closed new_frame fold_left].
  unfold seq_of. cbn [fold_left]. exact Hw.
Qed.

Lemma create_literal (word : string) :
  literal word = true ->
  create ("\b" +:+ word +:+ "\b") = Compiled (wholeWordRegex word).
Proof.
  intros Hlit. unfold create.
  change ("\b" +:+ word +:+ "\b")
    with (String "\" (String "b" (word +:+ "\b"))).
  cbn [parse Ascii.eqb Bool.eqb inString orb].
  rewrite parse_literal by exact Hlit.
  cbn [parse Ascii.eqb Bool.eqb inString orb].
  rewrite close_wholeWord. reflexivity.
Qed.

Lemma matchAt_chars (word : string) (r : regex) (p : position) :
  matchAt (chars word r) p
  = match Words.readWord word p with
    | Some q => matchAt r q
    | None => []
    end.
Proof.
  revert p. induction word as [| c word IH]; intros p; [reflexivity |].
  cbn [chars matchAt Words.readWord].
  destruct (snd p) as [| d rest]; [reflexivity |].
  destruct (Ascii.eqb (canonicalize c) (canonicalize d)); [| reflexivity].
  cbn [flat_map]. rewrite app_nil_r. apply IH.
Qed.

Lemma matchesAt_wholeWord (word : string) (p : position) :
  matchesAt (wholeWordRegex word) p = Words.wholeWordAt word p.
Proof.
  unfold matchesAt, wholeWordRegex, Words.wholeWordAt.
  cbn [matchAt]. destruct (atBoundary p); [| reflexivity].
  cbn [flat_map andb]. rewrite app_nil_r, matchAt_chars.
  destruct (Words.readWord word p) as [q |]; [| reflexivity].
  cbn [matchAt]. destruct (atBoundary q); reflexivity.
Qed.

Lemma searchFrom_wholeWord (word : string) (prev : option ascii) (s : string) :
  searchFrom (wholeWordRegex word) prev s = Words.occursFrom word prev s.
Proof.
  revert prev. induction s as [| c s IH]; intros prev;
    cbn [searchFrom Words.occursFrom]; rewrite matchesAt_wholeWord;
    [reflexivity |].
  rewrite IH. reflexivity.
Qed.

Lemma test_wholeWord (word s : string) :
  test (wholeWordRegex word) s = Words.containsWholeWord word s.
Proof. apply searchFrom_wholeWord. Qed.

Lemma parse_escaped_char (c : ascii) (rest : string) (stack : list frame)
    (top : frame) :
  parse
    (if inString c "-/\^$*+?.()|[]{}"
     then String "\" (String c rest) else String c rest) stack top
  = parse rest stack (push_atom (Char c) top).
Proof.
  destruct (inString c "-/\^$*+?.()|[]{}") eqn:Hset.
  - cbn [inString] in Hset.
    repeat (apply orb_prop in Hset as [Hset | Hset];
            [apply Ascii.eqb_eq in Hset; subst c; reflexivity |]).
    discriminate Hset.
  - apply parse_plain_char. cbn [inString] in Hset.
    repeat (apply orb_false_elim in Hset as [? Hset]).
    unfold isSyntaxCharacter. cbn [inString].
    repeat match goal with
           | Heq : Ascii.eqb c _ = false |- _ => rewrite Heq; clear Heq
           end.
    reflexivity.
Qed.

Lemma parse_escape (word rest : string) (stack : list frame) (top : frame) :
  parse (escape word +:+ rest) stack top = parse rest stack (pushWord word top).
Proof.
  revert top. induction word as [| c word IH]; intros top; [reflexivity |].
  cbn [escape pushWord]. rewrite <- IH.
  rewrite <- (parse_escaped_char c (escape word +:+ rest) stack top).
  destruct (inString c "-/\^$*+?.()|[]{}"); reflexivity.
Qed.

Lemma create_escaped (word : string) :
  create ("\b" +:+ escape word +:+ "\b") = Compiled (wholeWordRegex word).
Proof.
  unfold create.
  change ("\b" +:+ escape word +:+ "\b")
    with (String "\" (String "b" (escape word +:+ "\b"))).
  cbn [parse Ascii.eqb Bool.eqb inString orb].
  rewrite parse_escape.
  cbn [parse Ascii.eqb Bool.eqb inString orb].
  rewrite close_wholeWord. reflexivity.
Qed.

End RegExpFacts.

(** ** Whole words *)

Module WordsFacts.
Import RegExp Words.

Lemma lastOf_app (prev : option ascii) (a b : string) :
  lastOf prev (a +:+ b) = lastOf (lastOf prev a) b.
Proof.
  revert prev. induction a as [| c a IH]; intros prev; [reflexivity |].
  change (String c a +:+ b) with (String c (a +:+ b)). cbn [lastOf]. apply IH.
Qed.

Lemma readWord_app (word mid post : string) (prev : option ascii) :
  sameUpToCase word mid = true ->
  readWord word (prev, mid +:+ post) = Some (lastOf prev mid, post).
Proof.
  revert mid prev. induction word as [| c word IH]; intros [| d mid] prev Hsame;
    try discriminate Hsame; [reflexivity |].
  cbn [sameUpToCase] in Hsame. apply andb_prop in Hsame as [Hc Hrest].
  change (String d mid +:+ post) with (String d (mid +:+ post)).
  cbn [readWord snd lastOf]. rewrite Hc. apply IH, Hrest.
Qed.

Lemma readWord_split (word s : string) (prev : option ascii) (q : position) :
  readWord word (prev, s) = Some q ->
  exists mid post : string,
    s = mid +:+ post /\ sameUpToCase word mid = true
    /\ q = (lastOf prev mid, post).
Proof.
  revert s prev. induction word as [| c word IH]; intros s prev Hread.
  - injection Hread as <-. exists "", s. repeat split.
  - cbn [readWord snd] in Hread. destruct s as [| d s]; [discriminate |].
    destruct (Ascii.eqb (canonicalize c) (canonicalize d)) eqn:Hc;
      [| discriminate].
    destruct (IH _ _ Hread) as (mid & post & -> & Hsame & ->).
    exists (String d mid), post. cbn [sameUpToCase]. rewrite Hc, Hsame.
    repeat split.
Qed.

Lemma occursFrom_spec (word s : string) (prev : option ascii) :
  occursFrom word prev s = true <->
  exists pre mid post : string,
    s = pre +:+ mid +:+ post
    /\ sameUpToCase word mid = true
    /\ atBoundary (lastOf prev pre, mid +:+ post) = true
    /\ atBoundary (lastOf prev (pre +:+ mid), post) = true.
Proof.
  split.
  - revert prev. induction s as [| c s IH]; intros prev Hocc;
      cbn [occursFrom] in Hocc; apply orb_prop in Hocc as [Hhere | Hlater].
    + unfold wholeWordAt in Hhere. apply andb_prop in Hhere as [Hb Hq].
      destruct (readWord word (prev, "")) as [q |] eqn:Hread; [| discriminate].
      destruct (readWord_split _ _ _ _ Hread) as (mid & post & Hs & Hsame & ->).
      exists "", mid, post. cbn [lastOf]. rewrite <- Hs. repeat split; assumption.
    + discriminate.
    + unfold wholeWordAt in Hhere. apply andb_prop in Hhere as [Hb Hq].
      destruct (readWord word (prev, String c s)) as [q |] eqn:Hread;
        [| discriminate].
      destruct (readWord_split _ _ _ _ Hread) as (mid & post & Hs & Hsame & ->).
      exists "", mid, post. cbn [lastOf]. rewrite <- Hs. repeat split; assumption.
    + destruct (IH _ Hlater) as (pre & mid & post & -> & Hsame & Hb1 & Hb2).
      exists (String c pre), mid, post. repeat split; assumption.
  - intros (pre & mid & post & -> & Hsame & Hb1 & Hb2).
    revert prev Hb1 Hb2. induction pre as [| c pre IH]; intros prev Hb1 Hb2.
    + cbn [lastOf] in Hb1. change ("" +:+ mid +:+ post) with (mid +:+ post).
      change ("" +:+ mid) with mid in Hb2.
      assert (Hhere : wholeWordAt word (prev, mid +:+ post) = true).
      { unfold wholeWordAt. rewrite Hb1, (readWord_app _ _ _ _ Hsame).
        exact Hb2. }
      destruct (mid +:+ post); cbn [occursFrom]; rewrite Hhere; reflexivity.
    + change (String c pre +:+ mid +:+ post)
        with (String c (pre +:+ mid +:+ post)).
      cbn [occursFrom]. rewrite (IH (Some c) Hb1 Hb2). apply orb_true_r.
Qed.

Lemma containsWholeWord_spec (word s : string) :
  containsWholeWord word s = true <-> WholeWord word s.
Proof. apply occursFrom_spec. Qed.

End WordsFacts.

(** ** The lookup of a trainer's set *)

Section Lookup.
Import RegExp RegExpFacts.
Context {dataset : Data}.

Lemma strongMatch_literal (trainerName setName : string) (set : Preset.t) :
  strongMatch (wholeWordRegex trainerName) setName set
  = strongly trainerName setName set.
Proof.
  unfold strongMatch, strongly. rewrite !test_wholeWord.
  destruct (Preset.trainer set) as [label |]; [| reflexivity].
  cbn [Js.truthy_str Js.str_or].
  destruct (String.eqb_spec label ""); [| reflexivity].
  subst label. destruct trainerName; reflexivity.
Qed.

Lemma loop_step (trainerName setName : string) (set : Preset.t)
    (rest : SpeciesSets) (acc : option Preset.t) :
  literal trainerName = true ->
  trainerSetLoop trainerName ((setName, set) :: rest) acc
  = if strongly trainerName setName set then Return (Some set)
    else trainerSetLoop trainerName rest
           (match acc with
            | None => if weakMatch trainerName setName then Some set else None
            | Some _ => acc
            end).
Proof.
  intros Hlit. cbn [trainerSetLoop]. unfold trainerPattern.
  rewrite (create_literal _ Hlit), strongMatch_literal. reflexivity.
Qed.

Lemma loop_first_strong (trainerName setName : string) (set : Preset.t)
    (before after : SpeciesSets) (acc : option Preset.t) :
  literal trainerName = true ->
  forallb (fun e => negb (strongly trainerName (fst e) (snd e))) before = true ->
  strongly trainerName setName set = true ->
  trainerSetLoop trainerName (before ++ (setName, set) :: after) acc
  = Return (Some set).
Proof.
  intros Hlit Hbefore Hstrong. revert acc.
  induction before as [| [n p] before IH]; intros acc.
  - cbn [app]. rewrite loop_step, Hstrong by exact Hlit. reflexivity.
  - cbn [forallb fst snd] in Hbefore. apply andb_prop in Hbefore as [Hnp Hrest].
    apply negb_true_iff in Hnp.
    change (((n, p) :: before) ++ (setName, set) :: after)%list
      with ((n, p) :: (before ++ (setName, set) :: after))%list.
    rewrite loop_step, Hnp by exact Hlit. apply IH, Hrest.
Qed.

Lemma loop_no_strong (trainerName : string) (sets : SpeciesSets)
    (acc : option Preset.t) :
  literal trainerName = true ->
  forallb (fun e => negb (strongly trainerName (fst e) (snd e))) sets = true ->
  trainerSetLoop trainerName sets acc
  = Return (match acc with
            | Some _ => acc
            | None => snd <$> List.find (weakCandidate trainerName) sets
            end).
Proof.
  intros Hlit. revert acc. induction sets as [| [n p] sets IH]; intros acc Hnone.
  - destruct acc; reflexivity.
  - cbn [forallb fst snd] in Hnone. apply andb_prop in Hnone as [Hnp Hrest].
    apply negb_true_iff in Hnp.
    rewrite loop_step, Hnp by exact Hlit. rewrite IH by exact Hrest.
    destruct acc as [a |]; [reflexivity |].
    cbn [List.find]. unfold weakCandidate at 2. cbn [fst].
    destruct (weakMatch trainerName n); reflexivity.
Qed.

End Lookup.

(** ** What the two resolvers find *)

(** X1.  A trainer name without syntax characters compiles to the literal
    pattern, and testing it is whole-word containment. *)
Theorem literal_trainer_pattern (trainerName : string) :
  RegExp.literal trainerName = true ->
  RegExp.create (trainerPattern trainerName)
  = RegExp.Compiled (RegExp.wholeWordRegex trainerName)
  /\ forall s : string,
       RegExp.test (RegExp.wholeWordRegex trainerName) s
       = Words.containsWholeWord trainerName s.
Proof.
  intros Hlit. split.
  - exact (RegExpFacts.create_literal trainerName Hlit).
  - exact (RegExpFacts.test_wholeWord trainerName).
Qed.

Lemma literal_trainer_pattern_witness :
  RegExp.create (trainerPattern "Fisherman Elliot")
  = RegExp.Compiled (RegExp.wholeWordRegex "Fisherman Elliot")
  /\ forall s : string,
       RegExp.test (RegExp.wholeWordRegex "Fisherman Elliot") s
       = Words.containsWholeWord "Fisherman Elliot" s.
Proof. exact (literal_trainer_pattern "Fisherman Elliot" eq_refl). Defined.

(** X2.  Every trainer name, once escaped, compiles to the literal pattern,
    and testing it is whole-word containment. *)
Theorem escaped_trainer_pattern (trainerName : string) :
  RegExp.create (Graphql.escapedTrainerPattern trainerName)
  = RegExp.Compiled (RegExp.wholeWordRegex trainerName)
  /\ forall s : string,
       RegExp.test (RegExp.wholeWordRegex trainerName) s
       = Words.containsWholeWord trainerName s.
Proof.
  split.
  - exact (RegExpFacts.create_escaped trainerName).
  - exact (RegExpFacts.test_wholeWord trainerName).
Qed.

Section Resolvers.
Context {dataset : Data}.

Lemma matchingSets_names (trainerName speciesName : string)
    (speciesSets : SpeciesSets) :
  map (fun r => (Graphql.TrainerPokemonSet.speciesName r,
                 Graphql.TrainerPokemonSet.setName r))
    (Graphql.matchingSets (RegExp.wholeWordRegex trainerName) speciesName
       speciesSets)
  = map (fun entry => (speciesName, fst entry))
      (filter (fun entry => strongly trainerName (fst entry) (snd entry))
         speciesSets).
Proof.
  unfold Graphql.matchingSets.
  induction speciesSets as [| [n p] rest IH]; [reflexivity |].
  cbn [flat_map fst snd]. rewrite strongMatch_literal.
  rewrite map_app, IH. cbn [filter list_filter].
  unfold filter. cbn [list_filter fst snd].
  destruct (decide (strongly trainerName n p)) as [Hs | Hs].
  - apply Is_true_true in Hs. rewrite Hs. reflexivity.
  - apply Is_true_false in Hs. rewrite Hs. reflexivity.
Qed.

(** X3.  [getTrainerPokemonSets] for any trainer name: without a dataset for the
    generation it throws "set data not found"; with one it returns, in the
    order of the dataset, exactly the sets whose name or trainer label
    contains the name as a whole word, the empty list when there is none. *)
Theorem getTrainerPokemonSets_lists_strong_matches (generation : Z)
    (trainerName : string) :
  (SETDEX_BY_GEN generation = None ->
   Graphql.getTrainerPokemonSets generation trainerName
   = Throw (DatasetNotFound generation))
  /\ (forall setdex : Setdex,
        SETDEX_BY_GEN generation = Some setdex ->
        exists found : list Graphql.TrainerPokemonSet.t,
          Graphql.getTrainerPokemonSets generation trainerName = Return found
          /\ map (fun r => (Graphql.TrainerPokemonSet.speciesName r,
                            Graphql.TrainerPokemonSet.setName r)) found
             = strongEntries trainerName setdex).
Proof.
  unfold Graphql.getTrainerPokemonSets. split.
  - intros ->. reflexivity.
  - intros setdex ->. unfold Graphql.escapedTrainerPattern.
    rewrite RegExpFacts.create_escaped.
    eexists. split; [reflexivity |].
    unfold strongEntries.
    induction setdex as [| [species sets] rest IH]; [reflexivity |].
    cbn [flat_map fst snd]. rewrite map_app, IH, matchingSets_names.
    reflexivity.
Qed.

(** X4.  For a trainer name without syntax characters, the first set of the
    table that matches strongly is the one returned, whatever stands before
    it (a weak match included) or after it. *)
Theorem first_strong_match_wins (genNum : Z) (speciesName trainerName : string)
    (before after : SpeciesSets) (setName : string) (set : Preset.t) :
  RegExp.literal trainerName = true ->
  forallb (fun entry => negb (strongly trainerName (fst entry) (snd entry)))
    before = true ->
  strongly trainerName setName set = true ->
  findTrainerSet genNum speciesName trainerName
    (before ++ (setName, set) :: after)
  = Return set.
Proof.
  intros Hlit Hbefore Hstrong. unfold findTrainerSet.
  rewrite (loop_first_strong _ _ _ _ _ _ Hlit Hbefore Hstrong).
  reflexivity.
Qed.

Lemma no_weak_no_key (trainerName : string) (sets : SpeciesSets) :
  List.find (weakCandidate trainerName) sets = None ->
  property sets trainerName = None.
Proof.
  induction sets as [| [n p] rest IH]; [reflexivity |].
  cbn [List.find property]. unfold weakCandidate at 1, weakMatch. cbn [fst].
  destruct (String.eqb_spec n trainerName) as [-> | Hne].
  - rewrite String.eqb_refl. discriminate.
  - destruct (String.eqb (Js.firstWord n) (Js.firstWord trainerName));
      [discriminate | exact IH].
Qed.

(** X5.  For a trainer name without syntax characters that is not a
    property name every object inherits, and a table without a strong
    match, the first set whose name starts with the trainer name's first
    word is returned; without one the lookup throws "trainer not found": a
    set whose key is the trainer name itself would already be a weak
    match. *)
Theorem weak_match_is_the_fallback (genNum : Z)
    (speciesName trainerName : string) (sets : SpeciesSets) :
  RegExp.literal trainerName = true ->
  Js.inherited trainerName = false ->
  forallb (fun entry => negb (strongly trainerName (fst entry) (snd entry)))
    sets = true ->
  findTrainerSet genNum speciesName trainerName sets
  = match List.find (weakCandidate trainerName) sets with
    | Some entry => Return (snd entry)
    | None => Throw (TrainerSetNotFound trainerName speciesName genNum)
    end.
Proof.
  intros Hlit _ Hnone. unfold findTrainerSet.
  rewrite (loop_no_strong _ _ None Hlit Hnone). cbn [obind].
  destruct (List.find (weakCandidate trainerName) sets) as [entry |] eqn:Hfind.
  - reflexivity.
  - cbn. rewrite (no_weak_no_key _ _ Hfind). reflexivity.
Qed.

(** X6.  Without a dataset for the generation, the lookup of a trainer's set
    throws "set data not found". *)
Theorem missing_dataset (genNum : Z) (speciesName trainerName : string) :
  SETDEX_BY_GEN genNum = None ->
  resolveOne genNum speciesName trainerName = Throw (DatasetNotFound genNum).
Proof. intros Hnone. unfold resolveOne. rewrite Hnone. reflexivity. Qed.

(** X7.  A configuration that gives nothing at all is refused for its missing
    name, by the server and by the CLI; the options built before the check
    are the defaults. *)
Theorem empty_config_needs_a_name (genNum : Z) :
  Graphql.getPokemonOptions genNum emptyConfig = Throw MissingPokemonName
  /\ Cli.getPokemonOptions genNum emptyConfig defaultIVs defaultEVs
     = Throw MissingPokemonName
  /\ initialOptions defaultIVs defaultEVs emptyConfig
     = {| Options.name := None; Options.level := 100;
          Options.ability := None; Options.item := None;
          Options.nature := "Serious"; Options.ivs := defaultIVs;
          Options.evs := defaultEVs; Options.boosts := ∅;
          Options.curHP := None; Options.status := "";
          Options.isDynamaxed := false; Options.moves := [] |}.
Proof.
  repeat split.
Qed.

End Resolvers.

(** A weak match stands first (Leader Roxanne shares the first word), the
    strong one second: the second is returned. *)
Lemma first_strong_match_wins_witness :
  findTrainerSet 8 "Magneton" "Leader Wattson"
    ([("Leader Roxanne", Sample.atLevel 14)]
     ++ ("Gym Leader Wattson", Sample.atLevel 22) :: [])
  = Return (Sample.atLevel 22).
Proof.
  exact (first_strong_match_wins 8 "Magneton" "Leader Wattson"
           [("Leader Roxanne", Sample.atLevel 14)] []
           "Gym Leader Wattson" (Sample.atLevel 22) eq_refl eq_refl eq_refl).
Defined.

(** No set names Leader Juan: the first set that starts with "Leader" is
    returned. *)
Lemma weak_match_is_the_fallback_witness :
  findTrainerSet 8 "Magneton" "Leader Juan"
    [("Leader Roxanne", Sample.atLevel 14);
     ("Gym Leader Wattson", Sample.atLevel 22)]
  = Return (Sample.atLevel 14).
Proof.
  exact (weak_match_is_the_fallback 8 "Magneton" "Leader Juan"
           [("Leader Roxanne", Sample.atLevel 14);
            ("Gym Leader Wattson", Sample.atLevel 22)]
           eq_refl eq_refl eq_refl).
Defined.

Lemma missing_dataset_witness :
  resolveOne (dataset := Sample.data) 7 "Staryu" "Fisherman Elliot"
  = Throw (DatasetNotFound 7).
Proof.
  exact (missing_dataset (dataset := Sample.data) 7 "Staryu"
           "Fisherman Elliot" eq_refl).
Defined.

Section Immunity.
Context {library : Calc}.

(** X8.  A result whose maximum damage is 0 is reported as an immunity, not as an
    error: ranges [0, 0], the KO text "Immune / No damaging effect", and a
    description that names the move and the defender. *)
Theorem zero_damage_is_immunity (gen : Generation) (attacker defender : Pokemon)
    (field : Field) (moveName : string) (isCrit : bool) (move : Move)
    (result : Result) (dmgMin : Z) (log : list Event) :
  Move_new gen moveName isCrit = Return move ->
  isStatusMove move = false ->
  calculate gen attacker defender move field = Return result ->
  range result = Return (dmgMin, 0) ->
  getFormattedResult gen attacker defender moveName field isCrit log
  = (Return
       {| damageRange := (0, 0);
          percentageRange := (Js.Tenths 0, Js.Tenths 0);
          koChance := "Immune / No damaging effect";
          description :=
            Move_name move +:+ " had no damaging effect on "
            +:+ Pokemon_name defender +:+ "." |},
     ((log ++ [NewMove gen moveName isCrit])
      ++ [Calculate gen attacker defender move field])%list).
Proof.
  intros Hmove Hbp Hcalc Hrange.
  unfold getFormattedResult, bind, call. rewrite Hmove, Hbp.
  unfold try_catch, formatCalculation, bind, call, pure.
  rewrite Hcalc, Hrange. reflexivity.
Qed.

(** X9.  A move that cannot be constructed makes the formatter throw: the
    construction stands before the [try]. *)
Theorem move_construction_failure_propagates (gen : Generation)
    (attacker defender : Pokemon) (field : Field) (moveName : string)
    (isCrit : bool) (e : JsError) (log : list Event) :
  Move_new gen moveName isCrit = Throw e ->
  getFormattedResult gen attacker defender moveName field isCrit log
  = (Throw e, (log ++ [NewMove gen moveName isCrit])%list).
Proof.
  intros Hmove. unfold getFormattedResult, bind, call. rewrite Hmove.
  reflexivity.
Qed.

End Immunity.

Lemma zero_damage_is_immunity_witness :
  getFormattedResult (library := Sample.calc) 9
    (Sample.options "Garchomp" ["Earthquake"])
    (Sample.options "Corviknight" []) "Earthquake" Sample.plainField false []
  = (Return
       {| damageRange := (0, 0);
          percentageRange := (Js.Tenths 0, Js.Tenths 0);
          koChance := "Immune / No damaging effect";
          description := "Earthquake had no damaging effect on Corviknight." |},
     [NewMove (library := Sample.calc) 9 "Earthquake" false;
      Calculate (library := Sample.calc) 9
        (Sample.options "Garchomp" ["Earthquake"])
        (Sample.options "Corviknight" []) ("Earthquake", false)
        Sample.plainField]).
Proof.
  exact (zero_damage_is_immunity (library := Sample.calc) 9
           (Sample.options "Garchomp" ["Earthquake"])
           (Sample.options "Corviknight" []) Sample.plainField
           "Earthquake" false ("Earthquake", false) (0, 0) 0 []
           eq_refl eq_refl eq_refl eq_refl).
Defined.

(** X9 run on a library whose Move constructor throws for one name. *)
Lemma move_construction_failure_propagates_witness :
  getFormattedResult (library := Sample.rejecting) 9
    (Sample.options "Garchomp" ["Glitch"])
    (Sample.options "Corviknight" []) "Glitch" Sample.plainField false []
  = (Throw {| message := "Cannot read properties of undefined" |},
     [NewMove (library := Sample.rejecting) 9 "Glitch" false]).
Proof.
  exact (move_construction_failure_propagates (library := Sample.rejecting) 9
           (Sample.options "Garchomp" ["Glitch"])
           (Sample.options "Corviknight" []) Sample.plainField
           "Glitch" false
           {| message := "Cannot read properties of undefined" |} []
           eq_refl).
Defined.

(** * Further properties of the code *)

(** ** The options [getPokemonOptions] returns *)

Section ReturnedOptions.
Context {dataset : Data}.

(** How the server's [getPokemonOptions] can return: without a trainer
    reference, the initial options; with one, the merge over the set the
    lookup found.  Either way the name is truthy. *)
Lemma graphql_options_cases (genNum : Z) (raw : Raw.t) (o : Options.t) :
  Graphql.getPokemonOptions genNum raw = Return o ->
  Js.truthy_str (Options.name o) = true
  /\ ((Raw.trainerPokemon raw = None
       /\ o = initialOptions defaultIVs defaultEVs raw)
      \/ exists tp set,
           Raw.trainerPokemon raw = Some tp
           /\ resolveOne genNum (TrainerPokemon.speciesName tp)
                (TrainerPokemon.trainerName tp) = Return set
           /\ o = Graphql.applyTrainerSet raw (TrainerPokemon.speciesName tp)
                    set (initialOptions defaultIVs defaultEVs raw)).
Proof.
  unfold Graphql.getPokemonOptions.
  destruct (Raw.trainerPokemon raw) as [tp |] eqn:Htp.
  - destruct (resolveOne genNum (TrainerPokemon.speciesName tp)
                (TrainerPokemon.trainerName tp)) as [set | e] eqn:Hset;
      cbn [obind]; [| discriminate].
    unfold requireName.
    destruct (Js.truthy_str (Options.name _)) eqn:Hname; [| discriminate].
    intros [= <-]. split; [exact Hname |].
    right. exists tp, set. split; [reflexivity |]. split; [exact Hset | reflexivity].
  - cbn [obind]. unfold requireName.
    destruct (Js.truthy_str (Options.name _)) eqn:Hname; [| discriminate].
    intros [= <-]. split; [exact Hname |]. left. split; reflexivity.
Qed.

(** The same for the CLI. *)
Lemma cli_options_cases (genNum : Z) (raw : Raw.t) (o : Options.t) :
  Cli.getPokemonOptions genNum raw defaultIVs defaultEVs = Return o ->
  Js.truthy_str (Options.name o) = true
  /\ ((Raw.trainerPokemon raw = None
       /\ o = initialOptions defaultIVs defaultEVs raw)
      \/ exists tp set,
           Raw.trainerPokemon raw = Some tp
           /\ resolveOne genNum (TrainerPokemon.speciesName tp)
                (TrainerPokemon.trainerName tp) = Return set
           /\ o = Cli.applyTrainerSet defaultIVs defaultEVs
                    (TrainerPokemon.speciesName tp) set
                    (initialOptions defaultIVs defaultEVs raw)).
Proof.
  unfold Cli.getPokemonOptions.
  destruct (Raw.trainerPokemon raw) as [tp |] eqn:Htp.
  - destruct (resolveOne genNum (TrainerPokemon.speciesName tp)
                (TrainerPokemon.trainerName tp)) as [set | e] eqn:Hset;
      cbn [obind]; [| discriminate].
    unfold requireName.
    destruct (Js.truthy_str (Options.name _)) eqn:Hname; [| discriminate].
    intros [= <-]. split; [exact Hname |].
    right. exists tp, set. split; [reflexivity |]. split; [exact Hset | reflexivity].
  - cbn [obind]. unfold requireName.
    destruct (Js.truthy_str (Options.name _)) eqn:Hname; [| discriminate].
    intros [= <-]. split; [exact Hname |]. left. split; reflexivity.
Qed.

Lemma spread_keeps_keys (a b : StatTable) (stat : string) :
  is_Some (a !! stat) -> is_Some (spread a b !! stat).
Proof.
  intros [v Hv]. rewrite lookup_spread, Hv. unfold layered.
  destruct (b !! stat); eauto.
Qed.

Lemma default_keys (stat : string) :
  In stat statNames ->
  is_Some (defaultIVs !! stat) /\ is_Some (defaultEVs !! stat).
Proof.
  intros Hin. pose proof default_stats as Hall.
  rewrite Forall_forall in Hall. apply list_elem_of_In in Hin.
  destruct (Hall _ Hin) as [Hi He]. rewrite Hi, He. split; eauto.
Qed.

(** X10.  Whatever the request, the options either program returns have a
    non-empty name and an IV and an EV entry for each of the six stats: no
    spread of a preset's or of the caller's table removes a key. *)
Theorem returned_options_are_complete (genNum : Z) (raw : Raw.t)
    (o : Options.t) :
  Graphql.getPokemonOptions genNum raw = Return o
  \/ Cli.getPokemonOptions genNum raw defaultIVs defaultEVs = Return o ->
  Js.truthy_str (Options.name o) = true
  /\ forall stat : string,
       In stat statNames ->
       is_Some (Options.ivs o !! stat) /\ is_Some (Options.evs o !! stat).
Proof.
  intros [Hret | Hret].
  - destruct (graphql_options_cases _ _ _ Hret)
      as [Hname [[_ ->] | (tp & set & _ & _ & ->)]];
      (split; [exact Hname |]); intros stat Hin;
      destruct (default_keys stat Hin) as [Hi He];
      cbn [initialOptions Graphql.applyTrainerSet Options.ivs Options.evs];
      split; repeat apply spread_keeps_keys; assumption.
  - destruct (cli_options_cases _ _ _ Hret)
      as [Hname [[_ ->] | (tp & set & _ & _ & ->)]];
      (split; [exact Hname |]); intros stat Hin;
      destruct (default_keys stat Hin) as [Hi He];
      cbn [initialOptions Cli.applyTrainerSet Options.ivs Options.evs];
      split; repeat apply spread_keeps_keys; assumption.
Qed.

Lemma str_or_idem (v : option string) :
  Js.str_or (Some (Js.str_or v "")) "" = Js.str_or v "".
Proof.
  destruct v as [s |]; cbn; [| reflexivity].
  destruct (String.eqb s "") eqn:Hs; cbn; [reflexivity |].
  rewrite Hs. reflexivity.
Qed.

(** X11.  A trainer's set never touches the battle state: with a trainer
    reference that resolves, both programs return the species of the
    reference as the name, whatever name the caller gave, and the boosts,
    current HP, status and Dynamax flag of the caller, defaulted as without
    a trainer. *)
Theorem trainer_set_leaves_battle_state (genNum : Z) (raw : Raw.t)
    (tp : TrainerPokemon.t) (set : Preset.t) :
  Raw.trainerPokemon raw = Some tp ->
  TrainerPokemon.speciesName tp <> "" ->
  resolveOne genNum (TrainerPokemon.speciesName tp)
    (TrainerPokemon.trainerName tp) = Return set ->
  exists server cli : Options.t,
    Graphql.getPokemonOptions genNum raw = Return server
    /\ Cli.getPokemonOptions genNum raw defaultIVs defaultEVs = Return cli
    /\ Options.name server = Some (TrainerPokemon.speciesName tp)
    /\ Options.name cli = Some (TrainerPokemon.speciesName tp)
    /\ Options.boosts server = Js.obj_or (Raw.boosts raw) ∅
    /\ Options.boosts cli = Js.obj_or (Raw.boosts raw) ∅
    /\ Options.curHP server = Raw.curHP raw
    /\ Options.curHP cli = Raw.curHP raw
    /\ Options.status server = Js.str_or (Raw.status raw) ""
    /\ Options.status cli = Js.str_or (Raw.status raw) ""
    /\ Options.isDynamaxed server = Js.bool_or_false (Raw.isDynamaxed raw)
    /\ Options.isDynamaxed cli = Js.bool_or_false (Raw.isDynamaxed raw).
Proof.
  intros Htp Hname Hset. eexists. eexists.
  split; [exact (graphql_options_of_trainer _ _ _ _ Htp Hname Hset) |].
  split; [exact (cli_options_of_trainer _ _ _ _ _ _ Htp Hname Hset) |].
  cbn [Graphql.applyTrainerSet Cli.applyTrainerSet initialOptions
       Options.name Options.boosts Options.curHP Options.status
       Options.isDynamaxed Js.bool_or_false].
  rewrite str_or_idem. repeat split.
Qed.

(** The two programs refuse the same configurations, with the same
    error. *)
Lemma options_errors_agree (genNum : Z) (raw : Raw.t) (e : Error) :
  Graphql.getPokemonOptions genNum raw = Throw e
  <-> Cli.getPokemonOptions genNum raw defaultIVs defaultEVs = Throw e.
Proof.
  unfold Graphql.getPokemonOptions, Cli.getPokemonOptions.
  destruct (Raw.trainerPokemon raw) as [tp |]; [| tauto].
  destruct (resolveOne genNum (TrainerPokemon.speciesName tp)
              (TrainerPokemon.trainerName tp)) as [set | e'];
    cbn [obind]; [| tauto].
  unfold requireName.
  cbn [Graphql.applyTrainerSet Cli.applyTrainerSet Options.name].
  destruct (Js.truthy_str (Some (TrainerPokemon.speciesName tp)));
    split; intros Heq; try discriminate Heq; exact Heq.
Qed.

(** Without a trainer reference the two programs run the same code. *)
Lemma options_without_trainer (genNum : Z) (raw : Raw.t) :
  Raw.trainerPokemon raw = None ->
  Cli.getPokemonOptions genNum raw defaultIVs defaultEVs
  = Graphql.getPokemonOptions genNum raw.
Proof.
  unfold Graphql.getPokemonOptions, Cli.getPokemonOptions.
  intros ->. reflexivity.
Qed.

(** The two files word every message of their own alike but "set data not
    found". *)
Lemma thrownText_agree (e : Error) :
  Graphql.thrownText e = Cli.thrownText e
  <-> forall genNum : Z, e <> DatasetNotFound genNum.
Proof.
  destruct e as [g | sp g | t sp g | | p | p | e];
    try (split; [intros _ g'; discriminate | reflexivity]).
  split.
  - unfold Graphql.thrownText, Cli.thrownText. intros Heq.
    vm_compute in Heq. discriminate Heq.
  - intros Hne. destruct (Hne g eq_refl).
Qed.

(** X12.  The server and the CLI refuse the same configurations at the same
    [throw] statement with the same arguments, trainer reference or not;
    the message thrown there has the same text in both files except for
    "set data not found", which the two word differently; and without a
    trainer reference they return the same options, those of the opening
    literal, exactly when the name is non-empty. *)
Theorem programs_agree_on_options (genNum : Z) (raw : Raw.t) :
  (forall e : Error,
     Graphql.getPokemonOptions genNum raw = Throw e
     <-> Cli.getPokemonOptions genNum raw defaultIVs defaultEVs = Throw e)
  /\ (forall e : Error,
        Graphql.thrownText e = Cli.thrownText e
        <-> forall g : Z, e <> DatasetNotFound g)
  /\ (Raw.trainerPokemon raw = None ->
      Graphql.getPokemonOptions genNum raw
      = Cli.getPokemonOptions genNum raw defaultIVs defaultEVs
      /\ Graphql.getPokemonOptions genNum raw
         = if Js.truthy_str (Raw.name raw)
           then Return (initialOptions defaultIVs defaultEVs raw)
           else Throw MissingPokemonName).
Proof.
  split; [intros e; apply options_errors_agree |].
  split; [exact thrownText_agree |].
  intros Hnone. rewrite (options_without_trainer _ _ Hnone).
  split; [reflexivity |].
  unfold Graphql.getPokemonOptions. rewrite Hnone. reflexivity.
Qed.

End ReturnedOptions.

(** X10 run on Elliot's Staryu. *)
Lemma returned_options_are_complete_witness :
  Js.truthy_str
    (Options.name
       (Graphql.applyTrainerSet Sample.staryu "Staryu" Sample.elliot
          (initialOptions defaultIVs defaultEVs Sample.staryu))) = true
  /\ forall stat : string,
       In stat statNames ->
       is_Some
         (Options.ivs
            (Graphql.applyTrainerSet Sample.staryu "Staryu" Sample.elliot
               (initialOptions defaultIVs defaultEVs Sample.staryu)) !! stat)
       /\ is_Some
            (Options.evs
               (Graphql.applyTrainerSet Sample.staryu "Staryu" Sample.elliot
                  (initialOptions defaultIVs defaultEVs Sample.staryu))
             !! stat).
Proof.
  apply (returned_options_are_complete (dataset := Sample.data) 8
           Sample.staryu).
  left. vm_compute. reflexivity.
Defined.

(** X11 run on Elliot's Staryu. *)
Lemma trainer_set_leaves_battle_state_witness :
  exists server cli : Options.t,
    Graphql.getPokemonOptions (dataset := Sample.data) 8 Sample.staryu
    = Return server
    /\ Cli.getPokemonOptions (dataset := Sample.data) 8 Sample.staryu
         defaultIVs defaultEVs = Return cli
    /\ Options.name server = Some "Staryu"
    /\ Options.name cli = Some "Staryu"
    /\ Options.boosts server = Js.obj_or (Raw.boosts Sample.staryu) ∅
    /\ Options.boosts cli = Js.obj_or (Raw.boosts Sample.staryu) ∅
    /\ Options.curHP server = Raw.curHP Sample.staryu
    /\ Options.curHP cli = Raw.curHP Sample.staryu
    /\ Options.status server = Js.str_or (Raw.status Sample.staryu) ""
    /\ Options.status cli = Js.str_or (Raw.status Sample.staryu) ""
    /\ Options.isDynamaxed server
       = Js.bool_or_false (Raw.isDynamaxed Sample.staryu)
    /\ Options.isDynamaxed cli
       = Js.bool_or_false (Raw.isDynamaxed Sample.staryu).
Proof.
  apply (trainer_set_leaves_battle_state (dataset := Sample.data) 8
           Sample.staryu
           {| TrainerPokemon.speciesName := "Staryu";
              TrainerPokemon.trainerName := "Fisherman Elliot" |}
           Sample.elliot).
  - reflexivity.
  - discriminate.
  - vm_compute. reflexivity.
Defined.

(** ** Requests that fail before the library is called *)

Section Abort.
Context {dataset : Data} {library : Calc}.

(** X13.  When the options of either Pokemon cannot be built, whether for a
    missing name, dataset, species or trainer or for a pattern that does not
    compile, the request ends with that error before any call into the
    library: the server throws it, the CLI logs it, and the call log is
    unchanged.  The first Pokemon's error wins. *)
Theorem resolution_errors_abort_before_any_call (options : Input.t)
    (e : Error) (log : list Event) :
  Graphql.getPokemonOptions (num (generationOf options))
    (Input.pokemon1 options) = Throw e
  \/ ((exists o1 : Options.t,
         Graphql.getPokemonOptions (num (generationOf options))
           (Input.pokemon1 options) = Return o1)
      /\ Graphql.getPokemonOptions (num (generationOf options))
           (Input.pokemon2 options) = Throw e) ->
  Graphql.calculateDamage options log = (Throw e, log)
  /\ Cli.calculateDamageCLI options log = (Cli.ErrorLogged e, log).
Proof.
  unfold Graphql.calculateDamage, Cli.calculateDamageCLI, Cli.results,
    generationOf.
  intros [H1 | [[o1 H1] H2]].
  - pose proof (proj1 (options_errors_agree _ _ _) H1) as H1'.
    unfold bind, pure. rewrite H1, H1'. split; reflexivity.
  - pose proof (proj1 (options_errors_agree _ _ _) H2) as H2'.
    destruct (Cli.getPokemonOptions _ (Input.pokemon1 options)
                defaultIVs defaultEVs) as [o1' | e1] eqn:H1'.
    + unfold bind, pure. rewrite H1, H2, H2'. split; reflexivity.
    + apply options_errors_agree in H1'. congruence.
Qed.

End Abort.

(** X13 run on a trainer the dataset lacks. *)
Lemma resolution_errors_abort_before_any_call_witness :
  Graphql.calculateDamage (dataset := Sample.data) (library := Sample.calc)
    Examples.unknownTrainer []
  = (Throw (TrainerSetNotFound "Nobody" "Staryu" 8), [])
  /\ Cli.calculateDamageCLI (dataset := Sample.data) (library := Sample.calc)
       Examples.unknownTrainer []
     = (Cli.ErrorLogged (TrainerSetNotFound "Nobody" "Staryu" 8), []).
Proof.
  apply (resolution_errors_abort_before_any_call (dataset := Sample.data)
           (library := Sample.calc) Examples.unknownTrainer
           (TrainerSetNotFound "Nobody" "Staryu" 8) []).
  left. vm_compute. reflexivity.
Defined.

(** ** The calls a matchup makes *)

Section Calls.
Context {library : Calc}.

Variable gen : Generation.

(** The formatter's calls do not depend on what [calculate] and the readers
    of its result do. *)
Lemma getFormattedResult_log (attacker defender : Pokemon) (field : Field)
    (name : string) (isCrit : bool) (log : list Event) :
  snd (getFormattedResult gen attacker defender name field isCrit log)
  = (log ++ hitCalls gen attacker defender field name isCrit)%list.
Proof.
  unfold getFormattedResult, hitCalls, bind, call.
  destruct (Move_new gen name isCrit) as [move | e]; [| reflexivity].
  destruct (isStatusMove move); [reflexivity |].
  unfold try_catch, formatCalculation, bind, call, pure, ret.
  rewrite <- app_assoc. cbn [app].
  destruct (calculate gen attacker defender move field) as [result | e];
    [| reflexivity].
  destruct (range result) as [dmg | e]; [| reflexivity].
  destruct (snd dmg =? 0); [reflexivity |].
  destruct (kochance_text result); [| reflexivity].
  destruct (desc result); reflexivity.
Qed.

(** A list whose moves can all be constructed is answered in full, with the
    calls of each move in turn. *)
Lemma moveCalculations_trace (attacker defender : Pokemon) (field : Field)
    (moves : list string) (log : list Event) :
  constructible gen moves ->
  exists results : list MoveCalculationResult,
    moveCalculations gen attacker defender field moves log
    = (Return results,
       (log ++ moveCalls gen attacker defender field moves)%list)
    /\ map moveName results = moves.
Proof.
  revert log. induction moves as [| name rest IH]; intros log Hmoves.
  - exists []. cbn. rewrite app_nil_r. split; reflexivity.
  - destruct (Hmoves name false (or_introl eq_refl)) as [mv1 Hmv1].
    destruct (Hmoves name true (or_introl eq_refl)) as [mv2 Hmv2].
    destruct (getFormattedResult_returns gen attacker defender field
                name false mv1 log Hmv1) as (normal & log1 & Hnormal).
    pose proof (getFormattedResult_log attacker defender field name false log)
      as Hlog1.
    rewrite Hnormal in Hlog1. cbn [snd] in Hlog1. subst log1.
    destruct (getFormattedResult_returns gen attacker defender field
                name true mv2
                (log ++ hitCalls gen attacker defender field name false)%list
                Hmv2) as (critical & log2 & Hcritical).
    pose proof (getFormattedResult_log attacker defender field name true
                  (log ++ hitCalls gen attacker defender field name false)%list)
      as Hlog2.
    rewrite Hcritical in Hlog2. cbn [snd] in Hlog2. subst log2.
    destruct (IH ((log ++ hitCalls gen attacker defender field name false)
                  ++ hitCalls gen attacker defender field name true)%list)
      as (others & Hothers & Hnames).
    { intros n c Hin. apply Hmoves. right. exact Hin. }
    exists ({| moveName := name; normalHit := normal; criticalHit := critical |}
            :: others).
    split.
    + cbn [moveCalculations]. unfold bind at 1. rewrite Hnormal.
      unfold bind at 1. rewrite Hcritical.
      unfold bind at 1. rewrite Hothers. unfold ret.
      cbn [moveCalls flat_map]. rewrite <- !app_assoc. reflexivity.
    + cbn. rewrite Hnames. reflexivity.
Qed.

Lemma graphql_attack_trace (o : Options.t) (a d : Pokemon)
    (fo : FieldOptions) (log : list Event) :
  constructible gen (Options.moves o) ->
  exists direction : Direction.t,
    Graphql.attack gen o a d fo log
    = (Return direction, (log ++ directionCalls gen o a d fo)%list).
Proof.
  intros Hmoves. unfold Graphql.attack, directionCalls.
  destruct (Options.moves o) as [| name rest] eqn:Hlist.
  - eexists. unfold ret. rewrite app_nil_r. reflexivity.
  - destruct (moveCalculations_trace a d (Field_new fo) (name :: rest)
                (log ++ [NewField fo])%list Hmoves)
      as (results & Hrun & _).
    eexists. unfold bind, call. rewrite Hrun. unfold ret.
    rewrite <- app_assoc. reflexivity.
Qed.

Lemma cli_attack_trace (o : Options.t) (a d : Pokemon)
    (fo : FieldOptions) (log : list Event) :
  constructible gen (Options.moves o) ->
  exists direction : Direction.t,
    Cli.attack gen o a d fo log
    = (Return direction, (log ++ directionCalls gen o a d fo)%list).
Proof.
  intros Hmoves. unfold Cli.attack, directionCalls.
  destruct (Options.moves o) as [| name rest] eqn:Hlist.
  - eexists. unfold ret. rewrite app_nil_r. reflexivity.
  - destruct (moveCalculations_trace a d (Field_new fo) (name :: rest)
                (log ++ [NewField fo])%list Hmoves)
      as (results & Hrun & _).
    eexists. unfold bind, call. rewrite Hrun. unfold ret.
    rewrite <- app_assoc. reflexivity.
Qed.

(** X14.  When both Pokemon and all moves can be constructed, the calls of a
    request are exactly: the two Pokemon; then, for the first direction if
    it has moves, one Field, and per move the Move and its [calculate] for
    the normal hit and then for the critical hit, with no [calculate] for a
    move of base power 0; then the same for the second direction, on the
    same two Pokemon objects with the sides exchanged.  This holds whatever
    [calculate] returns or throws, in the server and in the CLI. *)
Theorem matchup_call_trace (o1 o2 : Options.t) (field : option FieldInput)
    (p1 p2 : Pokemon) (log : list Event) :
  Pokemon_new gen (Options.name o1) o1 = Return p1 ->
  Pokemon_new gen (Options.name o2) o2 = Return p2 ->
  constructible gen (Options.moves o1 ++ Options.moves o2) ->
  (exists r : Graphql.CalculationResult,
     Graphql.computeMatchup gen o1 o2 field log
     = (Return r,
        (log
         ++ [NewPokemon gen (Options.name o1) o1;
             NewPokemon gen (Options.name o2) o2]
         ++ directionCalls gen o1 p1 p2
              (Graphql.fieldOptions field pokemon1Side pokemon2Side)
         ++ directionCalls gen o2 p2 p1
              (Graphql.fieldOptions field pokemon2Side pokemon1Side))%list))
  /\ (exists r : Cli.Results,
        Cli.computeMatchup gen o1 o2 field log
        = (Return r,
           (log
            ++ [NewPokemon gen (Options.name o1) o1;
                NewPokemon gen (Options.name o2) o2]
            ++ directionCalls gen o1 p1 p2
                 (Cli.fieldOptions field pokemon1Side pokemon2Side)
            ++ directionCalls gen o2 p2 p1
                 (Cli.fieldOptions field pokemon2Side pokemon1Side))%list)).
Proof.
  intros Hp1 Hp2 Hmoves.
  apply constructible_app in Hmoves as [Hm1 Hm2].
  split.
  - unfold Graphql.computeMatchup.
    unfold bind at 1, raise at 1, call at 1. rewrite Hp1.
    unfold bind at 1, raise at 1, call at 1. rewrite Hp2.
    unfold bind at 1, raise at 1.
    match goal with
    | |- context [Graphql.attack gen o1 p1 p2 ?fo ?l] =>
        destruct (graphql_attack_trace o1 p1 p2 fo l Hm1) as (d1 & Hd1)
    end.
    rewrite Hd1.
    unfold bind at 1, raise at 1.
    match goal with
    | |- context [Graphql.attack gen o2 p2 p1 ?fo ?l] =>
        destruct (graphql_attack_trace o2 p2 p1 fo l Hm2) as (d2 & Hd2)
    end.
    rewrite Hd2.
    eexists. unfold ret. rewrite <- !app_assoc. reflexivity.
  - unfold Cli.computeMatchup.
    unfold bind at 1, raise at 1, call at 1. rewrite Hp1.
    unfold bind at 1, raise at 1, call at 1. rewrite Hp2.
    unfold bind at 1, raise at 1.
    match goal with
    | |- context [Cli.attack gen o1 p1 p2 ?fo ?l] =>
        destruct (cli_attack_trace o1 p1 p2 fo l Hm1) as (d1 & Hd1)
    end.
    rewrite Hd1.
    unfold bind at 1, raise at 1.
    match goal with
    | |- context [Cli.attack gen o2 p2 p1 ?fo ?l] =>
        destruct (cli_attack_trace o2 p2 p1 fo l Hm2) as (d2 & Hd2)
    end.
    rewrite Hd2.
    eexists. unfold ret. rewrite <- !app_assoc. reflexivity.
Qed.

End Calls.

(** X14 run on Garchomp with a damaging and a status move against a
    Corviknight without moves. *)
Lemma matchup_call_trace_witness :
  (exists r : Graphql.CalculationResult,
     Graphql.computeMatchup (library := Sample.calc) 9
       (Sample.options "Garchomp" ["Dragon Claw"; "Swords Dance"])
       (Sample.options "Corviknight" []) None []
     = (Return r,
        ([]
         ++ [NewPokemon (library := Sample.calc) 9 (Some "Garchomp")
               (Sample.options "Garchomp" ["Dragon Claw"; "Swords Dance"]);
             NewPokemon (library := Sample.calc) 9 (Some "Corviknight")
               (Sample.options "Corviknight" [])]
         ++ directionCalls (library := Sample.calc) 9
              (Sample.options "Garchomp" ["Dragon Claw"; "Swords Dance"])
              (Sample.options "Garchomp" ["Dragon Claw"; "Swords Dance"])
              (Sample.options "Corviknight" [])
              (Graphql.fieldOptions None pokemon1Side pokemon2Side)
         ++ directionCalls (library := Sample.calc) 9
              (Sample.options "Corviknight" [])
              (Sample.options "Corviknight" [])
              (Sample.options "Garchomp" ["Dragon Claw"; "Swords Dance"])
              (Graphql.fieldOptions None pokemon2Side pokemon1Side))%list))
  /\ (exists r : Cli.Results,
        Cli.computeMatchup (library := Sample.calc) 9
          (Sample.options "Garchomp" ["Dragon Claw"; "Swords Dance"])
          (Sample.options "Corviknight" []) None []
        = (Return r,
           ([]
            ++ [NewPokemon (library := Sample.calc) 9 (Some "Garchomp")
                  (Sample.options "Garchomp" ["Dragon Claw"; "Swords Dance"]);
                NewPokemon (library := Sample.calc) 9 (Some "Corviknight")
                  (Sample.options "Corviknight" [])]
            ++ directionCalls (library := Sample.calc) 9
                 (Sample.options "Garchomp" ["Dragon Claw"; "Swords Dance"])
                 (Sample.options "Garchomp" ["Dragon Claw"; "Swords Dance"])
                 (Sample.options "Corviknight" [])
                 (Cli.fieldOptions None pokemon1Side pokemon2Side)
            ++ directionCalls (library := Sample.calc) 9
                 (Sample.options "Corviknight" [])
                 (Sample.options "Corviknight" [])
                 (Sample.options "Garchomp" ["Dragon Claw"; "Swords Dance"])
                 (Cli.fieldOptions None pokemon2Side pokemon1Side))%list)).
Proof.
  apply (matchup_call_trace (library := Sample.calc) 9
           (Sample.options "Garchomp" ["Dragon Claw"; "Swords Dance"])
           (Sample.options "Corviknight" []) None
           (Sample.options "Garchomp" ["Dragon Claw"; "Swords Dance"])
           (Sample.options "Corviknight" []) []).
  - reflexivity.
  - reflexivity.
  - intros name isCrit Hin. cbn in Hin.
    destruct Hin as [<- | [<- | []]]; eexists; reflexivity.
Defined.

(** ** The shape of what a matchup returns *)

Section Shape.
Context {library : Calc}.

Variable gen : Generation.

(** A loop that returns has answered every move, in order. *)
Lemma moveCalculations_names (a d : Pokemon) (field : Field)
    (moves : list string) (log log' : list Event)
    (results : list MoveCalculationResult) :
  moveCalculations gen a d field moves log = (Return results, log') ->
  map moveName results = moves.
Proof.
  revert log log' results.
  induction moves as [| name rest IH]; intros log log' results.
  - intros [= <- _]. reflexivity.
  - cbn [moveCalculations]. unfold bind at 1.
    destruct (getFormattedResult gen a d name field false log)
      as [[normal | e] log1]; [| discriminate].
    unfold bind at 1.
    destruct (getFormattedResult gen a d name field true log1)
      as [[critical | e] log2]; [| discriminate].
    unfold bind at 1.
    destruct (moveCalculations gen a d field rest log2)
      as [[others | e] log3] eqn:Hrest; [| discriminate].
    intros [= <- _]. cbn. f_equal. exact (IH _ _ _ Hrest).
Qed.

Lemma graphql_attack_shape (o : Options.t) (a d : Pokemon) (fo : FieldOptions)
    (log log' : list Event) (direction : Direction.t) :
  Graphql.attack gen o a d fo log = (Return direction, log') ->
  Direction.attacker direction = summary a
  /\ Direction.defender direction = summary d
  /\ moveNames direction = Options.moves o
  /\ is_Some (Direction.moves direction)
  /\ Direction.message direction = messageFor a (Options.moves o).
Proof.
  unfold Graphql.attack, messageFor.
  destruct (Options.moves o) as [| name rest] eqn:Hlist.
  - intros [= <- _]. repeat split. cbn. eauto.
  - unfold bind at 1, call. unfold bind at 1.
    destruct (moveCalculations gen a d (Field_new fo) (name :: rest)
                (log ++ [NewField fo])%list) as [[results | e] log1] eqn:Hrun;
      [| discriminate].
    intros [= <- _]. repeat split; cbn; eauto.
    unfold moveNames. cbn. exact (moveCalculations_names _ _ _ _ _ _ _ Hrun).
Qed.

Lemma cli_attack_shape (o : Options.t) (a d : Pokemon) (fo : FieldOptions)
    (log log' : list Event) (direction : Direction.t) :
  Cli.attack gen o a d fo log = (Return direction, log') ->
  Direction.attacker direction = summary a
  /\ Direction.defender direction = summary d
  /\ moveNames direction = Options.moves o
  /\ (is_Some (Direction.moves direction) <-> Options.moves o <> [])
  /\ Direction.message direction = messageFor a (Options.moves o).
Proof.
  unfold Cli.attack, messageFor.
  destruct (Options.moves o) as [| name rest] eqn:Hlist.
  - intros [= <- _]. repeat split; cbn; try tauto.
    intros [x Hx]. discriminate Hx.
  - unfold bind at 1, call. unfold bind at 1.
    destruct (moveCalculations gen a d (Field_new fo) (name :: rest)
                (log ++ [NewField fo])%list) as [[results | e] log1] eqn:Hrun;
      [| discriminate].
    intros [= <- _]. repeat split; cbn; eauto; try discriminate.
    unfold moveNames. cbn. exact (moveCalculations_names _ _ _ _ _ _ _ Hrun).
Qed.

Lemma summary_texts (p : Pokemon) :
  Summary.ability (summary p) <> "" /\ Summary.item (summary p) <> "".
Proof.
  unfold summary. cbn [Summary.ability Summary.item].
  split.
  - destruct (Pokemon_ability p) as [s |]; cbn; [| discriminate].
    destruct (String.eqb_spec s ""); [discriminate | assumption].
  - destruct (Pokemon_item p) as [s |]; cbn; [| discriminate].
    destruct (String.eqb_spec s ""); [discriminate | assumption].
Qed.

(** X15.  Whenever the server returns a result, both Pokemon were
    constructed, and the result is consistent with them: the generation
    number is the generation object's, the two summaries are those of the
    two Pokemon, each direction names its attacker and defender
    accordingly (the second direction mirrored), carries a move list with
    one entry per move of its attacker in order, and carries the
    no-moves message exactly when that list is empty; the ability and item
    texts are never empty. *)
Theorem returned_matchup_shape (o1 o2 : Options.t) (field : option FieldInput)
    (log log' : list Event) (r : Graphql.CalculationResult) :
  Graphql.computeMatchup gen o1 o2 field log = (Return r, log') ->
  exists p1 p2 : Pokemon,
    Pokemon_new gen (Options.name o1) o1 = Return p1
    /\ Pokemon_new gen (Options.name o2) o2 = Return p2
    /\ Graphql.generation r = num gen
    /\ Graphql.pokemon1 r = summary p1
    /\ Graphql.pokemon2 r = summary p2
    /\ Direction.attacker (Graphql.pokemon1AttackingPokemon2 r) = summary p1
    /\ Direction.defender (Graphql.pokemon1AttackingPokemon2 r) = summary p2
    /\ Direction.attacker (Graphql.pokemon2AttackingPokemon1 r) = summary p2
    /\ Direction.defender (Graphql.pokemon2AttackingPokemon1 r) = summary p1
    /\ moveNames (Graphql.pokemon1AttackingPokemon2 r) = Options.moves o1
    /\ moveNames (Graphql.pokemon2AttackingPokemon1 r) = Options.moves o2
    /\ is_Some (Direction.moves (Graphql.pokemon1AttackingPokemon2 r))
    /\ is_Some (Direction.moves (Graphql.pokemon2AttackingPokemon1 r))
    /\ Direction.message (Graphql.pokemon1AttackingPokemon2 r)
       = messageFor p1 (Options.moves o1)
    /\ Direction.message (Graphql.pokemon2AttackingPokemon1 r)
       = messageFor p2 (Options.moves o2)
    /\ Summary.ability (summary p1) <> "" /\ Summary.item (summary p1) <> ""
    /\ Summary.ability (summary p2) <> "" /\ Summary.item (summary p2) <> "".
Proof.
  unfold Graphql.computeMatchup.
  unfold bind at 1, raise at 1, call at 1.
  destruct (Pokemon_new gen (Options.name o1) o1) as [p1 | e] eqn:Hp1;
    [| discriminate].
  unfold bind at 1, raise at 1, call at 1.
  destruct (Pokemon_new gen (Options.name o2) o2) as [p2 | e] eqn:Hp2;
    [| discriminate].
  unfold bind at 1, raise at 1.
  match goal with
  | |- context [Graphql.attack gen o1 p1 p2 ?fo ?l] =>
      destruct (Graphql.attack gen o1 p1 p2 fo l) as [[d1 | e] log1] eqn:Hd1
  end; [| discriminate].
  unfold bind at 1, raise at 1.
  match goal with
  | |- context [Graphql.attack gen o2 p2 p1 ?fo ?l] =>
      destruct (Graphql.attack gen o2 p2 p1 fo l) as [[d2 | e] log2] eqn:Hd2
  end; [| discriminate].
  intros [= <- _].
  destruct (graphql_attack_shape _ _ _ _ _ _ _ Hd1) as (A1 & D1 & N1 & S1 & M1).
  destruct (graphql_attack_shape _ _ _ _ _ _ _ Hd2) as (A2 & D2 & N2 & S2 & M2).
  destruct (summary_texts p1) as [T1 T2].
  destruct (summary_texts p2) as [T3 T4].
  exists p1, p2.
  cbn [Graphql.generation Graphql.pokemon1 Graphql.pokemon2
       Graphql.pokemon1AttackingPokemon2 Graphql.pokemon2AttackingPokemon1].
  repeat (split; [first [reflexivity | assumption] |]). assumption.
Qed.

(** X16.  Whenever the CLI prints results, both Pokemon were constructed;
    each direction names its attacker and defender accordingly, and has
    either a move list with one entry per move in order and no message, or,
    exactly when the attacker has no moves, the message and no [moves] key
    at all. *)
Theorem printed_results_shape (o1 o2 : Options.t) (field : option FieldInput)
    (log log' : list Event) (r : Cli.Results) :
  Cli.computeMatchup gen o1 o2 field log = (Return r, log') ->
  exists p1 p2 : Pokemon,
    Pokemon_new gen (Options.name o1) o1 = Return p1
    /\ Pokemon_new gen (Options.name o2) o2 = Return p2
    /\ Direction.attacker (Cli.pokemon1AttackingPokemon2 r) = summary p1
    /\ Direction.defender (Cli.pokemon1AttackingPokemon2 r) = summary p2
    /\ Direction.attacker (Cli.pokemon2AttackingPokemon1 r) = summary p2
    /\ Direction.defender (Cli.pokemon2AttackingPokemon1 r) = summary p1
    /\ moveNames (Cli.pokemon1AttackingPokemon2 r) = Options.moves o1
    /\ moveNames (Cli.pokemon2AttackingPokemon1 r) = Options.moves o2
    /\ (is_Some (Direction.moves (Cli.pokemon1AttackingPokemon2 r))
        <-> Options.moves o1 <> [])
    /\ (is_Some (Direction.moves (Cli.pokemon2AttackingPokemon1 r))
        <-> Options.moves o2 <> [])
    /\ Direction.message (Cli.pokemon1AttackingPokemon2 r)
       = messageFor p1 (Options.moves o1)
    /\ Direction.message (Cli.pokemon2AttackingPokemon1 r)
       = messageFor p2 (Options.moves o2).
Proof.
  unfold Cli.computeMatchup.
  unfold bind at 1, raise at 1, call at 1.
  destruct (Pokemon_new gen (Options.name o1) o1) as [p1 | e] eqn:Hp1;
    [| discriminate].
  unfold bind at 1, raise at 1, call at 1.
  destruct (Pokemon_new gen (Options.name o2) o2) as [p2 | e] eqn:Hp2;
    [| discriminate].
  unfold bind at 1, raise at 1.
  match goal with
  | |- context [Cli.attack gen o1 p1 p2 ?fo ?l] =>
      destruct (Cli.attack gen o1 p1 p2 fo l) as [[d1 | e] log1] eqn:Hd1
  end; [| discriminate].
  unfold bind at 1, raise at 1.
  match goal with
  | |- context [Cli.attack gen o2 p2 p1 ?fo ?l] =>
      destruct (Cli.attack gen o2 p2 p1 fo l) as [[d2 | e] log2] eqn:Hd2
  end; [| discriminate].
  intros [= <- _].
  destruct (cli_attack_shape _ _ _ _ _ _ _ Hd1) as (A1 & D1 & N1 & S1 & M1).
  destruct (cli_attack_shape _ _ _ _ _ _ _ Hd2) as (A2 & D2 & N2 & S2 & M2).
  exists p1, p2.
  cbn [Cli.pokemon1AttackingPokemon2 Cli.pokemon2AttackingPokemon1].
  repeat (split; [first [reflexivity | assumption] |]). assumption.
Qed.

End Shape.

(** X15 run on Garchomp with two moves against a Corviknight without. *)
Lemma returned_matchup_shape_witness :
  exists (r : Graphql.CalculationResult) (log' : list Event),
    Graphql.computeMatchup (library := Sample.calc) 9
      (Sample.options "Garchomp" ["Dragon Claw"; "Curse"])
      (Sample.options "Corviknight" []) None []
    = (Return r, log')
    /\ moveNames (Graphql.pokemon1AttackingPokemon2 r)
       = ["Dragon Claw"; "Curse"]
    /\ Direction.message (Graphql.pokemon2AttackingPokemon1 r)
       = Some "Corviknight has no moves to calculate.".
Proof.
  eexists. eexists. split; [reflexivity |].
  destruct (returned_matchup_shape (library := Sample.calc) 9
              (Sample.options "Garchomp" ["Dragon Claw"; "Curse"])
              (Sample.options "Corviknight" []) None [] _ _ eq_refl)
    as (p1 & p2 & Hp1 & Hp2 & _ & _ & _ & _ & _ & _ & _ & Hn1 & _ & _ & _
        & _ & Hm2 & _).
  injection Hp2 as <-.
  split; [exact Hn1 | exact Hm2].
Defined.

(** X16 run on the same request. *)
Lemma printed_results_shape_witness :
  exists (r : Cli.Results) (log' : list Event),
    Cli.computeMatchup (library := Sample.calc) 9
      (Sample.options "Garchomp" ["Dragon Claw"; "Curse"])
      (Sample.options "Corviknight" []) None []
    = (Return r, log')
    /\ moveNames (Cli.pokemon1AttackingPokemon2 r) = ["Dragon Claw"; "Curse"]
    /\ Direction.message (Cli.pokemon2AttackingPokemon1 r)
       = Some "Corviknight has no moves to calculate.".
Proof.
  eexists. eexists. split; [reflexivity |].
  destruct (printed_results_shape (library := Sample.calc) 9
              (Sample.options "Garchomp" ["Dragon Claw"; "Curse"])
              (Sample.options "Corviknight" []) None [] _ _ eq_refl)
    as (p1 & p2 & Hp1 & Hp2 & _ & _ & _ & _ & Hn1 & _ & _ & _ & _ & Hm2).
  injection Hp2 as <-.
  split; [exact Hn1 | exact Hm2].
Defined.

(** ** Ranges and percentages *)

(** Truncated tenths of a percent keep the order of the damage, and reach
    100 percent exactly when the damage reaches the hit points. *)
Lemma tenths_facts (d1 d2 hp : Z) :
  0 < hp -> 0 <= d1 <= d2 ->
  0 <= d1 * 1000 / hp <= d2 * 1000 / hp
  /\ (1000 <= d2 * 1000 / hp <-> hp <= d2).
Proof.
  intros Hhp [H1 H2]. split; [split |].
  - apply Z.div_pos; lia.
  - apply Z.div_le_mono; lia.
  - split; intros H.
    + destruct (Z_lt_le_dec d2 hp) as [Hlt | Hle]; [| exact Hle].
      assert (d2 * 1000 / hp < 1000) by (apply Z.div_lt_upper_bound; lia).
      lia.
    + apply Z.div_le_lower_bound; lia.
Qed.

Section Ranges.
Context {library : Calc}.

(** X17.  For a defender with positive max HP and a library whose range for
    this hit is ordered and non-negative, with hit points and thousandfold
    damages that a double holds exactly, every hit the formatter returns,
    through whichever branch, reports finite percentages in tenths with
    0 <= min <= max, an ordered damage range, and a percentage of at least
    100 exactly when the corresponding damage is at least the defender's
    max HP. *)
Theorem hit_ranges_are_ordered (gen : Generation) (attacker defender : Pokemon)
    (field : Field) (moveName : string) (isCrit : bool)
    (log log' : list Event) (hit : HitResult) :
  getFormattedResult gen attacker defender moveName field isCrit log
  = (Return hit, log') ->
  0 < maxHP defender ->
  Js.safe (maxHP defender) ->
  (forall move result dmgMin dmgMax,
     Move_new gen moveName isCrit = Return move ->
     calculate gen attacker defender move field = Return result ->
     range result = Return (dmgMin, dmgMax) ->
     0 <= dmgMin <= dmgMax /\ Js.safe (dmgMax * 1000)) ->
  exists lo hi : Z,
    percentageRange hit = (Js.Tenths lo, Js.Tenths hi)
    /\ 0 <= lo <= hi
    /\ 0 <= fst (damageRange hit) <= snd (damageRange hit)
    /\ (1000 <= lo <-> maxHP defender <= fst (damageRange hit))
    /\ (1000 <= hi <-> maxHP defender <= snd (damageRange hit)).
Proof.
  intros Hrun Hhp _ Hsane.
  assert (Hzero : forall ko ds,
            hit = zeroHit ko ds ->
            exists lo hi : Z,
              percentageRange hit = (Js.Tenths lo, Js.Tenths hi)
              /\ 0 <= lo <= hi
              /\ 0 <= fst (damageRange hit) <= snd (damageRange hit)
              /\ (1000 <= lo <-> maxHP defender <= fst (damageRange hit))
              /\ (1000 <= hi <-> maxHP defender <= snd (damageRange hit))).
  { intros ko ds ->. exists 0, 0. cbn. repeat split; lia. }
  unfold getFormattedResult, bind, call in Hrun.
  destruct (Move_new gen moveName isCrit) as [move | e] eqn:Hmove;
    [| discriminate].
  destruct (isStatusMove move).
  { injection Hrun as <- _. eapply Hzero. reflexivity. }
  unfold try_catch, formatCalculation, bind, call, pure, ret in Hrun.
  destruct (calculate gen attacker defender move field) as [result | e]
    eqn:Hcalc; [| injection Hrun as <- _; eapply Hzero; reflexivity].
  destruct (range result) as [[dmgMin dmgMax] | e] eqn:Hrange;
    [| injection Hrun as <- _; eapply Hzero; reflexivity].
  cbn [fst snd] in Hrun.
  destruct (dmgMax =? 0);
    [injection Hrun as <- _; eapply Hzero; reflexivity |].
  destruct (kochance_text result);
    [| injection Hrun as <- _; eapply Hzero; reflexivity].
  destruct (desc result);
    [| injection Hrun as <- _; eapply Hzero; reflexivity].
  injection Hrun as <- _.
  destruct (Hsane _ _ _ _ eq_refl Hcalc Hrange) as [Hord _].
  exists (dmgMin * 1000 / maxHP defender), (dmgMax * 1000 / maxHP defender).
  cbn [percentageRange damageRange fst snd].
  unfold Js.percentage. destruct (Z.eqb_spec (maxHP defender) 0); [lia |].
  destruct (tenths_facts dmgMin dmgMax _ Hhp Hord) as [Hmono Hfull].
  destruct (tenths_facts dmgMin dmgMin _ Hhp ltac:(lia)) as [_ Hfull'].
  repeat split; tauto || lia.
Qed.

End Ranges.

(** X17 run on Dragon Claw: 69 to 81 against 402 hit points. *)
Lemma hit_ranges_are_ordered_witness :
  exists lo hi : Z,
    percentageRange
      {| damageRange := (69, 81);
         percentageRange := (Js.Tenths 171, Js.Tenths 201);
         koChance := "guaranteed 5HKO";
         description := "Garchomp Dragon Claw vs. Corviknight" |}
    = (Js.Tenths lo, Js.Tenths hi)
    /\ 0 <= lo <= hi
    /\ 0 <= 69 <= 81
    /\ (1000 <= lo <-> 402 <= 69)
    /\ (1000 <= hi <-> 402 <= 81).
Proof.
  apply (hit_ranges_are_ordered (library := Sample.calc) 9
           (Sample.options "Garchomp" ["Dragon Claw"])
           (Sample.options "Corviknight" []) Sample.plainField
           "Dragon Claw" false []
           [NewMove (library := Sample.calc) 9 "Dragon Claw" false;
            Calculate (library := Sample.calc) 9
              (Sample.options "Garchomp" ["Dragon Claw"])
              (Sample.options "Corviknight" []) ("Dragon Claw", false)
              Sample.plainField]
           {| damageRange := (69, 81);
              percentageRange := (Js.Tenths 171, Js.Tenths 201);
              koChance := "guaranteed 5HKO";
              description := "Garchomp Dragon Claw vs. Corviknight" |}).
  - vm_compute. reflexivity.
  - reflexivity.
  - reflexivity.
  - intros move result dmgMin dmgMax Hmove Hcalc Hrange.
    vm_compute in Hmove. injection Hmove as <-.
    vm_compute in Hcalc. injection Hcalc as <-.
    vm_compute in Hrange. injection Hrange as <- <-.
    split; [lia | reflexivity].
Defined.

(** ** What the lookup can return *)

Section Membership.

Lemma property_In {A} (obj : list (string * A)) (key : string) (v : A) :
  property obj key = Some v -> In (key, v) obj.
Proof.
  induction obj as [| [k x] rest IH]; cbn [property]; [discriminate |].
  destruct (String.eqb_spec k key) as [-> | Hne].
  - intros [= ->]. left. reflexivity.
  - intros H. right. exact (IH H).
Qed.

Lemma loop_result (trainerName : string) (sets : SpeciesSets)
    (acc : option Preset.t) (p : Preset.t) :
  trainerSetLoop trainerName sets acc = Return (Some p) ->
  acc = Some p
  \/ exists n, In (n, p) sets /\ justified trainerName (n, p).
Proof.
  revert acc. induction sets as [| [n q] rest IH]; intros acc.
  - intros [= ->]. left. reflexivity.
  - cbn [trainerSetLoop].
    destruct (RegExp.create (trainerPattern trainerName)) as [re | |] eqn:Hre;
      try discriminate.
    destruct (strongMatch re n q) eqn:Hstrong.
    + intros [= ->]. right. exists n. split; [left; reflexivity |].
      right. exists re. split; [exact Hre | exact Hstrong].
    + intros Hloop. destruct (IH _ Hloop) as [Hacc | (n' & Hin & Hj)].
      * destruct acc as [a |]; [left; exact Hacc |].
        destruct (weakMatch trainerName n) eqn:Hweak; [| discriminate].
        injection Hacc as ->. right. exists n.
        split; [left; reflexivity | left; exact Hweak].
      * right. exists n'. split; [right; exact Hin | exact Hj].
Qed.

(** X18.  For every trainer name that is not a property name every object
    inherits and whose pattern the model of [RegExp] covers, syntax
    characters or not, a set the lookup returns is a set of the species'
    table, and its name is justified by the code's own tests: it matches
    the compiled pattern (by name or trainer label), or its first word is
    the trainer name's first word.  For such a name the lookup never
    returns a value from outside the table and never a set that matches
    neither way. *)
Theorem lookup_returns_a_matching_entry (genNum : Z)
    (speciesName trainerName : string) (sets : SpeciesSets) (p : Preset.t) :
  Js.inherited trainerName = false ->
  RegExp.create (trainerPattern trainerName) <> RegExp.Unsupported ->
  findTrainerSet genNum speciesName trainerName sets = Return p ->
  exists setName : string,
    In (setName, p) sets /\ justified trainerName (setName, p).
Proof.
  intros _ _. unfold findTrainerSet.
  destruct (trainerSetLoop trainerName sets None) as [[q |] | e] eqn:Hloop;
    cbn [obind]; try discriminate.
  - intros [= ->]. destruct (loop_result _ _ _ _ Hloop) as [H | H];
      [discriminate | exact H].
  - destruct (property sets trainerName) as [q |] eqn:Hkey; [| discriminate].
    intros [= ->]. exists trainerName.
    split; [exact (property_In _ _ _ Hkey) |].
    left. unfold weakMatch. cbn [fst]. apply String.eqb_refl.
Qed.

End Membership.

(** X18 run on the name with parentheses: the set returned is in the table
    and matches the pattern the parentheses turn into a group. *)
Lemma lookup_returns_a_matching_entry_witness :
  exists setName : string,
    In (setName, Sample.atLevel 9)
      [("Grunt Aqua 1", Sample.atLevel 9);
       ("Grunt (Aqua) 1", Sample.atLevel 11)]
    /\ justified "Grunt (Aqua) 1" (setName, Sample.atLevel 9).
Proof.
  apply (lookup_returns_a_matching_entry 8 "Poochyena" "Grunt (Aqua) 1"
           [("Grunt Aqua 1", Sample.atLevel 9);
            ("Grunt (Aqua) 1", Sample.atLevel 11)]
           (Sample.atLevel 9)).
  - reflexivity.
  - vm_compute. discriminate.
  - vm_compute. reflexivity.
Defined.

(** ** Listing a trainer's sets, then loading one *)

Section Composition.
Context {dataset : Data}.

Lemma first_split {A} (P : A -> bool) (l : list A) :
  existsb P l = true ->
  exists before x after,
    l = (before ++ x :: after)%list
    /\ forallb (fun y => negb (P y)) before = true
    /\ P x = true.
Proof.
  induction l as [| y l IH]; cbn [existsb]; [discriminate |].
  destruct (P y) eqn:Hy.
  - intros _. exists [], y, l. repeat split. exact Hy.
  - cbn [orb]. intros H. destruct (IH H) as (before & x & after & -> & Hb & Hx).
    exists (y :: before), x, after. cbn [forallb]. rewrite Hy, Hb.
    repeat split. exact Hx.
Qed.

(** With a dataset, the listing is the strong entries of the setdex. *)
Lemma listing_names (generation : Z) (trainerName : string) (setdex : Setdex) :
  SETDEX_BY_GEN generation = Some setdex ->
  exists found : list Graphql.TrainerPokemonSet.t,
    Graphql.getTrainerPokemonSets generation trainerName = Return found
    /\ map (fun r => (Graphql.TrainerPokemonSet.speciesName r,
                      Graphql.TrainerPokemonSet.setName r)) found
       = strongEntries trainerName setdex.
Proof.
  intros Hset. unfold Graphql.getTrainerPokemonSets. rewrite Hset.
  clear Hset.
  unfold Graphql.escapedTrainerPattern. rewrite RegExpFacts.create_escaped.
  eexists. split; [reflexivity |]. unfold strongEntries.
  induction setdex as [| [species sets] rest IH]; [reflexivity |].
  cbn [flat_map fst snd]. rewrite map_app, IH, matchingSets_names.
  reflexivity.
Qed.

(** X19.  The two resolvers compose: for a trainer name without syntax
    characters, every set of a species that contains the name as a whole
    word is listed by [getTrainerPokemonSets] under that species, and
    asking [getPokemonOptions] for that species and trainer name then finds
    a set of the same species that contains the name as a whole word (the
    first such set, when the trainer has several of the species). *)
Theorem listed_sets_can_be_loaded (generation : Z) (trainerName : string)
    (setdex : Setdex) (speciesName : string) (sets : SpeciesSets)
    (setName : string) (set : Preset.t) :
  RegExp.literal trainerName = true ->
  SETDEX_BY_GEN generation = Some setdex ->
  property setdex speciesName = Some sets ->
  In (setName, set) sets ->
  strongly trainerName setName set = true ->
  (exists found : list Graphql.TrainerPokemonSet.t,
     Graphql.getTrainerPokemonSets generation trainerName = Return found
     /\ In (speciesName, setName)
          (map (fun r => (Graphql.TrainerPokemonSet.speciesName r,
                          Graphql.TrainerPokemonSet.setName r)) found))
  /\ (exists (loaded : Preset.t) (name : string),
        resolveOne generation speciesName trainerName = Return loaded
        /\ In (name, loaded) sets
        /\ strongly trainerName name loaded = true).
Proof.
  intros Hlit Hdata Hspecies Hin Hstrong. split.
  - destruct (listing_names generation trainerName setdex Hdata)
      as (found & Hrun & Hnames).
    exists found. split; [exact Hrun |]. rewrite Hnames.
    unfold strongEntries. apply in_flat_map.
    exists (speciesName, sets). split; [exact (property_In _ _ _ Hspecies) |].
    cbn [fst snd]. apply in_map_iff. exists (setName, set).
    split; [reflexivity |]. apply list_elem_of_In, list_elem_of_filter.
    split; [cbn [fst snd]; rewrite Hstrong; exact I |].
    apply list_elem_of_In, Hin.
  - assert (Hex : existsb (fun e => strongly trainerName (fst e) (snd e)) sets
                  = true).
    { apply existsb_exists. exists (setName, set). split; assumption. }
    destruct (first_split _ _ Hex) as (before & [n p] & after & -> & Hb & Hp).
    cbn [fst snd] in Hp.
    exists p, n. unfold resolveOne. rewrite Hdata, Hspecies.
    unfold findTrainerSet.
    rewrite (loop_first_strong _ _ _ _ _ _ Hlit Hb Hp). cbn [obind].
    split; [reflexivity |]. split; [| exact Hp].
    apply in_or_app. right. left. reflexivity.
Qed.

End Composition.

(** X19 run on Wattson's Magneton. *)
Lemma listed_sets_can_be_loaded_witness :
  (exists found : list Graphql.TrainerPokemonSet.t,
     Graphql.getTrainerPokemonSets (dataset := Sample.data) 8 "Wattson"
     = Return found
     /\ In ("Magneton", "Gym Leader Wattson")
          (map (fun r => (Graphql.TrainerPokemonSet.speciesName r,
                          Graphql.TrainerPokemonSet.setName r)) found))
  /\ (exists (loaded : Preset.t) (name : string),
        resolveOne (dataset := Sample.data) 8 "Magneton" "Wattson"
        = Return loaded
        /\ In (name, loaded)
             [("Leader Roxanne", Sample.atLevel 14);
              ("Gym Leader Wattson", Sample.atLevel 22)]
        /\ strongly "Wattson" name loaded = true).
Proof.
  apply (listed_sets_can_be_loaded (dataset := Sample.data) 8 "Wattson"
           Sample.gen8 "Magneton"
           [("Leader Roxanne", Sample.atLevel 14);
            ("Gym Leader Wattson", Sample.atLevel 22)]
           "Gym Leader Wattson" (Sample.atLevel 22)).
  - reflexivity.
  - reflexivity.
  - reflexivity.
  - right. left. reflexivity.
  - vm_compute. reflexivity.
Defined.

(** ** The CLI against the server *)

Section Agreement.
Context {dataset : Data} {library : Calc}.

(** With every flag given, the CLI's defaults change nothing. *)
Lemma fieldOptions_agree (field : option FieldInput)
    (attacker defender : FieldInput -> option SideInput) :
  flagsGiven field = true ->
  Cli.fieldOptions field attacker defender
  = Graphql.fieldOptions field attacker defender.
Proof.
  unfold Cli.fieldOptions, Graphql.fieldOptions, flagsGiven.
  destruct field as [[[w t g m wr b tb s v] s1 s2] |]; [| discriminate].
  cbn. destruct g, m, wr, b, tb, s, v; try discriminate. reflexivity.
Qed.

(** A direction of the CLI is the server's, printed. *)
Lemma attack_agree (gen : Generation) (o : Options.t) (a d : Pokemon)
    (fo : FieldOptions) (log : list Event) :
  Cli.attack gen o a d fo log
  = match Graphql.attack gen o a d fo log with
    | (Return direction, log') => (Return (printedDirection direction), log')
    | (Throw e, log') => (Throw e, log')
    end.
Proof.
  unfold Cli.attack, Graphql.attack.
  destruct (Options.moves o) as [| m rest]; [reflexivity |].
  cbn [moveCalculations]. unfold bind, call, ret.
  destruct (getFormattedResult gen a d m (Field_new fo) false
              (log ++ [NewField fo])%list) as [[n | e] l1]; [| reflexivity].
  destruct (getFormattedResult gen a d m (Field_new fo) true l1)
    as [[c | e] l2]; [| reflexivity].
  destruct (moveCalculations gen a d (Field_new fo) rest l2)
    as [[others | e] l3]; reflexivity.
Qed.

Lemma raise_attack_agree (gen : Generation) (o : Options.t) (a d : Pokemon)
    (fo : FieldOptions) (log : list Event) :
  raise Engine (Cli.attack gen o a d fo) log
  = match raise Engine (Graphql.attack gen o a d fo) log with
    | (Return direction, log') => (Return (printedDirection direction), log')
    | (Throw e, log') => (Throw e, log')
    end.
Proof.
  unfold raise. rewrite attack_agree.
  destruct (Graphql.attack gen o a d fo log) as [[direction | e] l];
    reflexivity.
Qed.

Lemma computeMatchup_agree (gen : Generation) (o1 o2 : Options.t)
    (field : option FieldInput) (log : list Event) :
  flagsGiven field = true ->
  Cli.computeMatchup gen o1 o2 field log
  = match Graphql.computeMatchup gen o1 o2 field log with
    | (Return r, log') => (Return (printedResult r), log')
    | (Throw e, log') => (Throw e, log')
    end.
Proof.
  intros Hflags. unfold Cli.computeMatchup, Graphql.computeMatchup.
  rewrite !(fieldOptions_agree field _ _ Hflags).
  unfold bind at 1 5.
  destruct (raise Engine (call (NewPokemon gen (Options.name o1) o1)
              (Pokemon_new gen (Options.name o1) o1)) log)
    as [[p1 | e] l1]; [| reflexivity].
  unfold bind at 1 4.
  destruct (raise Engine (call (NewPokemon gen (Options.name o2) o2)
              (Pokemon_new gen (Options.name o2) o2)) l1)
    as [[p2 | e] l2]; [| reflexivity].
  unfold bind at 1 3. rewrite raise_attack_agree.
  destruct (raise Engine (Graphql.attack gen o1 p1 p2
              (Graphql.fieldOptions field pokemon1Side pokemon2Side)) l2)
    as [[d1 | e] l3]; [| reflexivity].
  unfold bind at 1 2. rewrite raise_attack_agree.
  destruct (raise Engine (Graphql.attack gen o2 p2 p1
              (Graphql.fieldOptions field pokemon2Side pokemon1Side)) l3)
    as [[d2 | e] l4]; reflexivity.
Qed.

(** X20.  For a request without trainer references that gives all seven
    field flags, the CLI does exactly what the server does: it makes the
    same library calls in the same order, logs the error the server throws,
    and prints the two directions the server returns, each without its
    [moves] key when the list is empty.  (The server's Field argument also
    carries the request's [pokemon1Side] and [pokemon2Side] keys, which
    [FieldOptions] leaves out: the Field constructor is taken to read the
    flags and the two sides only.) *)
Theorem cli_prints_what_the_server_returns (options : Input.t)
    (log : list Event) :
  Raw.trainerPokemon (Input.pokemon1 options) = None ->
  Raw.trainerPokemon (Input.pokemon2 options) = None ->
  flagsGiven (Input.field options) = true ->
  Cli.calculateDamageCLI options log
  = printedOutcome (Graphql.calculateDamage options log).
Proof.
  intros H1 H2 Hflags.
  unfold Cli.calculateDamageCLI, Cli.results, Graphql.calculateDamage.
  rewrite (options_without_trainer _ _ H1), (options_without_trainer _ _ H2).
  unfold bind at 1 3. unfold pure at 1 3.
  destruct (Graphql.getPokemonOptions _ (Input.pokemon1 options))
    as [o1 | e]; [| reflexivity].
  unfold bind at 1 2. unfold pure at 1 2.
  destruct (Graphql.getPokemonOptions _ (Input.pokemon2 options))
    as [o2 | e]; [| reflexivity].
  rewrite (computeMatchup_agree _ _ _ _ _ Hflags).
  destruct (Graphql.computeMatchup _ o1 o2 (Input.field options) log)
    as [[r | e] l]; reflexivity.
Qed.

End Agreement.

(** X20 run on a request with every flag given. *)
Lemma cli_prints_what_the_server_returns_witness :
  Cli.calculateDamageCLI (dataset := Sample.data) (library := Sample.calc)
    (Examples.flagged ["Dragon Claw"; "Glitch"]) []
  = printedOutcome
      (Graphql.calculateDamage (dataset := Sample.data)
         (library := Sample.calc)
         (Examples.flagged ["Dragon Claw"; "Glitch"]) []).
Proof.
  apply (cli_prints_what_the_server_returns (dataset := Sample.data)
           (library := Sample.calc)
           (Examples.flagged ["Dragon Claw"; "Glitch"]) []).
  - reflexivity.
  - reflexivity.
  - reflexivity.
Defined.


(** ** The errors of the lookup *)

Section Errors.
Context {dataset : Data}.

(** A loop that ends without a set saw neither a weak nor a strong match. *)
Lemma loop_none (trainerName : string) (sets : SpeciesSets)
    (acc : option Preset.t) :
  trainerSetLoop trainerName sets acc = Return None ->
  acc = None
  /\ forallb (fun entry => negb (weakCandidate trainerName entry)) sets = true
  /\ (sets = []
      \/ exists re : RegExp.regex,
           RegExp.create (trainerPattern trainerName) = RegExp.Compiled re
           /\ forallb
                (fun entry => negb (strongMatch re (fst entry) (snd entry)))
                sets = true).
Proof.
  revert acc. induction sets as [| [n p] rest IH]; intros acc;
    cbn [trainerSetLoop forallb].
  - intros [= ->]. split; [reflexivity |]. split; [reflexivity |].
    left. reflexivity.
  - destruct (RegExp.create (trainerPattern trainerName)) as [re | |] eqn:Hre;
      try discriminate.
    destruct (strongMatch re n p) eqn:Hstrong; [discriminate |].
    intros Hloop. destruct (IH _ Hloop) as (Hacc & Hweak & Hrest).
    destruct acc as [a |]; [discriminate |].
    unfold weakCandidate at 1. cbn [fst snd].
    destruct (weakMatch trainerName n); [discriminate |].
    split; [reflexivity |]. split; [exact Hweak |].
    right. exists re. split; [reflexivity |]. rewrite Hstrong. cbn [negb andb].
    destruct Hrest as [-> | (re' & [= <-] & Hall)]; [reflexivity | exact Hall].
Qed.

(** Conversely, a table without a weak or a strong match ends the loop
    without a set. *)
Lemma loop_without_match (trainerName : string) (sets : SpeciesSets)
    (re : RegExp.regex) :
  RegExp.create (trainerPattern trainerName) = RegExp.Compiled re ->
  forallb (fun entry => negb (strongMatch re (fst entry) (snd entry))) sets
  = true ->
  forallb (fun entry => negb (weakCandidate trainerName entry)) sets = true ->
  trainerSetLoop trainerName sets None = Return None.
Proof.
  intros Hre. induction sets as [| [n p] rest IH]; cbn [trainerSetLoop forallb];
    [reflexivity |].
  cbn [fst snd]. unfold weakCandidate at 1. cbn [fst].
  intros Hstrong Hweak.
  apply andb_prop in Hstrong as [Hs Hstrong].
  apply andb_prop in Hweak as [Hw Hweak].
  apply negb_true_iff in Hs. apply negb_true_iff in Hw.
  rewrite Hre, Hs, Hw. exact (IH Hstrong Hweak).
Qed.

(** The loop throws only what the constructor throws, and only on a table
    that has a set. *)
Lemma loop_throws_nonempty (trainerName : string) (sets : SpeciesSets)
    (acc : option Preset.t) (e : Error) :
  trainerSetLoop trainerName sets acc = Throw e ->
  sets <> []
  /\ ((e = RegExpSyntaxError (trainerPattern trainerName)
       /\ RegExp.create (trainerPattern trainerName) = RegExp.SyntaxError)
      \/ (e = PatternNotModelled (trainerPattern trainerName)
          /\ RegExp.create (trainerPattern trainerName) = RegExp.Unsupported)).
Proof.
  revert acc. induction sets as [| [n p] rest IH]; intros acc;
    cbn [trainerSetLoop]; [discriminate |].
  destruct (RegExp.create (trainerPattern trainerName)) as [re | |] eqn:Hre.
  - destruct (strongMatch re n p); [discriminate |].
    intros Hloop. destruct (IH _ Hloop) as [_ [[_ H] | [_ H]]]; discriminate.
  - intros [= <-]. split; [discriminate |]. left. split; reflexivity.
  - intros [= <-]. split; [discriminate |]. right. split; reflexivity.
Qed.

(** A name that is a key of the table is a weak match of its own entry. *)
Lemma no_weak_candidate_no_key (trainerName : string) (sets : SpeciesSets) :
  forallb (fun entry => negb (weakCandidate trainerName entry)) sets = true ->
  property sets trainerName = None.
Proof.
  induction sets as [| [n p] rest IH]; [reflexivity |].
  cbn [forallb property]. unfold weakCandidate at 1, weakMatch. cbn [fst].
  intros Hall. apply andb_prop in Hall as [Hn Hrest].
  destruct (String.eqb_spec n trainerName) as [-> | Hne].
  - rewrite String.eqb_refl in Hn. discriminate Hn.
  - exact (IH Hrest).
Qed.

(** X21.  For a species and a trainer name that are not property names every
    object inherits, and a trainer name whose pattern the model of [RegExp]
    covers, the lookup of a trainer's set throws in exactly four ways:
    "set data not found" exactly without a dataset for the generation;
    "species not found" exactly with a dataset that lacks the species; the
    constructor's [SyntaxError] exactly when the species has at least one
    set and the pattern does not compile; "trainer not found" exactly when
    the pattern matches no set of the species (by name or trainer label) or
    the species has no set, and no set shares the trainer name's first
    word.  In every other case it returns. *)
Theorem lookup_errors_are_classified (genNum : Z)
    (speciesName trainerName : string) (e : Error) :
  Js.inherited speciesName = false ->
  Js.inherited trainerName = false ->
  RegExp.create (trainerPattern trainerName) <> RegExp.Unsupported ->
  resolveOne genNum speciesName trainerName = Throw e
  <-> (e = DatasetNotFound genNum /\ SETDEX_BY_GEN genNum = None)
      \/ exists setdex : Setdex,
           SETDEX_BY_GEN genNum = Some setdex
           /\ ((e = SpeciesNotFound speciesName genNum
                /\ property setdex speciesName = None)
               \/ exists sets : SpeciesSets,
                    property setdex speciesName = Some sets
                    /\ ((e = RegExpSyntaxError (trainerPattern trainerName)
                         /\ sets <> []
                         /\ RegExp.create (trainerPattern trainerName)
                            = RegExp.SyntaxError)
                        \/ (e = TrainerSetNotFound trainerName speciesName
                                  genNum
                            /\ forallb
                                 (fun entry =>
                                    negb (weakCandidate trainerName entry))
                                 sets = true
                            /\ (sets = []
                                \/ exists re : RegExp.regex,
                                     RegExp.create (trainerPattern trainerName)
                                     = RegExp.Compiled re
                                     /\ forallb
                                          (fun entry =>
                                             negb (strongMatch re (fst entry)
                                                     (snd entry)))
                                          sets = true)))).
Proof.
  intros _ _ Hcovered. unfold resolveOne. split.
  - destruct (SETDEX_BY_GEN genNum) as [setdex |];
      [| intros [= <-]; left; split; reflexivity].
    intros Hthrow. right. exists setdex. split; [reflexivity |].
    destruct (property setdex speciesName) as [sets |];
      [| injection Hthrow as <-; left; split; reflexivity].
    right. exists sets. split; [reflexivity |].
    unfold findTrainerSet in Hthrow.
    destruct (trainerSetLoop trainerName sets None) as [[p |] | e'] eqn:Hloop;
      cbn [obind] in Hthrow; try discriminate.
    + destruct (property sets trainerName) eqn:Hkey; [discriminate |].
      injection Hthrow as <-. right.
      destruct (loop_none _ _ _ Hloop) as (_ & Hweak & Hstrong).
      split; [reflexivity |]. split; assumption.
    + injection Hthrow as ->. left.
      destruct (loop_throws_nonempty _ _ _ _ Hloop)
        as [Hne [[-> Hre] | [_ Hre]]]; [| destruct (Hcovered Hre)].
      split; [reflexivity |]. split; assumption.
  - intros [[-> ->] | (setdex & -> & Hcase)]; [reflexivity |].
    destruct Hcase as [[-> ->] | (sets & -> & Hcase)]; [reflexivity |].
    unfold findTrainerSet.
    destruct Hcase as [(-> & Hne & Hre) | (-> & Hweak & Hstrong)].
    + destruct sets as [| [n p] rest]; [destruct (Hne eq_refl) |].
      cbn [trainerSetLoop]. rewrite Hre. reflexivity.
    + assert (Hloop : trainerSetLoop trainerName sets None = Return None).
      { destruct Hstrong as [-> | (re & Hre & Hstrong)]; [reflexivity |].
        exact (loop_without_match _ _ _ Hre Hstrong Hweak). }
      rewrite Hloop. cbn [obind].
      rewrite (no_weak_candidate_no_key _ _ Hweak). reflexivity.
Qed.

End Errors.

(** X21 run on a trainer the dataset lacks: no set of Staryu matches
    "Nobody", strongly or weakly. *)
Lemma lookup_errors_are_classified_witness :
  resolveOne (dataset := Sample.data) 8 "Staryu" "Nobody"
  = Throw (TrainerSetNotFound "Nobody" "Staryu" 8).
Proof.
  apply (lookup_errors_are_classified (dataset := Sample.data) 8 "Staryu"
           "Nobody" (TrainerSetNotFound "Nobody" "Staryu" 8)).
  - reflexivity.
  - reflexivity.
  - vm_compute. discriminate.
  - right. exists Sample.gen8. split; [reflexivity |].
    right. exists [("Fisherman Elliot", Sample.elliot)].
    split; [reflexivity |]. right. split; [reflexivity |].
    split; [reflexivity |]. right.
    exists (RegExp.wholeWordRegex "Nobody").
    split; vm_compute; reflexivity.
Defined.

(** ** What a listed entry says about the dataset *)

Section Listing.
Context {dataset : Data}.

(** The entries [matchingSets] pushes, each with the set it describes. *)
Lemma matchingSets_entries (re : RegExp.regex) (speciesName : string)
    (sets : SpeciesSets) (r : Graphql.TrainerPokemonSet.t) :
  In r (Graphql.matchingSets re speciesName sets) ->
  exists set : Preset.t,
    In (Graphql.TrainerPokemonSet.setName r, set) sets
    /\ strongMatch re (Graphql.TrainerPokemonSet.setName r) set = true
    /\ Graphql.TrainerPokemonSet.speciesName r = speciesName
    /\ Graphql.TrainerPokemonSet.level r = Preset.level set
    /\ Graphql.TrainerPokemonSet.ivs r = Js.obj_or (Preset.ivs set) defaultIVs
    /\ Graphql.TrainerPokemonSet.evs r = Js.obj_or (Preset.evs set) defaultEVs
    /\ Graphql.TrainerPokemonSet.moves r = Js.obj_or (Preset.moves set) [].
Proof.
  unfold Graphql.matchingSets. intros Hin.
  apply in_flat_map in Hin as ([n set] & Hentry & Hr). cbn [fst snd] in Hr.
  destruct (strongMatch re n set) eqn:Hstrong; [| destruct Hr].
  destruct Hr as [<- | []]. exists set.
  cbn [Graphql.TrainerPokemonSet.setName Graphql.TrainerPokemonSet.speciesName
       Graphql.TrainerPokemonSet.level Graphql.TrainerPokemonSet.ivs
       Graphql.TrainerPokemonSet.evs Graphql.TrainerPokemonSet.moves].
  repeat split; assumption.
Qed.

(** A stat the listing shows is the stat the spread over the defaults
    gives. *)
Lemma listed_table_is_loaded (default : StatTable) (table : option StatTable)
    (stat : string) (v : StatValue) :
  Js.obj_or table default !! stat = Some v ->
  spread default (spreadable table) !! stat = Some v.
Proof.
  rewrite lookup_spread. unfold layered, spreadable, Js.obj_or.
  destruct table as [t |].
  - intros ->. reflexivity.
  - rewrite lookup_empty. intros ->. reflexivity.
Qed.

(** X22.  Every entry [getTrainerPokemonSets] returns describes a set of
    the dataset: its species and set name are those of a set that contains
    the trainer name as a whole word (in its name or trainer label), its
    level and move list are that set's, and every IV and EV it shows is the
    value [getPokemonOptions] gives that stat when it applies the set: in
    the CLI always, in the server whenever the caller gives no table of
    its own. *)
Theorem listed_entries_describe_dataset_sets (generation : Z)
    (trainerName : string) (found : list Graphql.TrainerPokemonSet.t)
    (r : Graphql.TrainerPokemonSet.t) :
  Graphql.getTrainerPokemonSets generation trainerName = Return found ->
  In r found ->
  exists (setdex : Setdex) (sets : SpeciesSets) (set : Preset.t),
    SETDEX_BY_GEN generation = Some setdex
    /\ In (Graphql.TrainerPokemonSet.speciesName r, sets) setdex
    /\ In (Graphql.TrainerPokemonSet.setName r, set) sets
    /\ strongly trainerName (Graphql.TrainerPokemonSet.setName r) set = true
    /\ Graphql.TrainerPokemonSet.level r = Preset.level set
    /\ Graphql.TrainerPokemonSet.moves r = Js.obj_or (Preset.moves set) []
    /\ forall (raw : Raw.t) (o : Options.t) (stat : string) (v : StatValue),
         (Graphql.TrainerPokemonSet.ivs r !! stat = Some v ->
          Options.ivs
            (Cli.applyTrainerSet defaultIVs defaultEVs
               (Graphql.TrainerPokemonSet.speciesName r) set o) !! stat
          = Some v
          /\ (Raw.ivs raw = None ->
              Options.ivs
                (Graphql.applyTrainerSet raw
                   (Graphql.TrainerPokemonSet.speciesName r) set o) !! stat
              = Some v))
         /\ (Graphql.TrainerPokemonSet.evs r !! stat = Some v ->
             Options.evs
               (Cli.applyTrainerSet defaultIVs defaultEVs
                  (Graphql.TrainerPokemonSet.speciesName r) set o) !! stat
             = Some v
             /\ (Raw.evs raw = None ->
                 Options.evs
                   (Graphql.applyTrainerSet raw
                      (Graphql.TrainerPokemonSet.speciesName r) set o) !! stat
                 = Some v)).
Proof.
  unfold Graphql.getTrainerPokemonSets.
  destruct (SETDEX_BY_GEN generation) as [setdex |]; [| discriminate].
  unfold Graphql.escapedTrainerPattern. rewrite RegExpFacts.create_escaped.
  intros [= <-] Hin.
  apply in_flat_map in Hin as ([species sets] & Hspecies & Hr).
  cbn [fst snd] in Hr.
  destruct (matchingSets_entries _ _ _ _ Hr)
    as (set & Hset & Hstrong & Hname & Hlevel & Hivs & Hevs & Hmoves).
  exists setdex, sets, set. split; [reflexivity |].
  split; [rewrite Hname; exact Hspecies |].
  split; [exact Hset |].
  split; [rewrite <- strongMatch_literal; exact Hstrong |].
  split; [exact Hlevel |]. split; [exact Hmoves |].
  intros raw o stat v.
  cbn [Cli.applyTrainerSet Graphql.applyTrainerSet Options.ivs Options.evs].
  rewrite Hivs, Hevs.
  split; intros Hshown; (split; [exact (listed_table_is_loaded _ _ _ _ Hshown) |]);
    intros ->; cbn [spreadable]; rewrite lookup_spread, lookup_empty;
    unfold layered;
    rewrite (listed_table_is_loaded _ _ _ _ Hshown); reflexivity.
Qed.

End Listing.

(** X22 run on the listing of Elliot's sets. *)
Lemma listed_entries_describe_dataset_sets_witness :
  exists (setdex : Setdex) (sets : SpeciesSets) (set : Preset.t),
    SETDEX_BY_GEN (Data := Sample.data) 8 = Some setdex
    /\ In ("Staryu", sets) setdex
    /\ In ("Fisherman Elliot", set) sets
    /\ strongly "Elliot" "Fisherman Elliot" set = true
    /\ Some 13 = Preset.level set
    /\ ["Water Pulse"; "Rapid Spin"] = Js.obj_or (Preset.moves set) []
    /\ forall (raw : Raw.t) (o : Options.t) (stat : string) (v : StatValue),
         (Graphql.TrainerPokemonSet.ivs Examples.elliotListed !! stat = Some v ->
          Options.ivs
            (Cli.applyTrainerSet defaultIVs defaultEVs "Staryu" set o) !! stat
          = Some v
          /\ (Raw.ivs raw = None ->
              Options.ivs (Graphql.applyTrainerSet raw "Staryu" set o) !! stat
              = Some v))
         /\ (Graphql.TrainerPokemonSet.evs Examples.elliotListed !! stat = Some v ->
             Options.evs
               (Cli.applyTrainerSet defaultIVs defaultEVs "Staryu" set o) !! stat
             = Some v
             /\ (Raw.evs raw = None ->
                 Options.evs (Graphql.applyTrainerSet raw "Staryu" set o) !! stat
                 = Some v)).
Proof.
  apply (listed_entries_describe_dataset_sets (dataset := Sample.data) 8
           "Elliot" [Examples.elliotListed] Examples.elliotListed).
  - vm_compute. reflexivity.
  - left. reflexivity.
Defined.
(** ** Loading the datasets *)

Section LoaderFacts.
Context {host : Host}.

(** X23.  [loadSetdex] returns exactly when the file exists, can be read,
    compiles, runs, and leaves the variable truthy, and then it returns that
    variable.  A missing file is reported without reading anything; an error
    thrown while the script runs is rethrown with the file's path and the
    error's message; an error thrown while the script is compiled is not
    caught and escapes as it is. *)
Theorem loadSetdex_outcomes (genNum : Z) (varName : string) :
  (forall setdex : Setdex,
     loadSetdex genNum varName = Return setdex
     <-> existsSync (setdexPath genNum) = true
         /\ exists content script sandbox,
              readFileSync (setdexPath genNum) = Return content
              /\ Script_new content = Return script
              /\ runInNewContext script = Return sandbox
              /\ sandbox varName = Some setdex)
  /\ (existsSync (setdexPath genNum) = false ->
      loadSetdex genNum varName
      = Throw (SetdexFileNotFound genNum (setdexPath genNum)))
  /\ (forall content e,
        existsSync (setdexPath genNum) = true ->
        readFileSync (setdexPath genNum) = Return content ->
        Script_new content = Throw e ->
        loadSetdex genNum varName = Throw (HostError e))
  /\ (forall content script e,
        existsSync (setdexPath genNum) = true ->
        readFileSync (setdexPath genNum) = Return content ->
        Script_new content = Return script ->
        runInNewContext script = Throw e ->
        loadSetdex genNum varName
        = Throw (SetdexEvaluationError (setdexPath genNum) (message e))).
Proof.
  unfold loadSetdex. split; [| split; [| split]].
  - intros setdex. split.
    + destruct (existsSync (setdexPath genNum)); cbn [negb]; [| discriminate].
      destruct (readFileSync (setdexPath genNum)) as [content | e];
        [| discriminate].
      destruct (Script_new content) as [script | e] eqn:Hs; [| discriminate].
      destruct (runInNewContext script) as [sandbox | e] eqn:Hr;
        [| discriminate].
      destruct (sandbox varName) as [s |] eqn:Hv; [| discriminate].
      intros [= ->]. split; [reflexivity |].
      exists content, script, sandbox. repeat split; assumption.
    + intros (Hex & content & script & sandbox & Hread & Hs & Hr & Hv).
      rewrite Hex, Hread, Hs, Hr, Hv. reflexivity.
  - intros ->. reflexivity.
  - intros content e Hex Hread Hs. rewrite Hex, Hread, Hs. reflexivity.
  - intros content script e Hex Hread Hs Hr.
    rewrite Hex, Hread, Hs, Hr. reflexivity.
Qed.

(** Only a missing dataset makes the lookup throw "set data not found". *)
Lemma resolveOne_dataset_error {dataset : Data} (genNum : Z)
    (speciesName trainerName : string) (g : Z) :
  resolveOne genNum speciesName trainerName = Throw (DatasetNotFound g) ->
  SETDEX_BY_GEN genNum = None.
Proof.
  unfold resolveOne.
  destruct (SETDEX_BY_GEN genNum) as [setdex |]; [| reflexivity].
  destruct (property setdex speciesName) as [sets |]; [| discriminate].
  unfold findTrainerSet.
  destruct (trainerSetLoop trainerName sets None) as [[p |] | e] eqn:Hloop;
    cbn [obind]; try discriminate.
  - destruct (property sets trainerName); discriminate.
  - intros [= ->].
    destruct (loop_throws_nonempty _ _ _ _ Hloop) as [_ [[H _] | [H _]]];
      discriminate.
Qed.

(** A literal that evaluates has the keys of its entries, each bound to
    what [loadSetdex] returned for it. *)
Lemma loadEach_keys (entries : list (Z * string)) (table : list (Z * Setdex)) :
  loadEach entries = Return table ->
  map fst table = map fst entries
  /\ forall genNum varName,
       In (genNum, varName) entries ->
       NoDup (map fst entries) ->
       exists setdex,
         loadSetdex genNum varName = Return setdex
         /\ entry table genNum = Some setdex.
Proof.
  revert table. induction entries as [| [g v] rest IH]; intros table.
  - intros [= <-]. split; [reflexivity |]. intros ? ? [].
  - cbn [loadEach].
    destruct (loadSetdex g v) as [s |] eqn:Hload; [| discriminate].
    destruct (loadEach rest) as [t |] eqn:Hrest; [| discriminate].
    intros [= <-]. destruct (IH t eq_refl) as [Hkeys Hentries].
    split; [cbn; rewrite Hkeys; reflexivity |].
    intros genNum varName [[= <- <-] | Hin] Hnodup.
    + exists s. cbn [entry]. rewrite Z.eqb_refl. split; [exact Hload | reflexivity].
    + cbn [map fst] in Hnodup. apply NoDup_cons in Hnodup as [Hfresh Hnodup].
      destruct (Hentries _ _ Hin Hnodup) as (s' & Hload' & Hentry).
      exists s'. split; [exact Hload' |]. cbn [entry].
      destruct (Z.eqb_spec g genNum) as [-> | Hne]; [| exact Hentry].
      exfalso. apply Hfresh. apply list_elem_of_In, in_map_iff.
      exists (genNum, varName). split; [reflexivity | exact Hin].
Qed.

Lemma entry_keys (table : list (Z * Setdex)) (genNum : Z) :
  is_Some (entry table genNum) <-> In genNum (map fst table).
Proof.
  induction table as [| [k s] rest IH]; cbn [entry map fst In].
  - split; [intros [x Hx]; discriminate | tauto].
  - destruct (Z.eqb_spec k genNum) as [-> | Hne].
    + split; [tauto | eauto].
    + rewrite IH. tauto.
Qed.

(** The first entry that fails ends the evaluation with its error. *)
Lemma loadEach_first_failure (before rest : list (Z * string))
    (genNum : Z) (varName : string) (e : LoadError) :
  Forall (fun entry =>
            exists setdex, loadSetdex (fst entry) (snd entry) = Return setdex)
    before ->
  loadSetdex genNum varName = Throw e ->
  loadEach (before ++ (genNum, varName) :: rest) = Throw e.
Proof.
  intros Hbefore Hfail.
  induction Hbefore as [| [g v] before [s Hs] _ IH]; cbn [app loadEach].
  - rewrite Hfail. reflexivity.
  - cbn [fst snd] in Hs. rewrite Hs, IH. reflexivity.
Qed.

(** X24.  Once the module has loaded, [SETDEX_BY_GEN] has a dataset for
    exactly the generations 1 to 9, each the variable its file defined
    ([SETDEX_RBY] for 1 up to [SETDEX_SV] for 9); so the lookup of a
    trainer's set throws "set data not found" exactly for a generation
    number outside 1..9. *)
Theorem loaded_module_knows_generations_1_to_9 (table : list (Z * Setdex)) :
  loadAll = Return table ->
  (forall genNum : Z, is_Some (entry table genNum) <-> 1 <= genNum <= 9)
  /\ (forall genNum varName,
        In (genNum, varName) generationVariables ->
        exists setdex,
          loadSetdex genNum varName = Return setdex
          /\ entry table genNum = Some setdex)
  /\ (forall (genNum : Z) (speciesName trainerName : string),
        resolveOne (dataset := loaded table) genNum speciesName trainerName
        = Throw (DatasetNotFound genNum)
        <-> ~ 1 <= genNum <= 9).
Proof.
  unfold loadAll. intros Hload.
  destruct (loadEach_keys _ _ Hload) as [Hkeys Hentries].
  assert (Hrange : forall genNum : Z,
            is_Some (entry table genNum) <-> 1 <= genNum <= 9).
  { intros genNum. rewrite entry_keys, Hkeys. cbn. lia. }
  split; [exact Hrange |]. split.
  - intros genNum varName Hin. apply (Hentries _ _ Hin).
    cbn. repeat constructor; cbn; rewrite ?list_elem_of_In; cbn; lia.
  - intros genNum speciesName trainerName. rewrite <- Hrange. split.
    + intros Hthrow [s Hs].
      apply resolveOne_dataset_error in Hthrow. cbn in Hthrow. congruence.
    + intros Hnone. unfold resolveOne. cbn [SETDEX_BY_GEN loaded].
      destruct (entry table genNum) as [s |]; [| reflexivity].
      exfalso. apply Hnone. eauto.
Qed.

(** X25.  Loading is all or nothing: when the file of one generation fails
    to load and the files before it load, evaluating the [SETDEX_BY_GEN]
    literal throws that file's error and the module serves no generation
    at all, not even those whose files are intact. *)
Theorem first_failing_file_stops_the_load (before rest : list (Z * string))
    (genNum : Z) (varName : string) (e : LoadError) :
  generationVariables = (before ++ (genNum, varName) :: rest)%list ->
  Forall (fun entry =>
            exists setdex, loadSetdex (fst entry) (snd entry) = Return setdex)
    before ->
  loadSetdex genNum varName = Throw e ->
  loadAll = Throw e.
Proof.
  intros Hsplit Hbefore Hfail. unfold loadAll. rewrite Hsplit.
  exact (loadEach_first_failure before rest genNum varName e Hbefore Hfail).
Qed.

End LoaderFacts.

(** X23 run on the file of generation 8. *)
Lemma loadSetdex_outcomes_witness :
  loadSetdex (host := Examples.host) 8 "SETDEX_SS" = Return Sample.gen8.
Proof.
  apply (proj1 (loadSetdex_outcomes (host := Examples.host) 8 "SETDEX_SS")).
  split; [reflexivity |].
  exists "/app/src/js/data/sets/gen8.js", "/app/src/js/data/sets/gen8.js",
    (fun _ => Some Sample.gen8).
  repeat split.
Defined.

(** X24 run on a host that has all nine files. *)
Lemma loaded_module_knows_generations_1_to_9_witness :
  (forall genNum : Z,
     is_Some (entry Examples.table genNum) <-> 1 <= genNum <= 9)
  /\ (forall genNum varName,
        In (genNum, varName) generationVariables ->
        exists setdex,
          loadSetdex (host := Examples.host) genNum varName = Return setdex
          /\ entry Examples.table genNum = Some setdex)
  /\ (forall (genNum : Z) (speciesName trainerName : string),
        resolveOne (dataset := loaded Examples.table) genNum speciesName
          trainerName
        = Throw (DatasetNotFound genNum)
        <-> ~ 1 <= genNum <= 9).
Proof.
  apply (loaded_module_knows_generations_1_to_9 (host := Examples.host)
           Examples.table).
  vm_compute. reflexivity.
Defined.

(** X25 run on a host without the file of generation 3. *)
Lemma first_failing_file_stops_the_load_witness :
  loadAll (host := Examples.hostWithoutGen3)
  = Throw (SetdexFileNotFound 3 "/app/src/js/data/sets/gen3.js").
Proof.
  apply (first_failing_file_stops_the_load (host := Examples.hostWithoutGen3)
           [(1, "SETDEX_RBY"); (2, "SETDEX_GSC")]
           [(4, "SETDEX_DPP"); (5, "SETDEX_BW"); (6, "SETDEX_XY");
            (7, "SETDEX_SM"); (8, "SETDEX_SS"); (9, "SETDEX_SV")]
           3 "SETDEX_ADV").
  - reflexivity.
  - repeat constructor; exists Sample.gen8; vm_compute; reflexivity.
  - vm_compute. reflexivity.
Defined.

(** ** The one-direction script *)

Section LegacyFacts.
Context {library : Calc}.

(** X26.  The one-direction script throws a [TypeError] of its own, outside
    its [try] and before any call into the library, exactly when the
    request lacks [attacker], [defender], [field], [field.attackerSide] or
    [field.defenderSide]; with all five present every failure is caught and
    logged. *)
Theorem legacy_script_needs_every_object (options : Legacy.Input.t)
    (log : list Event) :
  (fst (Legacy.calculateDamageCLI options log) = Legacy.Thrown
   <-> legacyObjects options = false)
  /\ (legacyObjects options = false ->
      snd (Legacy.calculateDamageCLI options log) = log).
Proof.
  unfold Legacy.calculateDamageCLI, Legacy.literals, legacyObjects.
  destruct (Legacy.Input.attacker options) as [a |];
    [| repeat split].
  destruct (Legacy.Input.defender options) as [d |];
    [| repeat split].
  destruct (Legacy.Input.field options) as [f |];
    [| repeat split].
  destruct (Legacy.FieldInput.attackerSide f) as [s1 |];
    [| repeat split].
  destruct (Legacy.FieldInput.defenderSide f) as [s2 |];
    [| repeat split].
  destruct (Legacy.tryBlock _ _ _ _ _ _ _ log) as [[o | e] l];
    (split; [split; discriminate | discriminate]).
Qed.

(** X27.  With the five objects present and both Pokemon constructed, the
    one-direction script prints one result per move of [options.moves], in
    order, whenever the moves can be constructed, whatever [calculate]
    does; the output names the generation and both Pokemon.  Without
    [options.moves] it logs the [TypeError] of the loop after constructing
    both Pokemon and the field, and prints nothing. *)
Theorem legacy_script_answers_every_move (options : Legacy.Input.t)
    (a d : Raw.t) (f : Legacy.FieldInput.t) (s1 s2 : SideInput)
    (gen : Generation) (pa pd : Pokemon) (log : list Event) :
  gen = Generations_get (Js.num_or (Legacy.Input.generation options) 9) ->
  Legacy.Input.attacker options = Some a ->
  Legacy.Input.defender options = Some d ->
  Legacy.Input.field options = Some f ->
  Legacy.FieldInput.attackerSide f = Some s1 ->
  Legacy.FieldInput.defenderSide f = Some s2 ->
  Pokemon_new gen (Raw.name a) (Legacy.pokemonOptions a) = Return pa ->
  Pokemon_new gen (Raw.name d) (Legacy.pokemonOptions d) = Return pd ->
  (forall moves : list string,
     Legacy.Input.moves options = Some moves ->
     constructible gen moves ->
     exists (output : Legacy.Output) (log' : list Event),
       Legacy.calculateDamageCLI options log = (Legacy.Printed output, log')
       /\ map moveName (Legacy.moves output) = moves
       /\ Legacy.generation output = num gen
       /\ Legacy.attacker output = Legacy.summary pa
       /\ Legacy.defender output = Legacy.summary pd)
  /\ (Legacy.Input.moves options = None ->
      Legacy.calculateDamageCLI options log
      = (Legacy.ErrorLogged Legacy.TypeError,
         (log
          ++ [NewPokemon gen (Raw.name a) (Legacy.pokemonOptions a);
              NewPokemon gen (Raw.name d) (Legacy.pokemonOptions d);
              NewField
                (Legacy.fieldOptions (Legacy.FieldInput.flags f) s1 s2)])%list)).
Proof.
  intros -> Ha Hd Hf Hs1 Hs2 Hpa Hpd.
  unfold Legacy.calculateDamageCLI, Legacy.literals.
  rewrite Ha, Hd, Hf, Hs1, Hs2. unfold Legacy.tryBlock.
  split.
  - intros moves Hmoves Hall. rewrite Hmoves.
    unfold bind, raise, call, ret. rewrite Hpa, Hpd. cbv beta iota.
    match goal with
    | |- context [moveCalculations ?g pa pd ?fld moves ?l] =>
        destruct (moveCalculations_returns g pa pd fld moves l Hall)
          as (results & log' & Hrun & Hnames)
    end.
    rewrite Hrun.
    eexists. eexists. split; [reflexivity |].
    cbn [Legacy.moves Legacy.generation Legacy.attacker Legacy.defender].
    repeat split. exact Hnames.
  - intros Hnone. rewrite Hnone.
    unfold bind, raise, call, pure, ret. rewrite Hpa, Hpd. cbv beta iota.
    rewrite <- ?app_assoc. reflexivity.
Qed.

End LegacyFacts.

(** X26 run on a request without [field]. *)
Lemma legacy_script_needs_every_object_witness :
  fst (Legacy.calculateDamageCLI (library := Sample.calc)
         (Examples.legacy (Some ["Dragon Claw"]) None) [])
  = Legacy.Thrown.
Proof.
  apply (proj1 (legacy_script_needs_every_object (library := Sample.calc)
                  (Examples.legacy (Some ["Dragon Claw"]) None) [])).
  reflexivity.
Defined.

(** X27 run on Garchomp against Corviknight, with a move [calculate]
    rejects. *)
Lemma legacy_script_answers_every_move_witness :
  exists (output : Legacy.Output) (log' : list Event),
    Legacy.calculateDamageCLI (library := Sample.calc)
      (Examples.legacy (Some ["Dragon Claw"; "Curse"]) (Some Examples.field))
      []
    = (Legacy.Printed output, log')
    /\ map moveName (Legacy.moves output) = ["Dragon Claw"; "Curse"]
    /\ Legacy.generation output = 9
    /\ Legacy.attacker output
       = Legacy.summary (library := Sample.calc)
           (Legacy.pokemonOptions (Sample.named "Garchomp" []))
    /\ Legacy.defender output
       = Legacy.summary (library := Sample.calc)
           (Legacy.pokemonOptions (Sample.named "Corviknight" [])).
Proof.
  apply (legacy_script_answers_every_move (library := Sample.calc)
           (Examples.legacy (Some ["Dragon Claw"; "Curse"])
              (Some Examples.field))
           (Sample.named "Garchomp" []) (Sample.named "Corviknight" [])
           Examples.field emptySide emptySide 9
           (Legacy.pokemonOptions (Sample.named "Garchomp" []))
           (Legacy.pokemonOptions (Sample.named "Corviknight" [])) []
           eq_refl eq_refl eq_refl eq_refl eq_refl eq_refl eq_refl eq_refl).
  - reflexivity.
  - intros name isCrit Hin. cbn in Hin.
    destruct Hin as [<- | [<- | []]]; eexists; reflexivity.
Defined.
